(** * TSDB engine core: repository, commit trigger, memtable and file groups

    A shallow embedding of [tsdbMain.c] (repository, configuration, insert,
    commit trigger and commit task) and of [tsdbFile.c] (file groups and the
    file directory), with the properties of the engine's specification stated
    and proved over it.

    Conventions.
    - C integers are [Z]; arithmetic that can leave the type's range is
      written with [wrap32]/[wrap64].
    - A C function that mutates its arguments returns the new values next to
      its return code.
    - Where C has undefined behaviour (a dereference of NULL, of freed memory,
      an index past an array) the embedding returns [None]. *)

From Stdlib Require Import ZArith Lia List Bool DecimalString Sorted.
From Stdlib Require Import Strings.Byte.
From stdpp Require Import base option list gmap strings sorting.

Local Open Scope Z_scope.

(** ** Machine integers *)

Definition wrap (w x : Z) : Z := (x + 2 ^ (w - 1)) mod 2 ^ w - 2 ^ (w - 1).
Definition wrap32 : Z -> Z := wrap 32.
Definition wrap64 : Z -> Z := wrap 64.

Definition INT_MAX : Z := 2147483647.
Definition INT_MIN : Z := -2147483648.
Definition INT64_MAX : Z := 9223372036854775807.
Definition INT64_MIN : Z := -9223372036854775808.

Definition int32 (x : Z) : Prop := INT_MIN <= x <= INT_MAX.
Definition int64 (x : Z) : Prop := INT64_MIN <= x <= INT64_MAX.

(** ** Repository configuration ([STsdbCfg], [tsdbCheckAndSetDefaultCfg]) *)

Module Cfg.

(** The struct is declared in [tsdb.h], which is not part of the sources; the
    fields are those [tsdbCheckAndSetDefaultCfg] reads and writes. *)
Record STsdbCfg := mkCfg {
  precision : Z;            (* int8_t  *)
  tsdbId : Z;               (* int32_t *)
  maxTables : Z;            (* int32_t *)
  daysPerFile : Z;          (* int32_t *)
  minRowsPerFileBlock : Z;  (* int32_t *)
  maxRowsPerFileBlock : Z;  (* int32_t *)
  keep : Z;                 (* int32_t *)
  maxCacheSize : Z          (* int64_t *)
}.

(** Modelled from the spec: the precision codes of [taosdef.h], which is not
    part of the sources.  The spec orders them milli, micro, nano, and the
    sources index the three-entry table [tsMsPerDay] by them. *)
Definition TSDB_PRECISION_MILLI : Z := 0.
Definition TSDB_PRECISION_MICRO : Z := 1.
Definition TSDB_PRECISION_NANO : Z := 2.

Definition TSDB_DEFAULT_PRECISION : Z := TSDB_PRECISION_MILLI.
Definition IS_VALID_PRECISION (p : Z) : bool :=
  (TSDB_PRECISION_MILLI <=? p) && (p <=? TSDB_PRECISION_NANO).
Definition TSDB_MIN_ID : Z := 0.
Definition TSDB_MAX_ID : Z := INT_MAX.
Definition TSDB_MIN_TABLES : Z := 10.
Definition TSDB_MAX_TABLES : Z := 100000.
Definition TSDB_DEFAULT_TABLES : Z := 1000.
Definition TSDB_DEFAULT_DAYS_PER_FILE : Z := 10.
Definition TSDB_MIN_DAYS_PER_FILE : Z := 1.
Definition TSDB_MAX_DAYS_PER_FILE : Z := 60.
Definition TSDB_DEFAULT_MIN_ROW_FBLOCK : Z := 100.
Definition TSDB_MIN_MIN_ROW_FBLOCK : Z := 10.
Definition TSDB_MAX_MIN_ROW_FBLOCK : Z := 1000.
Definition TSDB_DEFAULT_MAX_ROW_FBLOCK : Z := 4096.
Definition TSDB_MIN_MAX_ROW_FBLOCK : Z := 200.
Definition TSDB_MAX_MAX_ROW_FBLOCK : Z := 10000.
Definition TSDB_DEFAULT_KEEP : Z := 3650.
Definition TSDB_MIN_KEEP : Z := 1.
Definition TSDB_MAX_KEEP : Z := INT_MAX.
Definition TSDB_DEFAULT_CACHE_SIZE : Z := 16 * 1024 * 1024.
Definition TSDB_MIN_CACHE_SIZE : Z := 4 * 1024 * 1024.
Definition TSDB_MAX_CACHE_SIZE : Z := 1024 * 1024 * 1024.

Definition set_precision (v : Z) (c : STsdbCfg) : STsdbCfg :=
  mkCfg v (tsdbId c) (maxTables c) (daysPerFile c) (minRowsPerFileBlock c)
        (maxRowsPerFileBlock c) (keep c) (maxCacheSize c).
Definition set_maxTables (v : Z) (c : STsdbCfg) : STsdbCfg :=
  mkCfg (precision c) (tsdbId c) v (daysPerFile c) (minRowsPerFileBlock c)
        (maxRowsPerFileBlock c) (keep c) (maxCacheSize c).
Definition set_daysPerFile (v : Z) (c : STsdbCfg) : STsdbCfg :=
  mkCfg (precision c) (tsdbId c) (maxTables c) v (minRowsPerFileBlock c)
        (maxRowsPerFileBlock c) (keep c) (maxCacheSize c).
Definition set_minRowsPerFileBlock (v : Z) (c : STsdbCfg) : STsdbCfg :=
  mkCfg (precision c) (tsdbId c) (maxTables c) (daysPerFile c) v
        (maxRowsPerFileBlock c) (keep c) (maxCacheSize c).
Definition set_maxRowsPerFileBlock (v : Z) (c : STsdbCfg) : STsdbCfg :=
  mkCfg (precision c) (tsdbId c) (maxTables c) (daysPerFile c)
        (minRowsPerFileBlock c) v (keep c) (maxCacheSize c).
Definition set_keep (v : Z) (c : STsdbCfg) : STsdbCfg :=
  mkCfg (precision c) (tsdbId c) (maxTables c) (daysPerFile c)
        (minRowsPerFileBlock c) (maxRowsPerFileBlock c) v (maxCacheSize c).
Definition set_maxCacheSize (v : Z) (c : STsdbCfg) : STsdbCfg :=
  mkCfg (precision c) (tsdbId c) (maxTables c) (daysPerFile c)
        (minRowsPerFileBlock c) (maxRowsPerFileBlock c) (keep c) v.

(** [tsdbSetDefaultCfg]: every option is the sentinel -1, except [tsdbId],
    which is 0. *)
Definition tsdbSetDefaultCfg : STsdbCfg := mkCfg (-1) 0 (-1) (-1) (-1) (-1) (-1) (-1).

(** The function works on [*pCfg] in place and leaves through [return -1]
    in the middle: a step either goes on with the configuration as written
    so far, or returns. *)
Inductive step :=
| Next (c : STsdbCfg)
| Ret (code : Z) (c : STsdbCfg).

Definition seq_step (s : step) (k : STsdbCfg -> step) : step :=
  match s with
  | Next c => k c
  | Ret code c => Ret code c
  end.

Notation "s >> k" := (seq_step s k) (at level 61, left associativity).

(** One option with a sentinel: [if (f == -1) f = dflt; else if (f < lo || f > hi) return -1;] *)
Definition default_or_check (get : STsdbCfg -> Z) (set : Z -> STsdbCfg -> STsdbCfg)
    (dflt lo hi : Z) (c : STsdbCfg) : step :=
  if get c =? -1 then Next (set dflt c)
  else if (get c <? lo) || (get c >? hi) then Ret (-1) c
  else Next c.

Definition check_precision (c : STsdbCfg) : step :=
  if precision c =? -1 then Next (set_precision TSDB_DEFAULT_PRECISION c)
  else if negb (IS_VALID_PRECISION (precision c)) then Ret (-1) c
  else Next c.

Definition check_tsdbId (c : STsdbCfg) : step :=
  if tsdbId c <? 0 then Ret (-1) c else Next c.

Definition check_rows (c : STsdbCfg) : step :=
  if minRowsPerFileBlock c >? maxRowsPerFileBlock c then Ret (-1) c else Next c.

Definition tsdbCheckAndSetDefaultCfg_steps (pCfg : STsdbCfg) : step :=
  check_precision pCfg
  >> check_tsdbId
  >> default_or_check maxTables set_maxTables
       TSDB_DEFAULT_TABLES TSDB_MIN_TABLES TSDB_MAX_TABLES
  >> default_or_check daysPerFile set_daysPerFile
       TSDB_DEFAULT_DAYS_PER_FILE TSDB_MIN_DAYS_PER_FILE TSDB_MAX_DAYS_PER_FILE
  >> default_or_check minRowsPerFileBlock set_minRowsPerFileBlock
       TSDB_DEFAULT_MIN_ROW_FBLOCK TSDB_MIN_MIN_ROW_FBLOCK TSDB_MAX_MIN_ROW_FBLOCK
  >> default_or_check maxRowsPerFileBlock set_maxRowsPerFileBlock
       TSDB_DEFAULT_MAX_ROW_FBLOCK TSDB_MIN_MAX_ROW_FBLOCK TSDB_MAX_MAX_ROW_FBLOCK
  >> check_rows
  >> default_or_check keep set_keep TSDB_DEFAULT_KEEP TSDB_MIN_KEEP TSDB_MAX_KEEP
  >> default_or_check maxCacheSize set_maxCacheSize
       TSDB_DEFAULT_CACHE_SIZE TSDB_MIN_CACHE_SIZE TSDB_MAX_CACHE_SIZE.

(** Return code and the configuration as the call leaves it. *)
Definition tsdbCheckAndSetDefaultCfg (pCfg : STsdbCfg) : Z * STsdbCfg :=
  match tsdbCheckAndSetDefaultCfg_steps pCfg with
  | Next c => (0, c)
  | Ret code c => (code, c)
  end.

(** *** The acceptance condition, in the words of the specification *)

Definition dflt (v d : Z) : Z := if v =? -1 then d else v.

(** Defaults substituted for the options that hold the sentinel. *)
Definition with_defaults (c : STsdbCfg) : STsdbCfg :=
  mkCfg (dflt (precision c) TSDB_DEFAULT_PRECISION)
        (tsdbId c)
        (dflt (maxTables c) TSDB_DEFAULT_TABLES)
        (dflt (daysPerFile c) TSDB_DEFAULT_DAYS_PER_FILE)
        (dflt (minRowsPerFileBlock c) TSDB_DEFAULT_MIN_ROW_FBLOCK)
        (dflt (maxRowsPerFileBlock c) TSDB_DEFAULT_MAX_ROW_FBLOCK)
        (dflt (keep c) TSDB_DEFAULT_KEEP)
        (dflt (maxCacheSize c) TSDB_DEFAULT_CACHE_SIZE).

(** "not the sentinel -1 => within [lo, hi]" *)
Definition unset_or_within (v lo hi : Z) : Prop := v <> -1 -> lo <= v <= hi.

(** The bounds of the seven options that have a default. *)
Definition options_within (c : STsdbCfg) : Prop :=
  unset_or_within (precision c) TSDB_PRECISION_MILLI TSDB_PRECISION_NANO /\
  unset_or_within (maxTables c) 10 100000 /\
  unset_or_within (daysPerFile c) 1 60 /\
  unset_or_within (minRowsPerFileBlock c) 10 1000 /\
  unset_or_within (maxRowsPerFileBlock c) 200 10000 /\
  (keep c <> -1 -> 1 <= keep c) /\
  unset_or_within (maxCacheSize c) (4 * 1024 * 1024) (1024 * 1024 * 1024).

Definition rows_ordered (c : STsdbCfg) : Prop :=
  minRowsPerFileBlock (with_defaults c) <= maxRowsPerFileBlock (with_defaults c).

(** The acceptance condition.  [tsdbId] has no default and so no sentinel
    ([tsdbSetDefaultCfg] sets it to 0): its bound holds for every value. *)
Definition accepts (c : STsdbCfg) : Prop :=
  options_within c /\ 0 <= tsdbId c /\ rows_ordered c.

(** The fields are C integers: [keep] is an [int32_t]. *)
Definition cfg_in_range (c : STsdbCfg) : Prop := keep c <= INT_MAX.

(** *** What the validation may change *)

(** The configuration a step leaves in [*pCfg], whether it goes on or
    returns. *)
Definition step_cfg (s : step) : STsdbCfg :=
  match s with
  | Next c => c
  | Ret _ c => c
  end.

(** A step that returns does so with -1. *)
Definition returns_minus_one (s : step) : Prop :=
  match s with
  | Next _ => True
  | Ret code _ => code = -1
  end.

(** "the option is as it was, or it was the sentinel and now holds [d]" *)
Definition kept_or_default (v v' d : Z) : Prop := v' = v \/ (v = -1 /\ v' = d).

(** [c'] is [c] but for sentinels replaced by their defaults. *)
Definition defaults_only (c c' : STsdbCfg) : Prop :=
  kept_or_default (precision c) (precision c') TSDB_DEFAULT_PRECISION /\
  tsdbId c' = tsdbId c /\
  kept_or_default (maxTables c) (maxTables c') TSDB_DEFAULT_TABLES /\
  kept_or_default (daysPerFile c) (daysPerFile c') TSDB_DEFAULT_DAYS_PER_FILE /\
  kept_or_default (minRowsPerFileBlock c) (minRowsPerFileBlock c')
    TSDB_DEFAULT_MIN_ROW_FBLOCK /\
  kept_or_default (maxRowsPerFileBlock c) (maxRowsPerFileBlock c')
    TSDB_DEFAULT_MAX_ROW_FBLOCK /\
  kept_or_default (keep c) (keep c') TSDB_DEFAULT_KEEP /\
  kept_or_default (maxCacheSize c) (maxCacheSize c') TSDB_DEFAULT_CACHE_SIZE.

(** Every option within the bounds the validation enforces. *)
Definition cfg_valid (c : STsdbCfg) : Prop :=
  TSDB_PRECISION_MILLI <= precision c <= TSDB_PRECISION_NANO /\
  TSDB_MIN_ID <= tsdbId c /\
  TSDB_MIN_TABLES <= maxTables c <= TSDB_MAX_TABLES /\
  TSDB_MIN_DAYS_PER_FILE <= daysPerFile c <= TSDB_MAX_DAYS_PER_FILE /\
  TSDB_MIN_MIN_ROW_FBLOCK <= minRowsPerFileBlock c <= TSDB_MAX_MIN_ROW_FBLOCK /\
  TSDB_MIN_MAX_ROW_FBLOCK <= maxRowsPerFileBlock c <= TSDB_MAX_MAX_ROW_FBLOCK /\
  minRowsPerFileBlock c <= maxRowsPerFileBlock c /\
  TSDB_MIN_KEEP <= keep c <= TSDB_MAX_KEEP /\
  TSDB_MIN_CACHE_SIZE <= maxCacheSize c <= TSDB_MAX_CACHE_SIZE.

End Cfg.

(** ** The operating system as the file layer sees it

    Files by path, the descriptor table, and the failures the environment
    may inject: each call that can fail for a reason outside the program
    (no space, no memory, no permission) takes the next entry of [os_faults];
    [true] makes it fail, and an exhausted list means no further failure. *)

Module Posix.

Definition O_RDONLY : Z := 0.
Definition O_WRONLY : Z := 1.
Definition O_RDWR : Z := 2.
Definition O_ACCMODE : Z := 3.
Definition O_CREAT : Z := 64.

Record OpenFile := mkOpenFile {
  of_path : string;
  of_pos : Z;
  of_flags : Z
}.

Record OS := mkOS {
  os_files : gmap string (list byte);
  os_fdt : gmap nat OpenFile;
  os_faults : list bool
}.

Definition readable (f : OpenFile) : bool :=
  negb (Z.land (of_flags f) O_ACCMODE =? O_WRONLY).
Definition writable (f : OpenFile) : bool :=
  negb (Z.land (of_flags f) O_ACCMODE =? O_RDONLY).

Definition fd_lookup (os : OS) (fd : Z) : option OpenFile :=
  if fd <? 0 then None else os_fdt os !! Z.to_nat fd.

Definition next_fault (os : OS) : bool * OS :=
  match os_faults os with
  | [] => (false, os)
  | b :: rest => (b, mkOS (os_files os) (os_fdt os) rest)
  end.

(** [access(path, F_OK)] *)
Definition access (path : string) (os : OS) : Z :=
  match os_files os !! path with
  | Some _ => 0
  | None => -1
  end.

(** [open(path, oflag, mode)]: the new descriptor is one that is not in use
    (POSIX takes the lowest; nothing below depends on which). *)
Definition open (path : string) (oflag : Z) (os : OS) : Z * OS :=
  let '(fail, os) := next_fault os in
  if fail then (-1, os)
  else
    let fd := fresh (dom (os_fdt os)) in
    let entry := mkOpenFile path 0 oflag in
    match os_files os !! path with
    | Some _ =>
        (Z.of_nat fd, mkOS (os_files os) (<[fd := entry]> (os_fdt os)) (os_faults os))
    | None =>
        if Z.testbit oflag 6 (* O_CREAT *)
        then (Z.of_nat fd,
              mkOS (<[path := []]> (os_files os)) (<[fd := entry]> (os_fdt os))
                   (os_faults os))
        else (-1, os)
    end.

Definition close (fd : Z) (os : OS) : Z * OS :=
  match fd_lookup os fd with
  | Some _ => (0, mkOS (os_files os) (delete (Z.to_nat fd) (os_fdt os)) (os_faults os))
  | None => (-1, os)
  end.

(** [lseek(fd, off, SEEK_SET)] *)
Definition lseek_set (fd off : Z) (os : OS) : Z * OS :=
  match fd_lookup os fd with
  | Some f =>
      if off <? 0 then (-1, os)
      else (off, mkOS (os_files os)
                      (<[Z.to_nat fd := mkOpenFile (of_path f) off (of_flags f)]> (os_fdt os))
                      (os_faults os))
  | None => (-1, os)
  end.

(** The bytes of a file after [buf] is written at [pos]: a gap between the
    old end and [pos] reads as zeros. *)
Definition pwrite (content : list byte) (pos : nat) (buf : list byte) : list byte :=
  take pos (content ++ replicate (pos - length content) x00)
  ++ buf ++ drop (pos + length buf) content.

(** [write(fd, buf, |buf|)] on a regular file: all of [buf], or -1. *)
Definition write (fd : Z) (buf : list byte) (os : OS) : Z * OS :=
  match fd_lookup os fd with
  | Some f =>
      if writable f then
        let '(fail, os) := next_fault os in
        if fail then (-1, os)
        else
          match os_files os !! of_path f with
          | Some content =>
              let n := Z.of_nat (length buf) in
              (n, mkOS (<[of_path f := pwrite content (Z.to_nat (of_pos f)) buf]> (os_files os))
                       (<[Z.to_nat fd := mkOpenFile (of_path f) (of_pos f + n) (of_flags f)]>
                          (os_fdt os))
                       (os_faults os))
          | None => (-1, os)
          end
      else (-1, os)
  | None => (-1, os)
  end.

(** [read(fd, buf, count)]: the bytes from the file position on, at most
    [count] of them, or -1. *)
Definition read (fd : Z) (count : Z) (os : OS) : Z * list byte * OS :=
  match fd_lookup os fd with
  | Some f =>
      if readable f then
        let '(fail, os) := next_fault os in
        if fail then (-1, [], os)
        else
          match os_files os !! of_path f with
          | Some content =>
              let data := take (Z.to_nat count) (drop (Z.to_nat (of_pos f)) content) in
              let n := Z.of_nat (length data) in
              (n, data,
               mkOS (os_files os)
                    (<[Z.to_nat fd := mkOpenFile (of_path f) (of_pos f + n) (of_flags f)]>
                       (os_fdt os))
                    (os_faults os))
          | None => (-1, [], os)
          end
      else (-1, [], os)
  | None => (-1, [], os)
  end.

(** [calloc(1, size)] with [size] an [int]: a negative [size] converts to a
    [size_t] no allocator can serve. *)
Definition calloc_ok (size : Z) (os : OS) : bool * OS :=
  if size <? 0 then (false, os)
  else let '(fail, os) := next_fault os in (negb fail, os).

(** Descriptor [n] is open on [path] at position [pos], and the files are
    those of [os0] with [path] holding [c]. *)
Definition on_file (os0 os : OS) (n : nat) (path : string) (flags pos : Z)
    (c : list byte) : Prop :=
  os_fdt os !! n = Some (mkOpenFile path pos flags) /\
  os_files os = <[path := c]> (os_files os0).

(** No failure is injected from this state on. *)
Definition quiet (os : OS) : Prop := Forall (fun b => b = false) (os_faults os).

(** [remove(path)] of a regular file: the name goes, or -1.  (POSIX keeps the
    file itself until the last descriptor on it is closed; nothing below
    reads or writes through a descriptor after a removal.) *)
Definition remove (path : string) (os : OS) : Z * OS :=
  match os_files os !! path with
  | Some _ =>
      let '(fail, os) := next_fault os in
      if fail then (-1, os)
      else (0, mkOS (delete path (os_files os)) (os_fdt os) (os_faults os))
  | None => (-1, os)
  end.

(** An [int] or [int64_t] passed where a [size_t] is taken. *)
Definition to_size_t (x : Z) : Z := x mod 2 ^ 64.

(** Descriptor [n], which was free in [os0], is open on [path] at position
    [pos] with the flags [flags]; the other descriptors are those of [os0],
    and the files are those of [os0] with [path] holding [c]. *)
Definition opened (os0 os : OS) (n : nat) (path : string) (flags pos : Z)
    (c : list byte) : Prop :=
  os_fdt os0 !! n = None /\
  os_fdt os = <[n := mkOpenFile path pos flags]> (os_fdt os0) /\
  os_files os = <[path := c]> (os_files os0).

End Posix.

(** ** File groups and the file directory ([tsdbFile.c]) *)

(** Constants of [tsdbFile.h], which is not part of the sources: the size of
    the header every file starts with, and the size of one [SCompIdx]. *)
Class Layout := mkLayout {
  TSDB_FILE_HEAD_SIZE : Z;
  sizeof_SCompIdx : Z;
  head_size_pos : 0 < TSDB_FILE_HEAD_SIZE;
  sizeof_SCompIdx_pos : 0 < sizeof_SCompIdx
}.

Module File.
Import Posix.

Section WithLayout.
Context `{L : Layout}.

Definition TSDB_FILE_TYPE_HEAD : Z := 0.
Definition TSDB_FILE_TYPE_DATA : Z := 1.
Definition TSDB_FILE_TYPE_LAST : Z := 2.
Definition TSDB_FILE_TYPE_MAX : Z := 3.

Definition tsdbFileSuffix : list string := [".head"; ".data"; ".last"]%string.

(** The structs are declared in [tsdbFile.h], which is not part of the
    sources; the fields are those [tsdbFile.c] reads and writes. *)
Record SFile := mkSFile {
  fd : Z;
  fname : string;
  size : Z
}.

#[export] Instance SFile_inhabited : Inhabited SFile := populate (mkSFile 0 "" 0).

Record SFileGroup := mkSFileGroup {
  fileId : Z;
  files : list SFile   (* files[TSDB_FILE_TYPE_MAX] *)
}.

(** The directory.  [fGroup] is the live part [fGroup[0 .. numOfFGroups)] of
    the array, so [numOfFGroups] is its length; the array itself has room for
    [maxFGroups] groups. *)
Record STsdbFileH := mkFileH {
  maxFGroups : Z;
  fGroup : list SFileGroup
}.

Definition numOfFGroups (h : STsdbFileH) : Z := Z.of_nat (length (fGroup h)).

(** A file is marked closed by [fd = -1] ([tsdbCreateFile], [tsdbCloseFile]);
    the macro itself is in the missing header. *)
Definition TSDB_IS_FILE_OPENED (f : SFile) : bool := negb (fd f =? -1).

(** [sprintf(fname, "%s/f%d%s", dataDir, fileId, suffix)] *)
Definition tsdbGetFileName (dataDir : string) (fileId : Z) (suffix : string) : string :=
  (dataDir ++ "/f" ++ NilEmpty.string_of_int (Z.to_int fileId) ++ suffix)%string.

Definition tsdbOpenFile (pFile : SFile) (oflag : Z) (os : OS) : Z * SFile * OS :=
  if TSDB_IS_FILE_OPENED pFile then (-1, pFile, os)
  else
    let '(newfd, os) := open (fname pFile) oflag os in
    let pFile := mkSFile newfd (fname pFile) (size pFile) in
    if newfd <? 0 then (-1, pFile, os) else (0, pFile, os).

Definition tsdbCloseFile (pFile : SFile) (os : OS) : Z * SFile * OS :=
  if negb (TSDB_IS_FILE_OPENED pFile) then (-1, pFile, os)
  else
    let '(ret, os) := close (fd pFile) os in
    (ret, mkSFile (-1) (fname pFile) (size pFile), os).

Definition tsdbWriteFileHead (pFile : SFile) (os : OS) : Z * SFile * OS :=
  let head := replicate (Z.to_nat TSDB_FILE_HEAD_SIZE) x00 in
  let pFile := mkSFile (fd pFile) (fname pFile) (size pFile + TSDB_FILE_HEAD_SIZE) in
  let '(_, os) := lseek_set (fd pFile) 0 os in
  let '(n, os) := write (fd pFile) head os in
  if n <? 0 then (-1, pFile, os) else (0, pFile, os).

Definition tsdbWriteHeadFileIdx (pFile : SFile) (maxTables : Z) (os : OS)
    : Z * SFile * OS :=
  let size_ := wrap32 (sizeof_SCompIdx * maxTables) in
  let '(ok, os) := calloc_ok size_ os in
  if negb ok then (-1, pFile, os)
  else
    let '(r, os) := lseek_set (fd pFile) TSDB_FILE_HEAD_SIZE os in
    if r <? 0 then (-1, pFile, os)
    else
      let '(n, os) := write (fd pFile) (replicate (Z.to_nat size_) x00) os in
      if n <? 0 then (-1, pFile, os)
      else (0, mkSFile (fd pFile) (fname pFile) (size pFile + size_), os).

(** [*pFile] is cleared first, so the result does not depend on what it held. *)
Definition tsdbCreateFile (dataDir : string) (fileId : Z) (suffix : string)
    (maxTables : Z) (writeHeader toClose : Z) (os : OS) : Z * SFile * OS :=
  let pFile := mkSFile (-1) (tsdbGetFileName dataDir fileId suffix) 0 in
  if access (fname pFile) os =? 0 then (-1, pFile, os)   (* File already exists *)
  else
    let '(r, pFile, os) := tsdbOpenFile pFile (Z.lor O_WRONLY O_CREAT) os in
    if r <? 0 then (-1, pFile, os)
    else
      let '(r, pFile, os) :=
        if writeHeader =? 0 then (0, pFile, os)
        else tsdbWriteHeadFileIdx pFile maxTables os in
      if r <? 0 then
        let '(_, pFile, os) := tsdbCloseFile pFile os in (-1, pFile, os)
      else
        let '(r, pFile, os) := tsdbWriteFileHead pFile os in
        if r <? 0 then
          let '(_, pFile, os) := tsdbCloseFile pFile os in (-1, pFile, os)
        else if toClose =? 0 then (0, pFile, os)
        else let '(_, pFile, os) := tsdbCloseFile pFile os in (0, pFile, os).

Definition compFGroupKey (fid : Z) (pFGroup : SFileGroup) : Z :=
  wrap32 (fid - fileId pFGroup).

Definition compFGroup (arg1 arg2 : SFileGroup) : Z :=
  wrap32 (fileId arg1 - fileId arg2).

(** [bsearch]: the index of an element the key compares equal to.  The
    interval [lo, hi) halves at each turn, so [fuel = hi - lo + 1] turns
    are enough. *)
Fixpoint bsearch_loop {A} (compar : A -> Z) (base : list A) (fuel lo hi : nat)
    : option nat :=
  match fuel with
  | O => None
  | S fuel =>
      if (lo <? hi)%nat then
        let idx := ((lo + hi) / 2)%nat in
        match base !! idx with
        | None => None
        | Some p =>
            let c := compar p in
            if c <? 0 then bsearch_loop compar base fuel lo idx
            else if 0 <? c then bsearch_loop compar base fuel (S idx) hi
            else Some idx
        end
      else None
  end.

Definition bsearch {A} (compar : A -> Z) (base : list A) : option nat :=
  bsearch_loop compar base (S (length base)) 0 (length base).

(** [qsort]: the directory is short and inserts are rare; sorting by
    insertion gives the order any sort gives when the keys differ. *)
Fixpoint sort_insert {A} (compar : A -> A -> Z) (x : A) (l : list A) : list A :=
  match l with
  | [] => [x]
  | y :: l' => if compar x y <=? 0 then x :: l else y :: sort_insert compar x l'
  end.

Definition qsort {A} (compar : A -> A -> Z) (l : list A) : list A :=
  foldr (sort_insert compar) [] l.

(** The index of the group in [fGroup], for the pointer the C code returns. *)
Definition tsdbSearchFGroup (pFileH : STsdbFileH) (fid : Z) : option nat :=
  match fGroup pFileH !! 0%nat,
        fGroup pFileH !! Z.to_nat (numOfFGroups pFileH - 1) with
  | Some first, Some last =>
      if (fid <? fileId first) || (fid >? fileId last) then None
      else bsearch (compFGroupKey fid) (fGroup pFileH)
  | _, _ => None   (* numOfFGroups == 0 *)
  end.

(** The loop over the file types of [tsdbCreateFGroup]: the files created so
    far, or [None] at the first creation that fails. *)
Fixpoint create_group_files (types : list Z) (dataDir : string) (fid maxTables : Z)
    (created : list SFile) (os : OS) : option (list SFile) * OS :=
  match types with
  | [] => (Some created, os)
  | type :: rest =>
      let '(r, f, os) :=
        tsdbCreateFile dataDir fid (tsdbFileSuffix !!! Z.to_nat type) maxTables
          (if type =? TSDB_FILE_TYPE_HEAD then 1 else 0) 1 os in
      if r <? 0 then (None, os)
      else create_group_files rest dataDir fid maxTables (created ++ [f]) os
  end.

Definition file_types : list Z :=
  [TSDB_FILE_TYPE_HEAD; TSDB_FILE_TYPE_DATA; TSDB_FILE_TYPE_LAST].

Definition tsdbCreateFGroup (pFileH : STsdbFileH) (dataDir : string)
    (fid maxTables : Z) (os : OS) : Z * STsdbFileH * OS :=
  if numOfFGroups pFileH >=? maxFGroups pFileH then (-1, pFileH, os)
  else
    match tsdbSearchFGroup pFileH fid with
    | None =>   (* if not exists, create one *)
        match create_group_files file_types dataDir fid maxTables [] os with
        | (None, os) => (-1, pFileH, os)
        | (Some fs, os) =>
            let fGroup_ := mkSFileGroup fid fs in
            (0, mkFileH (maxFGroups pFileH)
                        (qsort compFGroup (fGroup pFileH ++ [fGroup_])), os)
        end
    | Some _ => (0, pFileH, os)
    end.

(** The loop of [tsdbOpenFilesForCommit]; the results of [tsdbOpenFile] are
    not looked at. *)
Fixpoint open_group_files (fs : list SFile) (os : OS) : list SFile * OS :=
  match fs with
  | [] => ([], os)
  | f :: rest =>
      let '(_, f, os) := tsdbOpenFile f O_RDWR os in
      let '(rest, os) := open_group_files rest os in
      (f :: rest, os)
  end.

Definition tsdbOpenFilesForCommit (pFileH : STsdbFileH) (fid : Z) (os : OS)
    : option nat * STsdbFileH * OS :=
  match tsdbSearchFGroup pFileH fid with
  | None => (None, pFileH, os)
  | Some i =>
      match fGroup pFileH !! i with
      | None => (None, pFileH, os)
      | Some g =>
          let '(fs, os) := open_group_files (files g) os in
          (Some i,
           mkFileH (maxFGroups pFileH)
                   (<[i := mkSFileGroup (fileId g) fs]> (fGroup pFileH)),
           os)
      end
  end.

(** [buf] comes back with the bytes read at its start. *)
Definition tsdbLoadCompIdx (pGroup : SFileGroup) (buf : list byte) (maxTables : Z)
    (os : OS) : Z * list byte * OS :=
  let pFile := files pGroup !!! Z.to_nat TSDB_FILE_TYPE_HEAD in
  let '(r, os) := lseek_set (fd pFile) TSDB_FILE_HEAD_SIZE os in
  if r <? 0 then (-1, buf, os)
  else
    let '(n, data, os) := read (fd pFile) (sizeof_SCompIdx * maxTables) os in
    if n <? 0 then (-1, buf, os)
    else (0, data ++ drop (length data) buf, os).


Definition le_decode (bs : list byte) : Z :=
  foldr (fun b acc => Z.of_N (Byte.to_N b) + 256 * acc) 0 bs.

Definition field_at (entry : list byte) (off width : nat) : Z :=
  le_decode (take width (drop off entry)).

(** Modelled from the spec: the table [tsMsPerDay] of time units per day,
    defined outside the sources and indexed by the precision (the spec's
    [unitsPerDay(precision)] for milli, micro and nano seconds); its entries
    are 64-bit. *)
Definition tsMsPerDay : list Z := [86400000; 86400000000; 86400000000000].

(** [fileId * daysPerFile] is a product of two [int32_t]; the products with
    the 64-bit table entry and the sum are 64-bit.  [None]: [precision]
    indexes past the table. *)
Definition tsdbGetKeyRangeOfFileId (daysPerFile precision fileId : Z)
    : option (Z * Z) :=
  if precision <? 0 then None
  else
    match tsMsPerDay !! Z.to_nat precision with
    | None => None
    | Some perDay =>
        let minKey := wrap64 (wrap32 (fileId * daysPerFile) * perDay) in
        let maxKey := wrap64 (wrap64 (minKey + wrap64 (daysPerFile * perDay)) - 1) in
        Some (minKey, maxKey)
    end.

(** The size of the index region [tsdbCreateFile] writes after the header:
    [int size = sizeof(SCompIdx) * maxTables] for the head file, nothing for
    the others. *)
Definition idx_region_size (writeHeader maxTables : Z) : Z :=
  if writeHeader =? 0 then 0 else wrap32 (sizeof_SCompIdx * maxTables).

Definition zeros (n : Z) : list byte := replicate (Z.to_nat n) x00.

(** The flags [tsdbCreateFile] opens with. *)
Definition wflags : Z := Z.lor O_WRONLY O_CREAT.

(** *** Directories the operations expect

    File ids far from the ends of [int], so that the comparators' differences
    do not wrap, and the array in increasing order of [fileId], as [bsearch]
    needs it. *)
Definition fid_small (fid : Z) : Prop := - 2 ^ 30 <= fid < 2 ^ 30.

Definition fid_lt (a b : SFileGroup) : Prop := fileId a < fileId b.

Definition fileH_wf (h : STsdbFileH) : Prop :=
  StronglySorted fid_lt (fGroup h) /\
  Forall (fun g => fid_small (fileId g)) (fGroup h).

Definition has_group (h : STsdbFileH) (fid : Z) : Prop :=
  exists g, g ∈ fGroup h /\ fileId g = fid.

End WithLayout.

(** *** Concrete inputs for the examples *)

(** A layout: 512 bytes of header, 24 bytes per [SCompIdx]. *)
Definition layout_example : Layout := mkLayout 512 24 eq_refl eq_refl.

(** An empty directory with room for ten groups. *)
Definition fileH_empty : STsdbFileH := mkFileH 10 [].

(** A directory that is full with its one group, of file id 5. *)
Definition fileH_full : STsdbFileH :=
  mkFileH 1 [mkSFileGroup 5 [mkSFile (-1) "data/f5.head" 752;
                             mkSFile (-1) "data/f5.data" 512;
                             mkSFile (-1) "data/f5.last" 512]].

(** A disk with nothing on it, and one where a head file of partition 5 is
    left over. *)
Definition os_empty : OS := mkOS ∅ ∅ [].
Definition os_leftover : OS := mkOS {[ "data/f5.head"%string := [x01; x02] ]} ∅ [].

(** Partition 5 for 100 tables, as [tsdbCreateFGroup] creates it in the
    empty directory on the empty disk. *)
Definition fgroup5 : SFileGroup :=
  mkSFileGroup 5 [mkSFile (-1) "data/f5.head" 2912;
                  mkSFile (-1) "data/f5.data" 512;
                  mkSFile (-1) "data/f5.last" 512].

Definition os_fgroup5 : OS :=
  mkOS (<["data/f5.last"%string := replicate 512 x00]>
          (<["data/f5.data"%string := replicate 512 x00]>
             (<["data/f5.head"%string := replicate 2912 x00]> ∅)))
       ∅ [].

(** *** Removing a group and loading block indexes *)

Section RemoveAndLoad.
Context `{L : Layout}.

#[export] Instance SFileGroup_inhabited : Inhabited SFileGroup :=
  populate (mkSFileGroup 0 []).

(** The loop over the file types of [tsdbRemoveFileGroup]; the results of
    [remove] are not looked at. *)
Fixpoint remove_group_files (types : list Z) (pGroup : SFileGroup) (os : OS) : OS :=
  match types with
  | [] => os
  | type :: rest =>
      let '(_, os) := remove (fname (files pGroup !!! Z.to_nat type)) os in
      remove_group_files rest pGroup os
  end.

(** [memmove] inside an array: the [n] elements from index [src] on are
    copied to index [dst] on. *)
Definition memmove {A} (arr : list A) (dst src n : nat) : list A :=
  take dst arr ++ take n (drop src arr) ++ drop (dst + n) arr.

(** [pGroup] is the element [bsearch] returns; the groups behind it move
    down by one and [numOfFGroups] is decremented. *)
Definition tsdbRemoveFileGroup (pFileH : STsdbFileH) (fid : Z) (os : OS)
    : Z * STsdbFileH * OS :=
  match bsearch (compFGroupKey fid) (fGroup pFileH) with
  | None => (-1, pFileH, os)
  | Some i =>
      let pGroup := fGroup pFileH !!! i in
      (* Remove from disk *)
      let os := remove_group_files file_types pGroup os in
      (* Adjust the memory *)
      let filesBehind := wrap32 (numOfFGroups pFileH - (Z.of_nat i + 1)) in
      let arr :=
        if filesBehind >? 0
        then memmove (fGroup pFileH) i (S i) (Z.to_nat filesBehind)
        else fGroup pFileH in
      (0, mkFileH (maxFGroups pFileH) (take (length (fGroup pFileH) - 1) arr), os)
  end.

(** [SCompIdx] is declared in [tsdbFile.h], which is not part of the
    sources; these are the two fields [tsdbLoadCompBlocks] reads: where the
    block index of a table starts in the head file, and its length in
    bytes. *)
Record SCompIdx := mkSCompIdx {
  offset : Z;
  len : Z
}.

(** [buf] comes back with the bytes read at its start. *)
Definition tsdbLoadCompBlocks (pGroup : SFileGroup) (pIdx : SCompIdx)
    (buf : list byte) (os : OS) : Z * list byte * OS :=
  let pFile := files pGroup !!! Z.to_nat TSDB_FILE_TYPE_HEAD in
  let '(r, os) := lseek_set (fd pFile) (offset pIdx) os in
  if r <? 0 then (-1, buf, os)
  else
    let '(n, data, os) := read (fd pFile) (to_size_t (len pIdx)) os in
    if n <? 0 then (-1, buf, os)
    else (0, data ++ drop (length data) buf, os).

End RemoveAndLoad.

(** A closed group of partition [fid] under ["data"], sizes as for 100
    tables. *)
Definition fgroup_at (fid : Z) : SFileGroup :=
  mkSFileGroup fid
    [mkSFile (-1) (tsdbGetFileName "data" fid ".head") 2912;
     mkSFile (-1) (tsdbGetFileName "data" fid ".data") 512;
     mkSFile (-1) (tsdbGetFileName "data" fid ".last") 512].

(** A directory of the partitions 3, 5 and 9, with room for ten. *)
Definition fileH_three : STsdbFileH :=
  mkFileH 10 [fgroup_at 3; fgroup_at 5; fgroup_at 9].

(** The files of a partition on a disk. *)
Definition with_fgroup_files (fid : Z) (m : gmap string (list byte))
    : gmap string (list byte) :=
  <[tsdbGetFileName "data" fid ".last" := replicate 512 x00]>
    (<[tsdbGetFileName "data" fid ".data" := replicate 512 x00]>
       (<[tsdbGetFileName "data" fid ".head" := replicate 2912 x00]> m)).

(** The disk that holds the files of the three partitions, all closed. *)
Definition os_three : OS :=
  mkOS (with_fgroup_files 9 (with_fgroup_files 5 (with_fgroup_files 3 ∅))) ∅ [].

(** An empty disk on which the first call that can fail succeeds and the
    second fails. *)
Definition os_second_fails : OS := mkOS ∅ ∅ [false; true].

(** Partition 5 with its three files open, and the disk in that state. *)
Definition fgroup5_open : SFileGroup :=
  mkSFileGroup 5 [mkSFile 0 "data/f5.head" 2912;
                  mkSFile 1 "data/f5.data" 512;
                  mkSFile 2 "data/f5.last" 512].

Definition os_fgroup5_open : OS :=
  mkOS (os_files os_fgroup5)
       (<[2%nat := mkOpenFile "data/f5.last" 0 O_RDWR]>
          (<[1%nat := mkOpenFile "data/f5.data" 0 O_RDWR]>
             (<[0%nat := mkOpenFile "data/f5.head" 0 O_RDWR]> ∅)))
       [].

(** A disk whose head file of partition 5 is cut off after two bytes, open
    on descriptor 0. *)
Definition os_short_head : OS :=
  mkOS {[ "data/f5.head"%string := [x01; x02] ]}
       {[ 0%nat := mkOpenFile "data/f5.head" 0 O_RDWR ]} [].

(** A disk where a data file of partition 5 is left over. *)
Definition os_data_leftover : OS :=
  mkOS {[ "data/f5.data"%string := [x01; x02] ]} ∅ [].

End File.

(** ** Rows, the skip list and the memtable *)

Module Row.

(** Modelled from the spec: a row is a variable-length record
    [{ length, timestamp, payload }]; [dataRowLen] and [dataRowKey] are the
    macros of [tdataformat.h], which is not part of the sources, that read
    the first two. *)
Record SDataRow := mkRow {
  dataRowLen : Z;
  dataRowKey : Z;          (* TSKEY, int64_t *)
  payload : list byte
}.

(** Modelled from the spec: the skip list of [tskiplist.c], which is not part
    of the sources, is an ordered set of rows keyed by timestamp; a put of a
    timestamp that is there replaces the row, another one is spliced in at
    its place in the order. *)
Definition SSkipList : Type := list SDataRow.

Definition tSkipListCreate : SSkipList := [].

Fixpoint tSkipListPut (pSkipList : SSkipList) (row : SDataRow) : SSkipList :=
  match pSkipList with
  | [] => [row]
  | r :: rest =>
      if dataRowKey row <? dataRowKey r then row :: pSkipList
      else if dataRowKey row =? dataRowKey r then row :: rest
      else r :: tSkipListPut rest row
  end.

Definition tSkipListGetSize (pSkipList : SSkipList) : Z := Z.of_nat (length pSkipList).

End Row.

(** ** The cache ([tsdbCache.h]) *)

Module Cache.

(** Modelled from the spec: the cache of [tsdbCache.c], which is not part of
    the sources.  Memory comes in blocks of a fixed size from a free pool;
    the active generation [mem] takes allocations, the frozen one [imem]
    takes none; [curBlock] is the block allocations are cut from.  The
    sources use the fields [mem], [imem], [curBlock], [pool.memPool] and, of
    a generation, [keyFirst], [keyLast] and [list]. *)
Record SCacheBlock := mkBlock {
  blockId : Z;
  offset : Z;
  remain : Z
}.

Record SCacheMem := mkCacheMem {
  keyFirst : Z;
  keyLast : Z;
  numOfPoints : Z;
  list_ : list SCacheBlock      (* the field [list] *)
}.

Record SCachePool := mkPool {
  cacheBlockSize : Z;
  memPool : list SCacheBlock
}.

Record STsdbCache := mkCache {
  pool : SCachePool;
  mem : option SCacheMem;
  imem : option SCacheMem;
  curBlock : option SCacheBlock
}.

Definition bump (b : SCacheBlock) (bytes : Z) : SCacheBlock :=
  mkBlock (blockId b) (offset b + bytes) (remain b - bytes).

(** The active generation after an allocation for [key], with the blocks
    newly taken from the pool. *)
Definition touch (g : option SCacheMem) (key : Z) (taken : list SCacheBlock)
    : SCacheMem :=
  match g with
  | None => mkCacheMem key key 1 taken
  | Some g =>
      mkCacheMem (Z.min key (keyFirst g)) (Z.max key (keyLast g))
                 (numOfPoints g + 1) (list_ g ++ taken)
  end.

Definition alloc_from_pool (pCache : STsdbCache) (bytes key : Z)
    : option (Z * Z) * STsdbCache :=
  match memPool (pool pCache) with
  | [] => (None, pCache)           (* CACHE_FULL *)
  | b :: rest =>
      let size_ := cacheBlockSize (pool pCache) in
      (Some (blockId b, 0),
       mkCache (mkPool size_ rest)
               (Some (touch (mem pCache) key [b]))
               (imem pCache)
               (Some (bump (mkBlock (blockId b) 0 size_) bytes)))
  end.

(** Modelled from the spec: [allocate(bytes, key)] returns a region inside the
    active generation, from the current block or, when that is full, from a
    block of the pool; with the pool empty it fails.  The result is the
    block and the offset of the region, [None] for NULL. *)
Definition tsdbAllocFromCache (pCache : STsdbCache) (bytes key : Z)
    : option (Z * Z) * STsdbCache :=
  if bytes >? cacheBlockSize (pool pCache) then (None, pCache)
  else
    match curBlock pCache with
    | Some b =>
        if bytes <=? remain b then
          (Some (blockId b, offset b),
           mkCache (pool pCache) (Some (touch (mem pCache) key []))
                   (imem pCache) (Some (bump b bytes)))
        else alloc_from_pool pCache bytes key
    | None => alloc_from_pool pCache bytes key
    end.

End Cache.

(** ** Tables ([tsdbMeta.h]) *)

Module Meta.
Import Row.

(** The structs are declared in [tsdbMeta.h], which is not part of the
    sources; the fields are those [tsdbMain.c] reads and writes. *)
Record SMemTable := mkMemTable {
  pData : SSkipList;
  keyFirst : Z;      (* TSKEY *)
  keyLast : Z;       (* TSKEY *)
  numOfPoints : Z
}.

Record STableId := mkTableId {
  uid : Z;
  tid : Z
}.

Record STable := mkTable {
  tableId : STableId;
  mem : option SMemTable;
  imem : option SMemTable
}.

(** [tables[i]] is a pointer to a table or NULL. *)
Record STsdbMeta := mkMeta {
  tables : list (option STable)
}.

(** Modelled from the spec: [tsdbIsValidTableToInsert] of [tsdbMeta.c], which
    is not part of the sources, returns the handle iff [tid] is in range, the
    slot is occupied and [uid] matches.  The handle is the index of the
    table in [tables]. *)
Definition tsdbIsValidTableToInsert (pMeta : STsdbMeta) (tableId_ : STableId)
    : option nat :=
  if tid tableId_ <? 0 then None
  else
    match tables pMeta !! Z.to_nat (tid tableId_) with
    | Some (Some pTable) =>
        if uid (tableId pTable) =? uid tableId_ then Some (Z.to_nat (tid tableId_))
        else None
    | _ => None
    end.

End Meta.

(** ** The submit message ([tsdb.h]) *)

(** Sizes of [tsdb.h], which is not part of the sources: the header of a
    submit message and the header of a submit block. *)
Class MsgLayout := mkMsgLayout {
  TSDB_SUBMIT_MSG_HEAD_SIZE : Z;
  sizeof_SSubmitBlk : Z
}.

Module Submit.
Import Row.

(** Modelled from the spec: the wire format of the submit message, a header
    [{ length: u32, numOfBlocks: u32, compressed: u32 }] followed by blocks
    [{ len: u32, numOfRows: u16, uid: u64, tid: i32, sversion: u32,
       padding: u32, data }], [data] a dense sequence of rows.  The integer
    fields hold the value the host reads before any conversion. *)
Record SSubmitBlk := mkBlk {
  len : Z;
  numOfRows : Z;
  uid : Z;
  tid : Z;
  sversion : Z;
  padding : Z;
  data : list SDataRow
}.

Record SSubmitMsg := mkMsg {
  length_ : Z;        (* the field [length] *)
  numOfBlocks : Z;
  compressed : Z;
  blocks : list SSubmitBlk
}.

(** Byte [i] of [x]. *)
Definition byte_of (x : Z) (i : Z) : Z := Z.land (Z.shiftr x (8 * i)) 255.

(** [htons], [htonl], [htobe64] on a little-endian host: the bytes in
    reverse order. *)
Definition htons (x : Z) : Z :=
  Z.lor (Z.shiftl (byte_of x 0) 8) (byte_of x 1).

Definition htonl (x : Z) : Z :=
  Z.lor (Z.shiftl (byte_of x 0) 24)
    (Z.lor (Z.shiftl (byte_of x 1) 16)
       (Z.lor (Z.shiftl (byte_of x 2) 8) (byte_of x 3))).

Definition htobe64 (x : Z) : Z :=
  Z.lor (Z.shiftl (htonl (Z.land x 4294967295)) 32) (htonl (Z.shiftr x 32)).

(** The bytes the rows of a block take. *)
Definition rows_size (rows : list SDataRow) : Z :=
  foldr (fun r acc => dataRowLen r + acc) 0 rows.

Record SSubmitBlkIter := mkBlkIter {
  bi_totalLen : Z;
  bi_len : Z;
  bi_row : option (list SDataRow)   (* NULL, or the rows from the pointer on *)
}.

Record SSubmitMsgIter := mkMsgIter {
  mi_totalLen : Z;
  mi_len : Z;
  mi_pBlock : option (list SSubmitBlk)  (* NULL, or the blocks from the pointer on *)
}.

(** [None] for the return of -1, which leaves [*pIter] as it was. *)
Definition tsdbInitSubmitBlkIter (pBlock : SSubmitBlk) : option SSubmitBlkIter :=
  if len pBlock <=? 0 then None
  else Some (mkBlkIter (len pBlock) 0 (Some (data pBlock))).

(** The row returned (NULL at the end) and the iterator; [None] when the
    pointer is past the rows of the block or cannot advance. *)
Definition tsdbGetSubmitBlkNext (pIter : SSubmitBlkIter)
    : option (option SDataRow * SSubmitBlkIter) :=
  match bi_row pIter with
  | None => Some (None, pIter)
  | Some [] => None
  | Some (row :: rest) =>
      if dataRowLen row <=? 0 then None
      else
        let len_ := bi_len pIter + dataRowLen row in
        if len_ >=? bi_totalLen pIter
        then Some (Some row, mkBlkIter (bi_totalLen pIter) len_ None)
        else Some (Some row, mkBlkIter (bi_totalLen pIter) len_ (Some rest))
  end.

Section WithMsgLayout.
Context `{ML : MsgLayout}.

(** The header fields are converted in place; the iterator starts at the
    first block unless the message is no longer than its header. *)
Definition tsdbInitSubmitMsgIter (pMsg : SSubmitMsg) : SSubmitMsg * SSubmitMsgIter :=
  let pMsg := mkMsg (htonl (length_ pMsg)) (htonl (numOfBlocks pMsg))
                    (htonl (compressed pMsg)) (blocks pMsg) in
  (pMsg,
   mkMsgIter (length_ pMsg) TSDB_SUBMIT_MSG_HEAD_SIZE
     (if length_ pMsg <=? TSDB_SUBMIT_MSG_HEAD_SIZE then None
      else Some (blocks pMsg))).

Definition convert_blk (pBlock : SSubmitBlk) : SSubmitBlk :=
  mkBlk (htonl (len pBlock)) (htons (numOfRows pBlock)) (htobe64 (uid pBlock))
        (wrap32 (htonl (tid pBlock))) (htonl (sversion pBlock))
        (htonl (padding pBlock)) (data pBlock).


End WithMsgLayout.

(** *** Iterating to the end *)

(** The rows [tsdbGetSubmitBlkNext] returns, call after call, up to the call
    that returns NULL; [None] when a call does not return, or when [fuel]
    calls do not reach the end. *)
Fixpoint blk_iter_rows (fuel : nat) (pIter : SSubmitBlkIter) : option (list SDataRow) :=
  match fuel with
  | O => None
  | S fuel =>
      match tsdbGetSubmitBlkNext pIter with
      | None => None
      | Some (None, _) => Some []
      | Some (Some row, pIter) => (row ::.) <$> blk_iter_rows fuel pIter
      end
  end.

(** A block as a sender builds it: at least one row, every row with a
    positive length, and [len] the bytes the rows take. *)
Definition blk_wf (pBlock : SSubmitBlk) : Prop :=
  data pBlock <> [] /\
  Forall (fun row => 0 < dataRowLen row) (data pBlock) /\
  len pBlock = rows_size (data pBlock).

Section Iterating.
Context `{ML : MsgLayout}.




End Iterating.

End Submit.

(** ** The repository ([tsdbMain.c]) *)

Module Repo.
Import Cfg Row Submit.

Definition TSDB_REPO_STATE_ACTIVE : Z := 0.
Definition TSDB_REPO_STATE_CLOSED : Z := 1.
Definition TSDB_REPO_STATE_CONFIGURING : Z := 2.

(** What a call does to the repository mutex and to threads. *)
Inductive event :=
| EvLock                 (* tsdbLockRepo *)
| EvUnlock               (* tsdbUnLockRepo *)
| EvSpawnCommit.         (* pthread_create(.., tsdbCommitData, repo) *)

(** [tsdbMeta] and [tsdbCache] are pointers: [None] once the object is
    freed.  [trace] and [tick] are not fields of the C struct: the events so
    far, and the number of answers taken from the environment. *)
Record STsdbRepo := mkRepo {
  rootDir : string;
  config : STsdbCfg;
  tsdbMeta : option Meta.STsdbMeta;
  tsdbCache : option Cache.STsdbCache;
  commit : Z;
  state : Z;       (* int8_t *)
  trace : list event;
  tick : nat
}.

Definition set_meta (m : option Meta.STsdbMeta) (r : STsdbRepo) : STsdbRepo :=
  mkRepo (rootDir r) (config r) m (tsdbCache r) (commit r) (state r) (trace r) (tick r).
Definition set_cache (c : option Cache.STsdbCache) (r : STsdbRepo) : STsdbRepo :=
  mkRepo (rootDir r) (config r) (tsdbMeta r) c (commit r) (state r) (trace r) (tick r).
Definition set_commit (v : Z) (r : STsdbRepo) : STsdbRepo :=
  mkRepo (rootDir r) (config r) (tsdbMeta r) (tsdbCache r) v (state r) (trace r) (tick r).
Definition set_state (v : Z) (r : STsdbRepo) : STsdbRepo :=
  mkRepo (rootDir r) (config r) (tsdbMeta r) (tsdbCache r) (commit r) v (trace r) (tick r).
Definition log (e : event) (r : STsdbRepo) : STsdbRepo :=
  mkRepo (rootDir r) (config r) (tsdbMeta r) (tsdbCache r) (commit r) (state r)
         (trace r ++ [e]) (tick r).
Definition next_tick (r : STsdbRepo) : STsdbRepo :=
  mkRepo (rootDir r) (config r) (tsdbMeta r) (tsdbCache r) (commit r) (state r)
         (trace r) (S (tick r)).

(** A result with the state field of the repository replaced. *)
Definition with_state (s : Z) (res : option (Z * STsdbRepo)) : option (Z * STsdbRepo) :=
  prod_map id (set_state s) <$> res.

Definition TSDB_IS_REPO_ACTIVE (pRepo : STsdbRepo) : bool :=
  state pRepo =? TSDB_REPO_STATE_ACTIVE.

Definition tsdbLockRepo (repo : STsdbRepo) : STsdbRepo := log EvLock repo.
Definition tsdbUnLockRepo (repo : STsdbRepo) : STsdbRepo := log EvUnlock repo.

(** *** Closing *)

(** [tsdbFreeMeta] and [tsdbFreeCache] free the two objects; the repository
    keeps the pointers. *)
Definition tsdbCloseRepo (repo : STsdbRepo) : Z * STsdbRepo :=
  let repo := set_state TSDB_REPO_STATE_CLOSED repo in
  (* tsdbFlushCache: nothing *)
  let repo := set_meta None repo in
  let repo := set_cache None repo in
  (0, repo).

(** *** The commit trigger *)

(** One table of the loop "move pData to iData". *)
Definition freeze_table (pTable : option Meta.STable) : option Meta.STable :=
  match pTable with
  | Some t =>
      match Meta.mem t with
      | Some m => Some (Meta.mkTable (Meta.tableId t) None (Some m))
      | None => Some t
      end
  | None => None
  end.

(** [for (i = 0; i < maxTables; i++)] from [i] on, [n] turns to go; [None]
    when [tables[i]] is read past the array. *)
Fixpoint freeze_loop (n i : nat) (tables : list (option Meta.STable))
    : option (list (option Meta.STable)) :=
  match n with
  | O => Some tables
  | S n =>
      match tables !! i with
      | None => None
      | Some pTable => freeze_loop n (S i) (<[i := freeze_table pTable]> tables)
      end
  end.

(** The loop reads [pRepo->tsdbMeta] only when it runs at least once. *)
Definition freeze_tables (maxTables : Z) (pMeta : option Meta.STsdbMeta)
    : option (option Meta.STsdbMeta) :=
  match Z.to_nat maxTables with
  | O => Some pMeta
  | n =>
      match pMeta with
      | None => None
      | Some m =>
          match freeze_loop n 0 (Meta.tables m) with
          | None => None
          | Some ts => Some (Some (Meta.mkMeta ts))
          end
      end
  end.

Definition freeze_cache (pCache : Cache.STsdbCache) : Cache.STsdbCache :=
  Cache.mkCache (Cache.pool pCache) None (Cache.mem pCache) None.

Definition tsdbTriggerCommit (repo : STsdbRepo) : option (Z * STsdbRepo) :=
  let pRepo := tsdbLockRepo repo in
  if negb (commit pRepo =? 0) then Some (-1, tsdbUnLockRepo pRepo)
  else
    let pRepo := set_commit 1 pRepo in
    match freeze_tables (maxTables (config pRepo)) (tsdbMeta pRepo) with
    | None => None
    | Some pMeta =>
        let pRepo := set_meta pMeta pRepo in
        match tsdbCache pRepo with
        | None => None
        | Some pCache =>
            let pRepo := set_cache (Some (freeze_cache pCache)) pRepo in
            let pRepo := log EvSpawnCommit pRepo in
            Some (0, tsdbUnLockRepo pRepo)
        end
    end.

Section WithEnv.
Context `{ML : MsgLayout}.

(** The environment's answers, by the number of answers taken before:
    the level and head size [tSkipListRandNodeInfo] draws, and whether an
    allocation of the C library fails. *)
Variable rand_node_info : nat -> Z * Z.
Variable alloc_fails : nat -> bool.

(** *** Insert *)

Definition new_memtable : Meta.SMemTable :=
  Meta.mkMemTable tSkipListCreate INT64_MAX 0 0.

Definition set_table (pTable : nat) (t : Meta.STable) (m : Meta.STsdbMeta)
    : Meta.STsdbMeta :=
  Meta.mkMeta (<[pTable := Some t]> (Meta.tables m)).

(** [pTable] is the index of the table in [tables], for the pointer.
    [None]: the table or the cache is not there, or the skip list could not
    be created, or the allocation from the cache returned NULL, which the
    function dereferences. *)
Definition tdInsertRowToTable (pRepo : STsdbRepo) (row : SDataRow) (pTable : nat)
    : option (Z * STsdbRepo) :=
  match tsdbMeta pRepo with
  | None => None
  | Some pMeta =>
      match Meta.tables pMeta !! pTable with
      | Some (Some t) =>
          let k := tick pRepo in
          let pRepo := next_tick (next_tick pRepo) in
          (* if (pTable->mem == NULL): calloc, then tSkipListCreate *)
          let new_mem :=
            match Meta.mem t with
            | Some m => Some (Some m)
            | None =>
                if alloc_fails k then Some None              (* return -1 *)
                else if alloc_fails (S k) then None          (* pData is NULL *)
                else Some (Some new_memtable)
            end in
          match new_mem with
          | None => None
          | Some None => Some (-1, pRepo)
          | Some (Some m) =>
              let '(level, headSize) := rand_node_info k in
              let key := dataRowKey row in
              match tsdbCache pRepo with
              | None => None
              | Some pCache =>
                  let '(pNode, pCache) :=
                    Cache.tsdbAllocFromCache pCache
                      (wrap32 (headSize + dataRowLen row)) key in
                  match pNode with
                  | None => None
                  | Some _ =>
                      let pData := tSkipListPut (Meta.pData m) row in
                      let keyLast :=
                        if key >? Meta.keyLast m then key else Meta.keyLast m in
                      let keyFirst :=
                        if key <? Meta.keyFirst m then key else Meta.keyFirst m in
                      let m := Meta.mkMemTable pData keyFirst keyLast
                                 (tSkipListGetSize pData) in
                      let t := Meta.mkTable (Meta.tableId t) (Some m) (Meta.imem t) in
                      Some (0, set_cache (Some pCache)
                                 (set_meta (Some (set_table pTable t pMeta)) pRepo))
                  end
              end
          end
      | _ => None
      end
  end.

(** The loop [while ((row = tsdbGetSubmitBlkNext(&blkIter)) != NULL)] of
    [tsdbInsertDataToTable], by the rows the iterator points at. *)
Fixpoint insert_rows (pRepo : STsdbRepo) (pTable : nat) (totalLen len_ : Z)
    (rows : list SDataRow) : option (Z * STsdbRepo) :=
  match rows with
  | [] => None
  | row :: rest =>
      if dataRowLen row <=? 0 then None
      else
        match tdInsertRowToTable pRepo row pTable with
        | None => None
        | Some (code, pRepo) =>
            if code <? 0 then Some (-1, pRepo)
            else
              let len_ := len_ + dataRowLen row in
              if len_ >=? totalLen then Some (0, pRepo)
              else insert_rows pRepo pTable totalLen len_ rest
        end
  end.

(** [None] also when the block iterator is left as it was by a failed
    [tsdbInitSubmitBlkIter] and then used. *)
Definition tsdbInsertDataToTable (repo : STsdbRepo) (pBlock : SSubmitBlk)
    : option (Z * STsdbRepo) :=
  match tsdbMeta repo with
  | None => None
  | Some pMeta =>
      match Meta.tsdbIsValidTableToInsert pMeta
              (Meta.mkTableId (uid pBlock) (tid pBlock)) with
      | None => Some (-1, repo)
      | Some pTable =>
          match tsdbInitSubmitBlkIter pBlock with
          | None => None
          | Some blkIter =>
              match bi_row blkIter with
              | None => Some (0, repo)
              | Some rows =>
                  insert_rows repo pTable (bi_totalLen blkIter) (bi_len blkIter) rows
              end
          end
      end
  end.

(** The loop [while ((pBlock = tsdbGetSubmitMsgNext(&msgIter)) != NULL)] of
    [tsdbInsertData], by the blocks the iterator points at. *)
Fixpoint insert_blocks (repo : STsdbRepo) (totalLen len_ : Z)
    (blks : list SSubmitBlk) : option (Z * STsdbRepo) :=
  match blks with
  | [] => None
  | pBlock :: rest =>
      let pBlock := convert_blk pBlock in
      match tsdbInsertDataToTable repo pBlock with
      | None => None
      | Some (code, repo) =>
          if code <? 0 then Some (-1, repo)
          else
            let len_ := len_ + sizeof_SSubmitBlk + len pBlock in
            if len_ >=? totalLen then Some (0, repo)
            else if len pBlock =? rows_size (data pBlock)
            then insert_blocks repo totalLen len_ rest
            else None
      end
  end.

Definition tsdbInsertData (repo : STsdbRepo) (pMsg : SSubmitMsg)
    : option (Z * STsdbRepo) :=
  let '(_, msgIter) := tsdbInitSubmitMsgIter pMsg in
  match mi_pBlock msgIter with
  | None => Some (0, repo)
  | Some blks => insert_blocks repo (mi_totalLen msgIter) (mi_len msgIter) blks
  end.

(** Rows inserted one after the other into the same table, each call
    returning 0. *)
Fixpoint insert_each (pRepo : STsdbRepo) (pTable : nat) (rows : list SDataRow)
    : option STsdbRepo :=
  match rows with
  | [] => Some pRepo
  | row :: rest =>
      match tdInsertRowToTable pRepo row pTable with
      | Some (0, pRepo) => insert_each pRepo pTable rest
      | _ => None
      end
  end.

(** The active memtable of table [pTable]. *)
Definition active_memtable (pRepo : STsdbRepo) (pTable : nat) : option Meta.SMemTable :=
  match tsdbMeta pRepo with
  | Some pMeta =>
      match Meta.tables pMeta !! pTable with
      | Some (Some t) => Meta.mem t
      | _ => None
      end
  | None => None
  end.

(** *** The commit task *)

(** A cursor over a frozen memtable: the rows from the current one on. *)
Definition SSkipListIterator : Type := list SDataRow.

(** The work on the files is outside this part: [tsdbCommitToFile] reads the
    configuration and the cursors, and writes the file directory, the files
    and the cursors; it touches neither the commit flag nor the memtables
    nor the cache.  [Disk] stands for the directory and the files. *)
Variable Disk : Type.
Variable tsdbCommitToFile :
  STsdbCfg -> Z -> list (option SSkipListIterator) -> Disk ->
  Z * list (option SSkipListIterator) * Disk.

(** Modelled from the spec: the file partition id of a timestamp,
    [floor(timestamp / (daysPerFile * unitsPerDay(precision)))]; the macro
    is in the missing [tsdbFile.h]. *)
Definition tsdbGetKeyFileId (key daysPerFile precision : Z) : Z :=
  key / (daysPerFile * default 0 (File.tsMsPerDay !! Z.to_nat precision)).

(** The loop of [tsdbCreateTableIters] over the tables, [k] the answers
    taken so far.  Outer [None]: [assert(false)] on an empty frozen
    memtable; inner [None]: NULL, an iterator could not be allocated. *)
Fixpoint create_iters (tables : list (option Meta.STable)) (k : nat)
    : option (option (list (option SSkipListIterator)) * nat) :=
  match tables with
  | [] => Some (Some [], k)
  | pTable :: rest =>
      match (match pTable with Some t => Meta.imem t | None => None end) with
      | None =>
          match create_iters rest k with
          | Some (Some iters, k) => Some (Some (None :: iters), k)
          | other => other
          end
      | Some im =>
          if alloc_fails k then Some (None, S k)
          else
            match Meta.pData im with
            | [] => None
            | _ :: _ =>
                match create_iters rest (S k) with
                | Some (Some iters, k) => Some (Some (Some (Meta.pData im) :: iters), k)
                | other => other
                end
            end
      end
  end.

(** [None] also when the loop reads [tables[tid]] past the array. *)
Definition tsdbCreateTableIters (pMeta : option Meta.STsdbMeta) (maxTables : Z) (k : nat)
    : option (option (list (option SSkipListIterator)) * nat) :=
  if (maxTables <? 0) || alloc_fails k then Some (None, S k)   (* calloc *)
  else
    match Z.to_nat maxTables with
    | O => Some (Some [], S k)
    | n =>
        match pMeta with
        | None => None
        | Some m =>
            if (n <=? length (Meta.tables m))%nat
            then create_iters (take n (Meta.tables m)) (S k)
            else None
        end
    end.

(** [for (fid = sfid; fid <= efid; fid++) tsdbCommitToFile(...)], the
    results not looked at. *)
Fixpoint commit_files (n : nat) (cfg : STsdbCfg) (fid : Z)
    (iters : list (option SSkipListIterator)) (disk : Disk)
    : list (option SSkipListIterator) * Disk :=
  match n with
  | O => (iters, disk)
  | S n =>
      let '(_, iters, disk) := tsdbCommitToFile cfg fid iters disk in
      commit_files n cfg (fid + 1) iters disk
  end.

Definition clear_imem (pTable : option Meta.STable) : option Meta.STable :=
  match pTable with
  | Some t => Some (Meta.mkTable (Meta.tableId t) (Meta.mem t) None)
  | None => None
  end.

(** The last loop of [tsdbCommitData]: [pTable->imem = NULL] for the first
    [maxTables] tables; [None] when the loop runs and the meta object is
    freed or shorter than [maxTables]. *)
Definition clear_imems (maxTables : Z) (pMeta : option Meta.STsdbMeta)
    : option (option Meta.STsdbMeta) :=
  match Z.to_nat maxTables with
  | O => Some pMeta
  | n =>
      match pMeta with
      | None => None
      | Some m =>
          if (n <=? length (Meta.tables m))%nat
          then Some (Some (Meta.mkMeta (map clear_imem (take n (Meta.tables m))
                                        ++ drop n (Meta.tables m))))
          else None
      end
  end.

(** Phase 3, under the mutex: the blocks of the frozen generation go back to
    the pool, the frozen generation and the commit flag are cleared. *)
Definition publish (pRepo : STsdbRepo) (pCache : Cache.STsdbCache)
    (im : Cache.SCacheMem) : option STsdbRepo :=
  let pRepo := tsdbLockRepo pRepo in
  let pool_ := Cache.mkPool (Cache.cacheBlockSize (Cache.pool pCache))
                 (Cache.memPool (Cache.pool pCache) ++ Cache.list_ im) in
  let pCache := Cache.mkCache pool_ (Cache.mem pCache) None (Cache.curBlock pCache) in
  let pRepo := set_cache (Some pCache) pRepo in
  let pRepo := set_commit 0 pRepo in
  match clear_imems (maxTables (config pRepo)) (tsdbMeta pRepo) with
  | None => None
  | Some pMeta => Some (tsdbUnLockRepo (set_meta pMeta pRepo))
  end.

Definition set_tick (k : nat) (r : STsdbRepo) : STsdbRepo :=
  mkRepo (rootDir r) (config r) (tsdbMeta r) (tsdbCache r) (commit r) (state r)
         (trace r) k.

(** The repository and the disk when the task returns; [None] when it does
    not return (a freed object, an array read past its end, [assert]). *)
Definition tsdbCommitData (pRepo : STsdbRepo) (disk : Disk)
    : option (STsdbRepo * Disk) :=
  let pCfg := config pRepo in
  match tsdbCache pRepo with
  | None => None
  | Some pCache =>
      match Cache.imem pCache with
      | None => Some (pRepo, disk)                     (* return NULL *)
      | Some im =>
          match tsdbCreateTableIters (tsdbMeta pRepo) (maxTables pCfg) (tick pRepo) with
          | None => None
          | Some (None, k) => Some (set_tick k pRepo, disk)   (* return NULL *)
          | Some (Some iters, k) =>
              if alloc_fails k                         (* tdNewDataCols *)
              then Some (set_tick (S k) pRepo, disk)   (* return NULL *)
              else
                let pRepo := set_tick (S k) pRepo in
                let sfid := tsdbGetKeyFileId (Cache.keyFirst im) (daysPerFile pCfg)
                              (precision pCfg) in
                let efid := tsdbGetKeyFileId (Cache.keyLast im) (daysPerFile pCfg)
                              (precision pCfg) in
                let '(_, disk) :=
                  commit_files (Z.to_nat (efid - sfid + 1)) pCfg sfid iters disk in
                match publish pRepo pCache im with
                | None => None
                | Some pRepo => Some (pRepo, disk)
                end
          end
      end
  end.

End WithEnv.

(** *** Reconfiguration and the insert loop *)

Definition set_config (c : STsdbCfg) (r : STsdbRepo) : STsdbRepo :=
  mkRepo (rootDir r) c (tsdbMeta r) (tsdbCache r) (commit r) (state r) (trace r) (tick r).

(** [pRepo->config = *pCfg; return 0;] *)
Definition tsdbConfigRepo (repo : STsdbRepo) (pCfg : STsdbCfg) : Z * STsdbRepo :=
  (0, set_config pCfg repo).




Section InsertLoop.
Context `{ML : MsgLayout}.
Variable rand_node_info : nat -> Z * Z.
Variable alloc_fails : nat -> bool.


End InsertLoop.

(** *** Reading rows for a file block *)

(** The loop of [tsdbReadRowsFromCache]: [rows] are the rows handed to
    [tdAppendDataRowToDataCol] so far, in order.  The cursor is the one of
    the commit task: [tSkipListIterGet] gives its current row, NULL past the
    last one, and [tSkipListIterNext] moves it on and tells whether a row is
    there.  It is moved in the loop condition only: a [break] leaves it
    where it is. *)
Fixpoint read_rows (pIter : SSkipListIterator) (maxKey maxRowsToRead numOfRows : Z)
    (rows : list SDataRow) : Z * SSkipListIterator * list SDataRow :=
  match pIter with
  | [] => (numOfRows, pIter, rows)
  | row :: rest =>
      if dataRowKey row >? maxKey then (numOfRows, pIter, rows)
      else
        let rows := rows ++ [row] in
        let numOfRows := wrap32 (numOfRows + 1) in
        if numOfRows >=? maxRowsToRead then (numOfRows, pIter, rows)
        else read_rows rest maxKey maxRowsToRead numOfRows rows
  end.

(** The count, the cursor afterwards and the rows appended. *)
Definition tsdbReadRowsFromCache (pIter : SSkipListIterator) (maxKey maxRowsToRead : Z)
    : Z * SSkipListIterator * list SDataRow :=
  read_rows pIter maxKey maxRowsToRead 0 [].

(** Nothing is left to read at the cursor for keys up to [maxKey]. *)
Definition nothing_to_read (pIter : SSkipListIterator) (maxKey : Z) : Prop :=
  match pIter with
  | [] => True
  | row :: _ => maxKey < dataRowKey row
  end.

End Repo.

(** ** The configuration file of a repository ([tsdbMain.c]) *)


(** The object representation of [STsdbCfg] ([tsdb.h] is not part of the
    sources): its size, the bytes of a configuration in memory, and the
    configuration that bytes in memory stand for. *)
Class CfgLayout := mkCfgLayout {
  sizeof_STsdbCfg : Z;
  cfg_bytes : Cfg.STsdbCfg -> list byte;
  cfg_of_bytes : list byte -> Cfg.STsdbCfg;
  cfg_bytes_length : forall c, Z.of_nat (length (cfg_bytes c)) = sizeof_STsdbCfg
}.

Module Env.
Import Cfg Posix Repo.

Section WithCfgLayout.
Context `{CL : CfgLayout}.

Definition TSDB_CFG_FILE_NAME : string := "CONFIG".

(** [sprintf(fname, "%s/%s", pRepo->rootDir, TSDB_CFG_FILE_NAME)]; the
    callers pass a buffer of 128 bytes, which the name is taken to fit. *)
Definition tsdbGetCfgFname (pRepo : STsdbRepo) : string :=
  (rootDir pRepo ++ "/" ++ TSDB_CFG_FILE_NAME)%string.

(** A failed [write] returns before the [close]. *)
Definition tsdbSaveConfig (pRepo : STsdbRepo) (os : OS) : Z * OS :=
  let fname := tsdbGetCfgFname pRepo in
  let '(fd, os) := open fname (Z.lor O_WRONLY O_CREAT) os in
  if fd <? 0 then (-1, os)
  else
    let '(n, os) := write fd (cfg_bytes (config pRepo)) os in
    if n <? 0 then (-1, os)
    else let '(_, os) := close fd os in (0, os).

(** [read] fills [*pCfg] from its first byte on.  Its result is compared
    with [sizeof(STsdbCfg)], a [size_t]: the comparison is unsigned. *)
Definition tsdbRestoreCfg (pRepo : STsdbRepo) (pCfg : STsdbCfg) (os : OS)
    : Z * STsdbCfg * OS :=
  let fname := tsdbGetCfgFname pRepo in
  let '(fd, os) := open fname O_RDONLY os in
  if fd <? 0 then (-1, pCfg, os)
  else
    let '(n, data, os) := read fd sizeof_STsdbCfg os in
    let pCfg :=
      if n <? 0 then pCfg
      else cfg_of_bytes (data ++ drop (length data) (cfg_bytes pCfg)) in
    if to_size_t n <? sizeof_STsdbCfg
    then let '(_, os) := close fd os in (-1, pCfg, os)
    else let '(_, os) := close fd os in (0, pCfg, os).

End WithCfgLayout.

(** *** A layout for the examples *)

Definition byte_at (x : Z) (i : nat) : byte :=
  default x00 (Byte.of_N (Z.to_N ((x / 256 ^ Z.of_nat i) mod 256))).

(** The [n] low bytes of [x], least significant first. *)
Definition le_bytes (n : nat) (x : Z) : list byte := byte_at x <$> seq 0 n.

(** The fields in the order of the struct, each at its natural alignment:
    40 bytes. *)
Definition cfg_bytes_example (c : STsdbCfg) : list byte :=
  le_bytes 1 (precision c) ++ replicate 3 x00
  ++ le_bytes 4 (tsdbId c) ++ le_bytes 4 (maxTables c) ++ le_bytes 4 (daysPerFile c)
  ++ le_bytes 4 (minRowsPerFileBlock c) ++ le_bytes 4 (maxRowsPerFileBlock c)
  ++ le_bytes 4 (keep c) ++ replicate 4 x00
  ++ le_bytes 8 (maxCacheSize c).

Definition int_at (w : Z) (bs : list byte) (off width : nat) : Z :=
  wrap w (File.field_at bs off width).

Definition cfg_of_bytes_example (bs : list byte) : STsdbCfg :=
  mkCfg (int_at 8 bs 0 1) (int_at 32 bs 4 4) (int_at 32 bs 8 4) (int_at 32 bs 12 4)
        (int_at 32 bs 16 4) (int_at 32 bs 20 4) (int_at 32 bs 24 4) (int_at 64 bs 32 8).

Definition cfg_layout_example : CfgLayout :=
  mkCfgLayout 40 cfg_bytes_example cfg_of_bytes_example (fun c => eq_refl).

(** A disk with an old, longer CONFIG file under ["/tsdb"]. *)
Definition os_old_config : OS :=
  mkOS {[ "/tsdb/CONFIG"%string := replicate 64 xff ]} ∅ [].

(** The same where the first call that can fail succeeds and the second
    fails. *)
Definition os_old_config_second_fails : OS :=
  mkOS {[ "/tsdb/CONFIG"%string := replicate 64 xff ]} ∅ [false; true].

(** A disk whose CONFIG file holds six bytes. *)
Definition os_short_config : OS :=
  mkOS {[ "/tsdb/CONFIG"%string := [x02; x00; x00; x00; x07; x00] ]} ∅ [].

End Env.

(** ** Concrete repositories for the examples *)

Module Inputs.
Import Cfg Row Submit Repo.

(** The default configuration with room for ten tables. *)
Definition cfg_small : STsdbCfg := mkCfg 0 0 10 10 100 4096 3650 16777216.

Definition row_at (key : Z) : SDataRow := mkRow 20 key [x01; x02; x03; x04].

Definition table0 : Meta.STable := Meta.mkTable (Meta.mkTableId 42 0) None None.

(** Table [(uid 42, tid 0)] in slot 0, the other nine slots empty. *)
Definition meta_one_table : Meta.STsdbMeta :=
  Meta.mkMeta (Some table0 :: replicate 9 None).

(** A cache of four free blocks of 1 MiB and no generation. *)
Definition cache_fresh : Cache.STsdbCache :=
  Cache.mkCache
    (Cache.mkPool 1048576
       [Cache.mkBlock 0 0 0; Cache.mkBlock 1 0 0; Cache.mkBlock 2 0 0; Cache.mkBlock 3 0 0])
    None None None.

(** An active repository with nothing inserted and no commit in flight. *)
Definition repo_idle : STsdbRepo :=
  mkRepo "/tsdb" cfg_small (Some meta_one_table) (Some cache_fresh) 0
         TSDB_REPO_STATE_ACTIVE [] 0.

(** The same with row 1000 in the active memtable of table 0. *)
Definition memtable_1000 : Meta.SMemTable :=
  Meta.mkMemTable [row_at 1000] 1000 1000 1.

Definition meta_loaded : Meta.STsdbMeta :=
  Meta.mkMeta (Some (Meta.mkTable (Meta.mkTableId 42 0) (Some memtable_1000) None)
               :: replicate 9 None).

Definition cache_loaded : Cache.STsdbCache :=
  Cache.mkCache
    (Cache.mkPool 1048576 [Cache.mkBlock 1 0 0; Cache.mkBlock 2 0 0; Cache.mkBlock 3 0 0])
    (Some (Cache.mkCacheMem 1000 1000 1 [Cache.mkBlock 0 0 0]))
    None
    (Some (Cache.mkBlock 0 44 1048532)).

Definition repo_loaded : STsdbRepo :=
  mkRepo "/tsdb" cfg_small (Some meta_loaded) (Some cache_loaded) 0
         TSDB_REPO_STATE_ACTIVE [] 2.

(** The same with the commit flag set. *)
Definition repo_committing : STsdbRepo :=
  mkRepo "/tsdb" cfg_small (Some meta_loaded) (Some cache_loaded) 1
         TSDB_REPO_STATE_ACTIVE [] 2.

(** An environment that draws level 1 with a head of 24 bytes and lets every
    allocation succeed. *)
Definition rand_const (k : nat) : Z * Z := (1, 24).
Definition no_alloc_failure (k : nat) : bool := false.

(** 12 bytes of message header, 26 of block header. *)
Definition msg_layout_example : MsgLayout := mkMsgLayout 12 26.

(** One block for table [(uid 42, tid 0)] with the one row 1000, the fields
    in network byte order. *)
Definition msg_one_row : SSubmitMsg :=
  mkMsg (htonl 58) (htonl 1) 0
        [mkBlk (htonl 20) (htons 1) (htobe64 42) (htonl 0) 0 0 [row_at 1000]].

(** A message that is its header only. *)
Definition msg_empty : SSubmitMsg := mkMsg (htonl 12) 0 0 [].

(** The commit task on a disk that is not looked at. *)
Definition commit_to_file_nop (cfg : STsdbCfg) (fid : Z)
    (iters : list (option SSkipListIterator)) (disk : unit)
    : Z * list (option SSkipListIterator) * unit := (0, iters, disk).

(** A cache with nothing left in its pool, and the idle repository with it. *)
Definition cache_exhausted : Cache.STsdbCache :=
  Cache.mkCache (Cache.mkPool 1048576 []) None None None.

Definition repo_exhausted : STsdbRepo :=
  mkRepo "/tsdb" cfg_small (Some meta_one_table) (Some cache_exhausted) 0
         TSDB_REPO_STATE_ACTIVE [] 0.

(** A block of two rows for table [(uid 42, tid 0)], fields in host order. *)
Definition blk_two_rows : SSubmitBlk :=
  mkBlk 40 2 42 0 0 0 [row_at 1; row_at 2].


(** Six rows with keys 1000 to 1005. *)
Definition rows_six : SSkipListIterator :=
  (fun k => mkRow 20 k [x01; x02; x03; x04]) <$> [1000; 1001; 1002; 1003; 1004; 1005].

End Inputs.

(** * Properties *)

(** ** Machine integers *)

Lemma wrap32_id x : int32 x -> wrap32 x = x.
Proof.
  unfold int32, INT_MIN, INT_MAX, wrap32, wrap. intros H.
  change (2 ^ (32 - 1)) with 2147483648. change (2 ^ 32) with 4294967296.
  rewrite Z.mod_small by lia. lia.
Qed.

Lemma wrap64_id x : int64 x -> wrap64 x = x.
Proof.
  unfold int64, INT64_MIN, INT64_MAX, wrap64, wrap. intros H.
  change (2 ^ (64 - 1)) with 9223372036854775808.
  change (2 ^ 64) with 18446744073709551616.
  rewrite Z.mod_small by lia. lia.
Qed.

Lemma wrap32_range x : int32 (wrap32 x).
Proof.
  unfold int32, INT_MIN, INT_MAX, wrap32, wrap.
  change (2 ^ (32 - 1)) with 2147483648. change (2 ^ 32) with 4294967296.
  pose proof (Z.mod_pos_bound (x + 2147483648) 4294967296). lia.
Qed.

Lemma wrap64_range x : int64 (wrap64 x).
Proof.
  unfold int64, INT64_MIN, INT64_MAX, wrap64, wrap.
  change (2 ^ (64 - 1)) with 9223372036854775808.
  change (2 ^ 64) with 18446744073709551616.
  pose proof (Z.mod_pos_bound (x + 9223372036854775808) 18446744073709551616). lia.
Qed.


(** ** Configuration validation *)

Section CfgFacts.
Import Cfg.

Lemma seq_step_Next c k : Next c >> k = k c.
Proof. reflexivity. Qed.

Lemma seq_step_Ret code c k : Ret code c >> k = Ret code c.
Proof. reflexivity. Qed.

(** One option with a sentinel either passes, leaving the option or its
    default in place, or makes the function return -1. *)
Lemma default_or_check_cases get set d lo hi c :
  (forall c0, set (get c0) c0 = c0) ->
  (unset_or_within (get c) lo hi /\
   default_or_check get set d lo hi c = Next (set (dflt (get c) d) c)) \/
  (~ unset_or_within (get c) lo hi /\
   default_or_check get set d lo hi c = Ret (-1) c).
Proof.
  intros Hid. unfold default_or_check, unset_or_within, dflt.
  destruct (Z.eqb_spec (get c) (-1)) as [E|E].
  - left. split; [intros; congruence | reflexivity].
  - destruct (Z.ltb_spec (get c) lo), (Z.gtb_spec (get c) hi); simpl;
      (right; split; [lia | reflexivity]) || (left; split; [lia | by rewrite Hid]).
Qed.

Lemma check_precision_cases c :
  (unset_or_within (precision c) TSDB_PRECISION_MILLI TSDB_PRECISION_NANO /\
   check_precision c = Next (set_precision (dflt (precision c) TSDB_DEFAULT_PRECISION) c)) \/
  (~ unset_or_within (precision c) TSDB_PRECISION_MILLI TSDB_PRECISION_NANO /\
   check_precision c = Ret (-1) c).
Proof.
  unfold check_precision, unset_or_within, dflt, IS_VALID_PRECISION.
  destruct (Z.eqb_spec (precision c) (-1)) as [E|E].
  - left. split; [intros; congruence | reflexivity].
  - destruct (Z.leb_spec TSDB_PRECISION_MILLI (precision c)),
      (Z.leb_spec (precision c) TSDB_PRECISION_NANO); simpl;
      (right; split; [lia | reflexivity]) ||
      (left; split; [lia | by destruct c]).
Qed.

Lemma check_tsdbId_cases c :
  (0 <= tsdbId c /\ check_tsdbId c = Next c) \/
  (~ 0 <= tsdbId c /\ check_tsdbId c = Ret (-1) c).
Proof.
  unfold check_tsdbId. destruct (Z.ltb_spec (tsdbId c) 0); [right | left]; split; auto; lia.
Qed.

Lemma check_rows_cases c :
  (minRowsPerFileBlock c <= maxRowsPerFileBlock c /\ check_rows c = Next c) \/
  (~ minRowsPerFileBlock c <= maxRowsPerFileBlock c /\ check_rows c = Ret (-1) c).
Proof.
  unfold check_rows.
  destruct (Z.gtb_spec (minRowsPerFileBlock c) (maxRowsPerFileBlock c));
    [right | left]; split; auto; lia.
Qed.

Ltac cfg_simpl :=
  cbn [precision tsdbId maxTables daysPerFile minRowsPerFileBlock
       maxRowsPerFileBlock keep maxCacheSize set_precision set_maxTables
       set_daysPerFile set_minRowsPerFileBlock set_maxRowsPerFileBlock
       set_keep set_maxCacheSize with_defaults] in *.

(** Take the next check of the chain: it passes, or the function returns. *)
Ltac cfg_step H :=
  match goal with
  | |- context [default_or_check ?g ?s ?d ?lo ?hi ?c] =>
      destruct (default_or_check_cases g s d lo hi c) as [[H ->]|[H ->]];
      [ by intros [] | | ]
  | |- context [check_precision ?c] =>
      destruct (check_precision_cases c) as [[H ->]|[H ->]]
  | |- context [check_tsdbId ?c] =>
      destruct (check_tsdbId_cases c) as [[H ->]|[H ->]]
  | |- context [check_rows ?c] =>
      destruct (check_rows_cases c) as [[H ->]|[H ->]]
  end;
  [ rewrite ?seq_step_Next; cfg_simpl
  | rewrite ?seq_step_Ret; right; split; [ cfg_simpl | reflexivity ] ].

(** What [tsdbCheckAndSetDefaultCfg] computes: it returns 0 exactly on the
    configurations of [accepts] and then leaves the defaults in place of the
    sentinels; otherwise it returns -1. *)
Lemma tsdbCheckAndSetDefaultCfg_spec c :
  cfg_in_range c ->
  (accepts c /\ tsdbCheckAndSetDefaultCfg c = (0, with_defaults c)) \/
  (~ accepts c /\ fst (tsdbCheckAndSetDefaultCfg c) = -1).
Proof.
  intros Hrange. unfold cfg_in_range in Hrange.
  unfold tsdbCheckAndSetDefaultCfg, tsdbCheckAndSetDefaultCfg_steps.
  cfg_step H1; [| unfold accepts, options_within; tauto].
  cfg_step H2; [| unfold accepts; tauto].
  cfg_step H3; [| unfold accepts, options_within; tauto].
  cfg_step H4; [| unfold accepts, options_within; tauto].
  cfg_step H5; [| unfold accepts, options_within; tauto].
  cfg_step H6; [| unfold accepts, options_within; tauto].
  cfg_step H7; [| unfold accepts, rows_ordered; cfg_simpl; tauto].
  cfg_step H8.
  2:{ unfold accepts, options_within. unfold unset_or_within in H8.
      intros [(_&_&_&_&_&Hk&_) _].
      apply H8. intros Hne. specialize (Hk Hne).
      unfold TSDB_MIN_KEEP, TSDB_MAX_KEEP. lia. }
  cfg_step H9; [| unfold accepts, options_within; tauto].
  left. split.
  - unfold accepts, options_within, rows_ordered. cfg_simpl.
    split; [| by split].
    do 5 (split; [assumption |]). split; [| assumption].
    intros Hne. apply H8 in Hne. unfold TSDB_MIN_KEEP in Hne. lia.
  - by destruct c.
Qed.



(** The defaults, field by field. *)
Lemma with_defaults_sentinels c :
  (precision c = -1 -> precision (with_defaults c) = TSDB_PRECISION_MILLI) /\
  (maxTables c = -1 -> maxTables (with_defaults c) = 1000) /\
  (daysPerFile c = -1 -> daysPerFile (with_defaults c) = 10) /\
  (minRowsPerFileBlock c = -1 -> minRowsPerFileBlock (with_defaults c) = 100) /\
  (maxRowsPerFileBlock c = -1 -> maxRowsPerFileBlock (with_defaults c) = 4096) /\
  (keep c = -1 -> keep (with_defaults c) = 3650) /\
  (maxCacheSize c = -1 -> maxCacheSize (with_defaults c) = 16 * 1024 * 1024).
Proof. cbn [with_defaults precision maxTables daysPerFile minRowsPerFileBlock
            maxRowsPerFileBlock keep maxCacheSize].
  repeat split; intros ->; reflexivity.
Qed.

(** The default configuration is accepted and becomes the table of defaults. *)
Example default_cfg_accepted :
  tsdbCheckAndSetDefaultCfg tsdbSetDefaultCfg
  = (0, mkCfg 0 0 1000 10 100 4096 3650 16777216).
Proof. reflexivity. Qed.

(** [tsdbId] is checked whatever its value: -1 is rejected like any other
    negative id. *)
Example tsdbId_has_no_sentinel :
  fst (tsdbCheckAndSetDefaultCfg (mkCfg (-1) (-1) (-1) (-1) (-1) (-1) (-1) (-1))) = -1.
Proof. reflexivity. Qed.

(** A rejected configuration may already hold some defaults: the checks write
    as they go. *)
Example rejected_cfg_partly_defaulted :
  tsdbCheckAndSetDefaultCfg (mkCfg (-1) 0 (-1) 0 (-1) (-1) (-1) (-1))
  = (-1, mkCfg 0 0 1000 0 (-1) (-1) (-1) (-1)).
Proof. reflexivity. Qed.

End CfgFacts.

(** ** Key range of a file id *)

Section KeyRangeFacts.
Import File.

Lemma wrap_add_idemp_l w x y : 0 < w -> wrap w (wrap w x + y) = wrap w (x + y).
Proof.
  intros Hw. unfold wrap.
  assert (Hm : 2 ^ w <> 0) by (apply Z.pow_nonzero; lia).
  f_equal.
  replace ((x + 2 ^ (w - 1)) mod 2 ^ w - 2 ^ (w - 1) + y + 2 ^ (w - 1))
    with ((x + 2 ^ (w - 1)) mod 2 ^ w + y) by lia.
  rewrite Zplus_mod_idemp_l. f_equal. lia.
Qed.

Lemma wrap_add_idemp_r w x y : 0 < w -> wrap w (x + wrap w y) = wrap w (x + y).
Proof.
  intros Hw. rewrite (Z.add_comm x), wrap_add_idemp_l by done. f_equal. lia.
Qed.

(** The two sums of [maxKey] may wrap on the way: only the result counts. *)
Lemma maxKey_wrap a b :
  wrap64 (wrap64 (a + wrap64 b) - 1) = wrap64 (a + b - 1).
Proof.
  unfold wrap64. rewrite wrap_add_idemp_r by lia.
  replace (wrap 64 (a + b) - 1) with (wrap 64 (a + b) + (-1)) by lia.
  by rewrite wrap_add_idemp_l by lia.
Qed.

(** Membership in [[fid * span, fid * span + span - 1]] is [floor(t / span) = fid]. *)
Lemma key_range_floor span fid t :
  0 < span ->
  (fid * span <= t <= fid * span + span - 1 <-> t / span = fid).
Proof.
  intros Hs. split.
  - intros [Hlo Hhi]. symmetry. apply (Z.div_unique_pos t span fid (t - fid * span)); lia.
  - intros <-. pose proof (Z.mul_div_le t span Hs).
    pose proof (Z.mul_succ_div_gt t span Hs). lia.
Qed.

(** C8 (amended).  For a precision of the table, a positive [daysPerFile]
    and a [fid] for which [fid * daysPerFile] fits 32 bits and both keys fit
    64 bits, [tsdbGetKeyRangeOfFileId] returns
    [minKey = fid * daysPerFile * unitsPerDay] and
    [maxKey = minKey + daysPerFile * unitsPerDay - 1], and a timestamp [t]
    lies in [[minKey, maxKey]] exactly when
    [floor(t / (daysPerFile * unitsPerDay)) = fid]. *)
Theorem C8_key_range_of_file_id (daysPerFile precision fileId perDay : Z) :
  0 <= precision ->
  tsMsPerDay !! Z.to_nat precision = Some perDay ->
  0 < daysPerFile ->
  int32 (fileId * daysPerFile) ->
  int64 (fileId * (daysPerFile * perDay)) ->
  int64 (fileId * (daysPerFile * perDay) + daysPerFile * perDay - 1) ->
  tsdbGetKeyRangeOfFileId daysPerFile precision fileId
    = Some (fileId * (daysPerFile * perDay),
            fileId * (daysPerFile * perDay) + daysPerFile * perDay - 1) /\
  forall t : Z,
    fileId * (daysPerFile * perDay) <= t
      <= fileId * (daysPerFile * perDay) + daysPerFile * perDay - 1
    <-> t / (daysPerFile * perDay) = fileId.
Proof.
  intros Hp Hu Hd H32 Hmin Hmax.
  assert (Hper : 0 < perDay).
  { unfold tsMsPerDay in Hu.
    destruct (Z.to_nat precision) as [|[|[|n]]]; simpl in Hu; inversion Hu; lia. }
  split.
  - unfold tsdbGetKeyRangeOfFileId.
    destruct (Z.ltb_spec precision 0); [lia |]. rewrite Hu.
    rewrite maxKey_wrap, (wrap32_id _ H32).
    replace (fileId * daysPerFile * perDay) with (fileId * (daysPerFile * perDay)) by ring.
    by rewrite (wrap64_id _ Hmin), (wrap64_id _ Hmax).
  - intros t. apply key_range_floor. nia.
Qed.

Lemma C8_key_range_of_file_id_witness :
  tsdbGetKeyRangeOfFileId 10 0 1843 = Some (1592352000000, 1593215999999) /\
  forall t : Z, 1592352000000 <= t <= 1593215999999 <-> t / 864000000 = 1843.
Proof.
  apply (C8_key_range_of_file_id 10 0 1843 86400000);
    [ lia | reflexivity | lia
    | unfold int32, INT_MIN, INT_MAX; lia
    | unfold int64, INT64_MIN, INT64_MAX; lia
    | unfold int64, INT64_MIN, INT64_MAX; lia ].
Defined.

(** C8 (counterexample).  With nanosecond precision and 60 days per file,
    both within the configuration bounds, partition 1779 holds the largest
    timestamp; its end [minKey + span - 1] is past the 64-bit range, so the
    sum wraps: [maxKey] is not [minKey + span - 1] and lies below [minKey],
    and the largest timestamp, although in partition 1779, is not in the
    range. *)
Lemma C8_key_range_overflow :
  tsdbGetKeyRangeOfFileId 60 2 1779
    = Some (9222336000000000000, -9219224073709551617) /\
  -9219224073709551617 <> 1779 * 60 * 86400000000000 + 60 * 86400000000000 - 1 /\
  INT64_MAX / (60 * 86400000000000) = 1779 /\
  ~ (forall t : Z,
       9222336000000000000 <= t <= -9219224073709551617
       <-> t / (60 * 86400000000000) = 1779).
Proof.
  split; [vm_compute; reflexivity |]. split; [lia |]. split; [reflexivity |].
  intros H. specialize (H INT64_MAX).
  assert (E : INT64_MAX / (60 * 86400000000000) = 1779) by reflexivity.
  apply H in E. lia.
Qed.

(** The 32-bit product [fileId * daysPerFile] wraps before it is widened. *)
Example key_range_int32_product_wraps :
  tsdbGetKeyRangeOfFileId 2 0 1073741824
    = Some (-185542587187200000, -185542587014400001).
Proof. vm_compute. reflexivity. Qed.

(** A precision outside the table reads past [tsMsPerDay]. *)
Example key_range_bad_precision : tsdbGetKeyRangeOfFileId 10 3 0 = None.
Proof. reflexivity. Qed.

End KeyRangeFacts.

(** ** The operating-system calls *)

Section PosixFacts.
Import Posix.

Lemma fd_lookup_of_nat os n : fd_lookup os (Z.of_nat n) = os_fdt os !! n.
Proof.
  unfold fd_lookup. destruct (Z.ltb_spec (Z.of_nat n) 0); [lia |].
  by rewrite Nat2Z.id.
Qed.

Lemma next_fault_inv os b os' :
  next_fault os = (b, os') ->
  os_files os' = os_files os /\ os_fdt os' = os_fdt os.
Proof.
  unfold next_fault. destruct (os_faults os); intros [= <- <-]; done.
Qed.

Lemma next_fault_quiet os :
  quiet os -> exists os', next_fault os = (false, os') /\ quiet os' /\
    os_files os' = os_files os /\ os_fdt os' = os_fdt os.
Proof.
  unfold quiet, next_fault. intros Hq. destruct (os_faults os) as [|b rest] eqn:E.
  - exists os. by rewrite E.
  - inversion Hq; subst. eexists. split; [reflexivity |]. by simpl.
Qed.

(** Creating a file that does not exist: failure, or a descriptor on the
    new, empty file. *)
Lemma open_creat_inv path flags os r os' :
  os_files os !! path = None ->
  Z.testbit flags 6 = true ->
  open path flags os = (r, os') ->
  r = -1 \/ exists n, r = Z.of_nat n /\ on_file os os' n path flags 0 [].
Proof.
  intros Hnone Hcreat. unfold open.
  destruct (next_fault os) as [fail os1] eqn:Ef.
  destruct (next_fault_inv _ _ _ Ef) as [Hfiles Hfdt].
  destruct fail; [intros [= <- <-]; by left |].
  rewrite Hfiles, Hnone, Hcreat. intros [= <- <-]. right.
  eexists. split; [reflexivity |]. split; simpl.
  - by rewrite lookup_insert_eq.
  - done.
Qed.

Lemma lseek_set_on os0 os n path flags pos c off :
  on_file os0 os n path flags pos c -> 0 <= off ->
  exists os', lseek_set (Z.of_nat n) off os = (off, os') /\
    on_file os0 os' n path flags off c /\ os_faults os' = os_faults os.
Proof.
  intros [Hfd Hfiles] Hoff. unfold lseek_set.
  rewrite fd_lookup_of_nat, Hfd. destruct (Z.ltb_spec off 0); [lia |].
  eexists. split; [reflexivity |]. split; [| done]. split; simpl.
  - by rewrite Nat2Z.id, lookup_insert_eq.
  - done.
Qed.

Lemma write_on os0 os n path flags pos c buf r os' :
  on_file os0 os n path flags pos c ->
  writable (mkOpenFile path pos flags) = true ->
  write (Z.of_nat n) buf os = (r, os') ->
  r = -1 \/
  (r = Z.of_nat (length buf) /\
   on_file os0 os' n path flags (pos + Z.of_nat (length buf))
     (pwrite c (Z.to_nat pos) buf)).
Proof.
  intros [Hfd Hfiles] Hw. unfold write. rewrite fd_lookup_of_nat, Hfd, Hw.
  destruct (next_fault os) as [fail os1] eqn:Ef.
  destruct (next_fault_inv _ _ _ Ef) as [Hfiles1 Hfdt1].
  destruct fail; [intros [= <- <-]; by left |].
  cbn [of_path of_pos of_flags]. rewrite Hfiles1, Hfiles, lookup_insert_eq.
  intros [= <- <-]. right. split; [done |]. split; simpl.
  - by rewrite Nat2Z.id, lookup_insert_eq.
  - by rewrite insert_insert_eq.
Qed.

Lemma close_on os0 os n path flags pos c :
  on_file os0 os n path flags pos c ->
  exists os', close (Z.of_nat n) os = (0, os') /\ os_files os' = os_files os.
Proof.
  intros [Hfd Hfiles]. unfold close. rewrite fd_lookup_of_nat, Hfd.
  eexists. split; reflexivity.
Qed.

Lemma calloc_ok_inv sz os b os' :
  calloc_ok sz os = (b, os') ->
  os_files os' = os_files os /\ os_fdt os' = os_fdt os /\ (b = true -> 0 <= sz).
Proof.
  unfold calloc_ok. destruct (Z.ltb_spec sz 0).
  - intros [= <- <-]. done.
  - destruct (next_fault os) as [fail os1] eqn:Ef.
    destruct (next_fault_inv _ _ _ Ef) as [? ?]. intros [= <- <-]. done.
Qed.

Lemma on_file_transport os0 os os1 n path flags pos c :
  on_file os0 os n path flags pos c ->
  os_files os1 = os_files os -> os_fdt os1 = os_fdt os ->
  on_file os0 os1 n path flags pos c.
Proof. intros [? ?] Hf Hd. split; congruence. Qed.

(** The bytes after the two writes of [tsdbCreateFile]. *)
Lemma pwrite_gap (pos : nat) (buf : list byte) :
  pwrite [] pos buf = replicate pos x00 ++ buf.
Proof.
  unfold pwrite. simpl. rewrite Nat.sub_0_r, take_replicate, Nat.min_id.
  by rewrite drop_nil, app_nil_r.
Qed.

Lemma pwrite_zero_prefix (n m : nat) :
  pwrite (replicate n x00 ++ replicate m x00) 0 (replicate n x00)
  = replicate (n + m) x00.
Proof.
  unfold pwrite. rewrite take_0. simpl.
  rewrite length_replicate, drop_app_length' by by rewrite length_replicate.
  by rewrite replicate_add.
Qed.


Lemma lseek_set_open os n e off :
  os_fdt os !! n = Some e -> 0 <= off ->
  lseek_set (Z.of_nat n) off os
  = (off, mkOS (os_files os)
               (<[n := mkOpenFile (of_path e) off (of_flags e)]> (os_fdt os))
               (os_faults os)).
Proof.
  intros He Hoff. unfold lseek_set. rewrite fd_lookup_of_nat, He.
  destruct (Z.ltb_spec off 0); [lia |]. by rewrite Nat2Z.id.
Qed.


End PosixFacts.

(** ** File creation *)

Section FileFacts.
Import Posix File.
Context `{L : Layout}.

Lemma wflags_writable path pos : writable (mkOpenFile path pos wflags) = true.
Proof. reflexivity. Qed.

Lemma tsdbCloseFile_on os0 os n path flags pos c f :
  on_file os0 os n path flags pos c -> fd f = Z.of_nat n ->
  exists os', tsdbCloseFile f os = (0, mkSFile (-1) (fname f) (size f), os') /\
    os_files os' = os_files os.
Proof.
  intros Hon Hfd. unfold tsdbCloseFile, TSDB_IS_FILE_OPENED. rewrite Hfd.
  destruct (Z.eqb_spec (Z.of_nat n) (-1)); [lia |]. simpl.
  destruct (close_on _ _ _ _ _ _ _ Hon) as (os' & -> & Hfiles).
  by exists os'.
Qed.

Lemma tsdbWriteFileHead_on os0 os n path pos c f r f' os' :
  on_file os0 os n path wflags pos c ->
  tsdbWriteFileHead f os = (r, f', os') -> fd f = Z.of_nat n ->
  r = -1 \/
  (r = 0 /\ f' = mkSFile (fd f) (fname f) (size f + TSDB_FILE_HEAD_SIZE) /\
   on_file os0 os' n path wflags TSDB_FILE_HEAD_SIZE
     (pwrite c 0 (zeros TSDB_FILE_HEAD_SIZE))).
Proof.
  intros Hon E Hfd. revert E. unfold tsdbWriteFileHead. cbn [fd]. rewrite Hfd.
  destruct (lseek_set_on _ _ _ _ _ _ _ 0 Hon) as (os1 & -> & Hon1 & _); [lia |].
  destruct (write _ _ os1) as [w os2] eqn:Ew.
  destruct (write_on _ _ _ _ _ _ _ _ _ _ Hon1 (wflags_writable _ _) Ew)
    as [-> | [-> Hon2]].
  - intros [= <- <- <-]. by left.
  - rewrite length_replicate in *. pose proof head_size_pos.
    rewrite Z2Nat.id in * by lia.
    destruct (Z.ltb_spec TSDB_FILE_HEAD_SIZE 0); [lia |].
    intros [= <- <- <-]. right. split; [done |]. split; [done |].
    by rewrite Z.add_0_l in Hon2.
Qed.

Lemma tsdbWriteHeadFileIdx_on os0 os n path pos c f maxTables r f' os' :
  on_file os0 os n path wflags pos c ->
  tsdbWriteHeadFileIdx f maxTables os = (r, f', os') -> fd f = Z.of_nat n ->
  r = -1 \/
  (r = 0 /\ 0 <= idx_region_size 1 maxTables /\
   f' = mkSFile (fd f) (fname f) (size f + idx_region_size 1 maxTables) /\
   on_file os0 os' n path wflags (TSDB_FILE_HEAD_SIZE + idx_region_size 1 maxTables)
     (pwrite c (Z.to_nat TSDB_FILE_HEAD_SIZE) (zeros (idx_region_size 1 maxTables)))).
Proof.
  intros Hon E Hfd. revert E.
  unfold tsdbWriteHeadFileIdx, idx_region_size. simpl (1 =? 0).
  cbv iota. set (sz := wrap32 (sizeof_SCompIdx * maxTables)).
  destruct (calloc_ok sz os) as [ok os1] eqn:Ec.
  destruct (calloc_ok_inv _ _ _ _ Ec) as (Hf1 & Hd1 & Hsz).
  destruct ok; simpl; [| intros [= <- <- <-]; by left].
  specialize (Hsz eq_refl).
  assert (Hon1 := on_file_transport _ _ _ _ _ _ _ _ Hon Hf1 Hd1).
  rewrite Hfd. pose proof head_size_pos.
  destruct (lseek_set_on _ _ _ _ _ _ _ TSDB_FILE_HEAD_SIZE Hon1)
    as (os2 & -> & Hon2 & _); [lia |].
  destruct (Z.ltb_spec TSDB_FILE_HEAD_SIZE 0); [lia |].
  destruct (write _ _ os2) as [w os3] eqn:Ew.
  destruct (write_on _ _ _ _ _ _ _ _ _ _ Hon2 (wflags_writable _ _) Ew)
    as [-> | [-> Hon3]].
  - intros [= <- <- <-]. by left.
  - rewrite length_replicate in *. rewrite Z2Nat.id in * by lia.
    destruct (Z.ltb_spec sz 0); [lia |].
    intros [= <- <- <-]. right. done.
Qed.

Lemma of_nat_ltb_0 n : (Z.of_nat n <? 0) = false.
Proof. apply Z.ltb_ge. lia. Qed.

Local Opaque tsdbWriteFileHead tsdbWriteHeadFileIdx tsdbCloseFile open.

(** What a successful [tsdbCreateFile] with [toClose] leaves: the file did
    not exist, now holds the header and the index region, all zeros, and is
    closed again; no other file has changed. *)
Lemma tsdbCreateFile_closed_inv dataDir fid suffix maxTables wh os r f os' :
  tsdbCreateFile dataDir fid suffix maxTables wh 1 os = (r, f, os') ->
  r = -1 \/
  (r = 0 /\
   os_files os !! tsdbGetFileName dataDir fid suffix = None /\
   0 <= idx_region_size wh maxTables /\
   f = mkSFile (-1) (tsdbGetFileName dataDir fid suffix)
         (idx_region_size wh maxTables + TSDB_FILE_HEAD_SIZE) /\
   os_files os'
   = <[tsdbGetFileName dataDir fid suffix :=
         zeros (TSDB_FILE_HEAD_SIZE + idx_region_size wh maxTables)]> (os_files os)).
Proof.
  unfold tsdbCreateFile, access, tsdbOpenFile.
  change (Z.lor O_WRONLY O_CREAT) with wflags. cbn [fname size].
  set (name := tsdbGetFileName dataDir fid suffix).
  destruct (os_files os !! name) eqn:Hnone; simpl; [intros [= <- <- <-]; by left |].
  destruct (open name wflags os) as [newfd os1] eqn:Eo.
  destruct (open_creat_inv name wflags _ _ _ Hnone eq_refl Eo) as [-> | (n & -> & Hon)];
    [simpl; intros [= <- <- <-]; by left |].
  rewrite of_nat_ltb_0. simpl.
  pose proof head_size_pos as Hhead.
  unfold idx_region_size. destruct (wh =? 0) eqn:Ewh; simpl.
  - (* no index region *)
    match goal with |- context [tsdbWriteFileHead ?f0 ?o] =>
      destruct (tsdbWriteFileHead f0 o) as [[r1 f1] os2] eqn:Eh end.
    destruct (tsdbWriteFileHead_on _ _ _ _ _ _ _ _ _ _ Hon Eh eq_refl)
      as [-> | (-> & -> & Hon2)]; simpl.
    + destruct (tsdbCloseFile f1 os2) as [[? ?] ?].
      intros [= <- <- <-]. by left.
    + destruct (tsdbCloseFile_on _ _ _ _ _ _ _
                  (mkSFile (Z.of_nat n) name (0 + TSDB_FILE_HEAD_SIZE))
                  Hon2 eq_refl) as (os3 & Ecl & Hfiles3).
      cbn [fd fname size] in *. rewrite Ecl. intros [= <- <- <-]. right.
      split; [done |]. split; [done |]. split; [lia |]. split; [done |].
      rewrite Hfiles3. destruct Hon2 as [_ ->]. f_equal.
      unfold zeros. rewrite Z.add_0_r.
      unfold pwrite. by rewrite take_0, drop_nil, app_nil_r.
  - (* the head file: index region, then header *)
    match goal with |- context [tsdbWriteHeadFileIdx ?f0 ?m ?o] =>
      destruct (tsdbWriteHeadFileIdx f0 m o) as [[r1 f1] os2] eqn:Ei end.
    destruct (tsdbWriteHeadFileIdx_on _ _ _ _ _ _ _ _ _ _ _ Hon Ei eq_refl)
      as [-> | (-> & Hsz & -> & Hon2)]; simpl.
    + destruct (tsdbCloseFile f1 os2) as [[? ?] ?].
      intros [= <- <- <-]. by left.
    + cbn [fd fname size] in *.
      unfold idx_region_size in *. simpl (1 =? 0) in *. cbv iota in Hsz, Hon2 |- *.
      set (sz := wrap32 (sizeof_SCompIdx * maxTables)) in *.
      match goal with |- context [tsdbWriteFileHead ?f0 ?o] =>
        destruct (tsdbWriteFileHead f0 o) as [[r2 f2] os3] eqn:Eh end.
      destruct (tsdbWriteFileHead_on _ _ _ _ _ _ _ _ _ _ Hon2 Eh eq_refl)
        as [-> | (-> & -> & Hon3)]; simpl.
      * destruct (tsdbCloseFile f2 os3) as [[? ?] ?].
        intros [= <- <- <-]. by left.
      * destruct (tsdbCloseFile_on _ _ _ _ _ _ _
                    (mkSFile (Z.of_nat n) name (0 + sz + TSDB_FILE_HEAD_SIZE))
                    Hon3 eq_refl) as (os4 & Ecl & Hfiles4).
        cbn [fd fname size] in *. rewrite Ecl. intros [= <- <- <-]. right.
        split; [done |]. split; [done |]. split; [done |]. split; [done |].
        rewrite Hfiles4. destruct Hon3 as [_ ->]. f_equal.
        unfold zeros. rewrite pwrite_gap, pwrite_zero_prefix.
        f_equal. lia.
Qed.

Local Transparent tsdbWriteFileHead tsdbWriteHeadFileIdx tsdbCloseFile open.

(** *** Searching the directory *)

Lemma fid_small_diff a b :
  fid_small a -> fid_small b -> wrap32 (a - b) = a - b.
Proof.
  unfold fid_small. intros Ha Hb. apply wrap32_id.
  unfold int32, INT_MIN, INT_MAX.
  change (2 ^ 30) with 1073741824 in *. lia.
Qed.

Lemma sorted_lookup_lt (l : list SFileGroup) i j a b :
  StronglySorted fid_lt l ->
  l !! i = Some a -> l !! j = Some b -> (i < j)%nat -> fileId a < fileId b.
Proof.
  intros Hs. revert i j. induction Hs as [|x l Hs IH Hall]; intros i j Hi Hj Hlt.
  - by rewrite lookup_nil in Hi.
  - destruct j as [|j]; [lia |]. destruct i as [|i]; simpl in *.
    + inversion Hi; subst. rewrite Forall_forall in Hall.
      apply Hall. eapply list_elem_of_lookup_2, Hj.
    + eapply IH; eauto. lia.
Qed.

Lemma sorted_lookup_inj (l : list SFileGroup) i j a b :
  StronglySorted fid_lt l ->
  l !! i = Some a -> l !! j = Some b -> fileId a = fileId b -> i = j.
Proof.
  intros Hs Hi Hj He.
  destruct (Nat.lt_total i j) as [H|[H|H]]; [| done |].
  - pose proof (sorted_lookup_lt _ _ _ _ _ Hs Hi Hj H). lia.
  - pose proof (sorted_lookup_lt _ _ _ _ _ Hs Hj Hi H). lia.
Qed.

(** [bsearch] only returns an element the key compares equal to. *)
Lemma bsearch_loop_sound {A} (compar : A -> Z) base fuel lo hi i :
  bsearch_loop compar base fuel lo hi = Some i ->
  exists p, base !! i = Some p /\ compar p = 0.
Proof.
  revert lo hi. induction fuel as [|fuel IH]; intros lo hi; cbn [bsearch_loop]; [done |].
  destruct (lo <? hi)%nat; [| done].
  destruct (base !! ((lo + hi) / 2)%nat) as [p|] eqn:Hp; [| done].
  destruct (Z.ltb_spec (compar p) 0); [apply IH |].
  destruct (Z.ltb_spec 0 (compar p)); [apply IH |].
  intros [= <-]. exists p. split; [done | lia].
Qed.

(** On an array in increasing order it finds the element that is there. *)
Lemma bsearch_loop_complete (l : list SFileGroup) fid fuel lo hi j g :
  StronglySorted fid_lt l ->
  Forall (fun g => fid_small (fileId g)) l -> fid_small fid ->
  l !! j = Some g -> fileId g = fid ->
  (lo <= j < hi)%nat -> (hi <= length l)%nat -> (hi - lo < fuel)%nat ->
  bsearch_loop (compFGroupKey fid) l fuel lo hi = Some j.
Proof.
  intros Hs Hall Hfid Hj Hg. revert lo hi.
  induction fuel as [|fuel IH]; intros lo hi Hlohi Hhi Hfuel; [lia |].
  cbn [bsearch_loop]. destruct (Nat.ltb_spec lo hi); [| lia].
  set (idx := ((lo + hi) / 2)%nat).
  assert (Hdiv : (lo <= idx < hi)%nat).
  { subst idx. split;
      [apply Nat.div_le_lower_bound; lia | apply Nat.Div0.div_lt_upper_bound; lia]. }
  destruct (lookup_lt_is_Some_2 l idx) as [p Hp]; [lia |].
  rewrite Hp.
  assert (Hsp : fid_small (fileId p)).
  { rewrite Forall_forall in Hall. eapply Hall, list_elem_of_lookup_2, Hp. }
  assert (Hc : compFGroupKey fid p = fid - fileId p)
    by apply (fid_small_diff _ _ Hfid Hsp).
  rewrite !Hc.
  destruct (Z.ltb_spec (fid - fileId p) 0) as [Hlt|Hge].
  - apply IH; [| lia | lia]. split; [lia |].
    destruct (Nat.lt_ge_cases j idx) as [|Hle]; [done |].
    destruct (Nat.eq_dec j idx) as [->|Hne].
    + rewrite Hp in Hj. inversion Hj; subst. lia.
    + assert (fileId p < fileId g)
        by (eapply (sorted_lookup_lt l); eauto; lia). lia.
  - destruct (Z.ltb_spec 0 (fid - fileId p)) as [Hgt|Hle].
    + apply IH; [| lia | lia]. split; [| lia].
      destruct (Nat.lt_ge_cases idx j) as [|Hle]; [lia |].
      destruct (Nat.eq_dec j idx) as [->|Hne].
      * rewrite Hp in Hj. inversion Hj; subst. lia.
      * assert (fileId g < fileId p)
          by (eapply (sorted_lookup_lt l); eauto; lia). lia.
    + f_equal. eapply (sorted_lookup_inj l); eauto. lia.
Qed.

Lemma tsdbSearchFGroup_sound h fid i :
  Forall (fun g => fid_small (fileId g)) (fGroup h) -> fid_small fid ->
  tsdbSearchFGroup h fid = Some i ->
  exists g, fGroup h !! i = Some g /\ fileId g = fid.
Proof.
  intros Hall Hfid. unfold tsdbSearchFGroup, bsearch.
  destruct (fGroup h !! 0%nat); [| done].
  destruct (fGroup h !! Z.to_nat (numOfFGroups h - 1)); [| done].
  destruct (_ || _); [done |]. intros Hb.
  apply bsearch_loop_sound in Hb as (p & Hp & Hc). exists p. split; [done |].
  unfold compFGroupKey in Hc. rewrite fid_small_diff in Hc; [lia | done |].
  rewrite Forall_forall in Hall. eapply Hall, list_elem_of_lookup_2, Hp.
Qed.

Lemma tsdbSearchFGroup_complete h fid j g :
  fileH_wf h -> fid_small fid ->
  fGroup h !! j = Some g -> fileId g = fid ->
  tsdbSearchFGroup h fid = Some j.
Proof.
  intros [Hs Hall] Hfid Hj Hg. unfold tsdbSearchFGroup, numOfFGroups.
  pose proof (lookup_lt_Some _ _ _ Hj) as Hlen.
  destruct (lookup_lt_is_Some_2 (fGroup h) 0%nat) as [first Hfirst]; [lia |].
  destruct (lookup_lt_is_Some_2 (fGroup h) (Z.to_nat (Z.of_nat (length (fGroup h)) - 1)))
    as [last Hlast]; [lia |].
  rewrite Hfirst, Hlast.
  assert (fileId first <= fid).
  { destruct j as [|j].
    - rewrite Hfirst in Hj. inversion Hj; subst. lia.
    - assert (fileId first < fileId g)
        by (eapply (sorted_lookup_lt (fGroup h)); eauto; lia). lia. }
  assert (fid <= fileId last).
  { destruct (Nat.eq_dec j (Z.to_nat (Z.of_nat (length (fGroup h)) - 1))) as [->|Hne].
    - rewrite Hlast in Hj. inversion Hj; subst. lia.
    - assert (fileId g < fileId last)
        by (eapply (sorted_lookup_lt (fGroup h)); eauto; lia). lia. }
  destruct (Z.ltb_spec fid (fileId first)); [lia |].
  destruct (Z.gtb_spec fid (fileId last)); [lia |]. simpl.
  unfold bsearch. eapply bsearch_loop_complete; eauto; lia.
Qed.

(** The search finds exactly the groups that are there. *)
Lemma tsdbSearchFGroup_None h fid :
  fileH_wf h -> fid_small fid ->
  (tsdbSearchFGroup h fid = None <-> ~ has_group h fid).
Proof.
  intros Hwf Hfid. split.
  - intros Hnone (g & Hin & Hg). apply list_elem_of_lookup in Hin as [j Hj].
    by rewrite (tsdbSearchFGroup_complete _ _ _ _ Hwf Hfid Hj Hg) in Hnone.
  - intros Hno. destruct (tsdbSearchFGroup h fid) as [i|] eqn:E; [| done].
    destruct Hwf as [_ Hall].
    apply tsdbSearchFGroup_sound in E as (g & Hg & Hid); [| done | done].
    exfalso. apply Hno. exists g. split; [| done].
    eapply list_elem_of_lookup_2, Hg.
Qed.

(** *** Sorting the directory *)

Lemma sort_insert_perm {A} (compar : A -> A -> Z) x l :
  sort_insert compar x l ≡ₚ x :: l.
Proof.
  induction l as [|y l IH]; simpl; [done |].
  destruct (compar x y <=? 0); [done |].
  rewrite IH. apply perm_swap.
Qed.

Lemma qsort_perm {A} (compar : A -> A -> Z) l : qsort compar l ≡ₚ l.
Proof.
  induction l as [|y l IH]; simpl; [done |].
  unfold qsort in *. simpl. by rewrite sort_insert_perm, IH.
Qed.

Lemma sort_insert_sorted x l :
  StronglySorted fid_lt l ->
  Forall (fun g => fid_small (fileId g)) l -> fid_small (fileId x) ->
  Forall (fun g => fileId g <> fileId x) l ->
  StronglySorted fid_lt (sort_insert compFGroup x l).
Proof.
  intros Hs. induction Hs as [|y l Hs IH Hy]; intros Hall Hx Hne; simpl.
  - repeat constructor.
  - inversion Hall as [|? ? Hys Hall']; subst.
    inversion Hne as [|? ? Hyx Hne']; subst.
    unfold compFGroup at 1. rewrite (fid_small_diff _ _ Hx Hys).
    destruct (Z.leb_spec (fileId x - fileId y) 0) as [Hle|Hgt].
    + constructor; [by constructor |]. constructor; [unfold fid_lt; lia |].
      eapply Forall_impl; [exact Hy |]. unfold fid_lt. intros; lia.
    + constructor; [by apply IH |].
      rewrite sort_insert_perm. constructor; [unfold fid_lt; lia | done].
Qed.

Lemma qsort_sorted l :
  NoDup (fileId <$> l) -> Forall (fun g => fid_small (fileId g)) l ->
  StronglySorted fid_lt (qsort compFGroup l).
Proof.
  induction l as [|x l IH]; intros Hnd Hall; [constructor |].
  apply NoDup_cons in Hnd as [Hnotin Hnd].
  inversion Hall as [|? ? Hx Hall']; subst.
  change (qsort compFGroup (x :: l)) with (sort_insert compFGroup x (qsort compFGroup l)).
  apply sort_insert_sorted; [by apply IH | | done |].
  - by rewrite qsort_perm.
  - rewrite qsort_perm. apply Forall_forall. intros g Hg Heq.
    apply Hnotin. rewrite <- Heq. by apply list_elem_of_fmap_2.
Qed.

Lemma sorted_fids_NoDup l :
  StronglySorted fid_lt l -> NoDup (fileId <$> l).
Proof.
  induction 1 as [|x l Hs IH Hx]; [constructor |].
  simpl. apply NoDup_cons. split; [| done].
  intros Hin. apply list_elem_of_fmap in Hin as (g & Heq & Hg).
  rewrite Forall_forall in Hx. specialize (Hx g Hg). unfold fid_lt in Hx. lia.
Qed.

(** Appending a group with a new, small file id and sorting gives a
    directory in order again. *)
Lemma append_sort_wf h g :
  fileH_wf h -> fid_small (fileId g) -> ~ has_group h (fileId g) ->
  fileH_wf (mkFileH (maxFGroups h) (qsort compFGroup (fGroup h ++ [g]))).
Proof.
  intros [Hs Hall] Hg Hno. split; cbn [fGroup].
  - apply qsort_sorted.
    + rewrite fmap_app. simpl. apply NoDup_app. split; [by apply sorted_fids_NoDup |].
      split; [| apply NoDup_singleton].
      intros x Hx Hx'. apply list_elem_of_singleton in Hx'. subst.
      apply list_elem_of_fmap in Hx as (g0 & Heq & Hg0).
      apply Hno. by exists g0.
    + apply Forall_app. split; [done |]. by apply Forall_singleton.
  - rewrite qsort_perm. apply Forall_app. split; [done |]. by apply Forall_singleton.
Qed.

(** *** Creating the three files of a group *)

Lemma tsdbGetFileName_inj dataDir fid s1 s2 :
  tsdbGetFileName dataDir fid s1 = tsdbGetFileName dataDir fid s2 -> s1 = s2.
Proof.
  unfold tsdbGetFileName. intros H.
  by repeat apply String.app_inj in H.
Qed.

Local Opaque tsdbCreateFile.

Lemma create_group_files_inv dataDir fid maxTables os fs os' :
  create_group_files file_types dataDir fid maxTables [] os = (Some fs, os') ->
  0 <= idx_region_size 1 maxTables /\
  os_files os !! tsdbGetFileName dataDir fid ".head" = None /\
  os_files os !! tsdbGetFileName dataDir fid ".data" = None /\
  os_files os !! tsdbGetFileName dataDir fid ".last" = None /\
  fs = [ mkSFile (-1) (tsdbGetFileName dataDir fid ".head")
           (idx_region_size 1 maxTables + TSDB_FILE_HEAD_SIZE);
         mkSFile (-1) (tsdbGetFileName dataDir fid ".data") (0 + TSDB_FILE_HEAD_SIZE);
         mkSFile (-1) (tsdbGetFileName dataDir fid ".last") (0 + TSDB_FILE_HEAD_SIZE) ] /\
  os_files os'
  = <[tsdbGetFileName dataDir fid ".last" := zeros (TSDB_FILE_HEAD_SIZE + 0)]>
      (<[tsdbGetFileName dataDir fid ".data" := zeros (TSDB_FILE_HEAD_SIZE + 0)]>
         (<[tsdbGetFileName dataDir fid ".head" :=
              zeros (TSDB_FILE_HEAD_SIZE + idx_region_size 1 maxTables)]> (os_files os))).
Proof.
  unfold file_types. cbn [create_group_files].
  change (tsdbFileSuffix !!! Z.to_nat TSDB_FILE_TYPE_HEAD) with ".head"%string.
  change (tsdbFileSuffix !!! Z.to_nat TSDB_FILE_TYPE_DATA) with ".data"%string.
  change (tsdbFileSuffix !!! Z.to_nat TSDB_FILE_TYPE_LAST) with ".last"%string.
  change (TSDB_FILE_TYPE_HEAD =? TSDB_FILE_TYPE_HEAD) with true.
  change (TSDB_FILE_TYPE_DATA =? TSDB_FILE_TYPE_HEAD) with false.
  change (TSDB_FILE_TYPE_LAST =? TSDB_FILE_TYPE_HEAD) with false. cbv iota.
  destruct (tsdbCreateFile dataDir fid ".head" maxTables 1 1 os) as [[r1 f1] os1] eqn:E1.
  apply tsdbCreateFile_closed_inv in E1 as [-> | (-> & Hn1 & Hsz & -> & Hf1)];
    [simpl; done |].
  simpl (0 <? 0). cbv iota.
  destruct (tsdbCreateFile dataDir fid ".data" maxTables 0 1 os1) as [[r2 f2] os2] eqn:E2.
  apply tsdbCreateFile_closed_inv in E2 as [-> | (-> & Hn2 & _ & -> & Hf2)];
    [simpl; done |].
  simpl (0 <? 0). cbv iota.
  destruct (tsdbCreateFile dataDir fid ".last" maxTables 0 1 os2) as [[r3 f3] os3] eqn:E3.
  apply tsdbCreateFile_closed_inv in E3 as [-> | (-> & Hn3 & _ & -> & Hf3)];
    [simpl; done |].
  simpl (0 <? 0). cbv iota. intros [= <- <-].
  assert (Hhd : tsdbGetFileName dataDir fid ".head" <> tsdbGetFileName dataDir fid ".data")
    by (intros H%tsdbGetFileName_inj; discriminate).
  assert (Hhl : tsdbGetFileName dataDir fid ".head" <> tsdbGetFileName dataDir fid ".last")
    by (intros H%tsdbGetFileName_inj; discriminate).
  assert (Hdl : tsdbGetFileName dataDir fid ".data" <> tsdbGetFileName dataDir fid ".last")
    by (intros H%tsdbGetFileName_inj; discriminate).
  rewrite Hf2 in Hn3. rewrite Hf1 in Hn2, Hn3.
  rewrite lookup_insert_ne in Hn2 by done.
  rewrite !lookup_insert_ne in Hn3 by done.
  unfold idx_region_size at 3 4 5 6. simpl (0 =? 0). cbv iota.
  split; [done |]. split; [done |]. split; [done |]. split; [done |].
  split; [done |]. by rewrite Hf3, Hf2, Hf1.
Qed.

Local Transparent tsdbCreateFile.

(** *** Creating a file group *)

Local Opaque create_group_files.


Local Transparent create_group_files.

(** *** Loading the index of a fresh group *)





Local Opaque tsdbOpenFile.


Local Transparent tsdbOpenFile.


Local Opaque create_group_files open_group_files tsdbLoadCompIdx.

(** A call that returns 0 for a file id that was not there has created the
    three files and put the new group in its place. *)
Lemma tsdbCreateFGroup_new_inv h dataDir fid maxTables os h' os' :
  fileH_wf h -> fid_small fid -> ~ has_group h fid ->
  tsdbCreateFGroup h dataDir fid maxTables os = (0, h', os') ->
  exists fs,
    create_group_files file_types dataDir fid maxTables [] os = (Some fs, os') /\
    h' = mkFileH (maxFGroups h)
           (qsort compFGroup (fGroup h ++ [mkSFileGroup fid fs])) /\
    fGroup h' ≡ₚ mkSFileGroup fid fs :: fGroup h /\
    fileH_wf h'.
Proof.
  intros Hwf Hfid Hno. unfold tsdbCreateFGroup.
  destruct (numOfFGroups h >=? maxFGroups h); [intros [= ?]; lia |].
  rewrite (proj2 (tsdbSearchFGroup_None h fid Hwf Hfid) Hno).
  destruct (create_group_files file_types dataDir fid maxTables [] os)
    as [[fs|] os1] eqn:Ec; [| intros [= ?]; lia].
  intros [= <- <-]. exists fs. split; [done |]. split; [done |].
  split; [cbn [fGroup]; by rewrite qsort_perm, Permutation_app_comm |].
  by apply (append_sort_wf h (mkSFileGroup fid fs)).
Qed.



Local Transparent create_group_files open_group_files tsdbLoadCompIdx.

(** C10.  When the file to create already exists on disk, [tsdbCreateFile]
    returns -1 and leaves the operating-system state as it was: no descriptor
    is opened and no byte of any file changes, so the existing file is
    neither truncated nor written. *)
Theorem C10_create_existing_file (dataDir : string) (fileId : Z) (suffix : string)
    (maxTables writeHeader toClose : Z) (os : OS) (content : list byte) :
  os_files os !! tsdbGetFileName dataDir fileId suffix = Some content ->
  tsdbCreateFile dataDir fileId suffix maxTables writeHeader toClose os
    = (-1, mkSFile (-1) (tsdbGetFileName dataDir fileId suffix) 0, os).
Proof.
  intros Hex. unfold tsdbCreateFile, access. cbn [fname]. by rewrite Hex.
Qed.

End FileFacts.

Section FileExamples.
Import Posix File.

Lemma fid_small_5 : fid_small 5.
Proof. unfold fid_small. change (2 ^ 30) with 1073741824. lia. Qed.

Lemma fileH_empty_wf : fileH_wf fileH_empty.
Proof. split; constructor. Qed.

Lemma fileH_empty_no_group fid : ~ has_group fileH_empty fid.
Proof. intros (g & Hg & _). by apply elem_of_nil in Hg. Qed.



(** The bound on the number of groups is tested before the search: in a
    full directory the call fails even for a file id that is present. *)
Example create_fgroup_full_and_present :
  has_group fileH_full 5 /\
  tsdbCreateFGroup (L := layout_example) fileH_full "data" 5 100 os_empty
    = (-1, fileH_full, os_empty).
Proof.
  split; [| reflexivity].
  eexists. split; [apply list_elem_of_here | reflexivity].
Qed.



(** Creation leaves the files closed: without the opening step the load
    has no descriptor to read from and fails, the buffer untouched. *)
Example load_without_open (buf : list byte) :
  tsdbLoadCompIdx (L := layout_example) fgroup5 buf 100 os_fgroup5
  = (-1, buf, os_fgroup5).
Proof. reflexivity. Qed.

(** After the opening step the load reads the zeroed index. *)
Example open_then_load :
  let '(_, h2, os2) := tsdbOpenFilesForCommit (mkFileH 10 [fgroup5]) 5 os_fgroup5 in
  match fGroup h2 !! 0%nat with
  | Some g =>
      (tsdbLoadCompIdx (L := layout_example) g (replicate 2400 xff) 100 os2).1
      = (0, replicate 2400 x00)
  | None => False
  end.
Proof. vm_compute. reflexivity. Qed.

Lemma C10_create_existing_file_witness :
  os_files os_leftover !! tsdbGetFileName "data" 5 ".head" = Some [x01; x02] /\
  tsdbCreateFile (L := layout_example) "data" 5 ".head" 100 1 1 os_leftover
    = (-1, mkSFile (-1) (tsdbGetFileName "data" 5 ".head") 0, os_leftover).
Proof.
  split; [reflexivity |].
  apply (C10_create_existing_file (L := layout_example)
           "data" 5 ".head" 100 1 1 os_leftover [x01; x02]).
  reflexivity.
Defined.

End FileExamples.

(** ** The commit trigger *)

Section TriggerFacts.
Import Cfg Repo.





(** C3.  On a repository in which a commit is in flight (commit flag 1),
    [tsdbTriggerCommit] returns -1 and changes nothing: the tables, the
    cache generations and the commit flag are as before, and the mutex is
    taken and released with no task spawned in between. *)
Theorem C3_trigger_commit_rejected (repo : STsdbRepo) :
  commit repo = 1 ->
  exists repo' : STsdbRepo,
    tsdbTriggerCommit repo = Some (-1, repo') /\
    tsdbMeta repo' = tsdbMeta repo /\ tsdbCache repo' = tsdbCache repo /\
    commit repo' = 1 /\
    trace repo' = trace repo ++ [EvLock; EvUnlock] /\
    state repo' = state repo /\ config repo' = config repo /\
    rootDir repo' = rootDir repo /\ tick repo' = tick repo.
Proof.
  intros Hc. eexists. split.
  - unfold tsdbTriggerCommit, tsdbLockRepo, tsdbUnLockRepo.
    cbn [commit log]. rewrite Hc. simpl negb. cbv iota. reflexivity.
  - unfold log. cbn [tsdbMeta tsdbCache commit trace state config rootDir tick].
    rewrite <- app_assoc. done.
Qed.

(** Any non-zero flag is taken for a commit in flight. *)
Lemma tsdbTriggerCommit_rejected_nonzero (repo : STsdbRepo) :
  commit repo <> 0 ->
  tsdbTriggerCommit repo = Some (-1, tsdbUnLockRepo (tsdbLockRepo repo)).
Proof.
  intros Hc. unfold tsdbTriggerCommit, tsdbLockRepo. cbn [commit log].
  destruct (Z.eqb_spec (commit repo) 0); [done | reflexivity].
Qed.

End TriggerFacts.

Section TriggerExamples.
Import Cfg Repo Inputs.


(** The freeze of the loaded repository, computed. *)
Example trigger_commit_loaded :
  tsdbTriggerCommit repo_loaded
  = Some (0,
          mkRepo "/tsdb" cfg_small
            (Some (Meta.mkMeta
                     (Some (Meta.mkTable (Meta.mkTableId 42 0) None (Some memtable_1000))
                      :: replicate 9 None)))
            (Some (Cache.mkCache (Cache.pool cache_loaded) None
                     (Some (Cache.mkCacheMem 1000 1000 1 [Cache.mkBlock 0 0 0])) None))
            1 TSDB_REPO_STATE_ACTIVE [EvLock; EvSpawnCommit; EvUnlock] 2).
Proof. reflexivity. Qed.

Lemma C3_trigger_commit_rejected_witness :
  commit repo_committing = 1 /\
  exists repo' : STsdbRepo,
    tsdbTriggerCommit repo_committing = Some (-1, repo') /\
    tsdbMeta repo' = tsdbMeta repo_committing /\
    tsdbCache repo' = tsdbCache repo_committing /\
    commit repo' = 1 /\
    trace repo' = trace repo_committing ++ [EvLock; EvUnlock] /\
    state repo' = state repo_committing /\ config repo' = config repo_committing /\
    rootDir repo' = rootDir repo_committing /\ tick repo' = tick repo_committing.
Proof.
  split; [reflexivity |].
  apply (C3_trigger_commit_rejected repo_committing). reflexivity.
Defined.

End TriggerExamples.

(** ** The commit task and the commit flag *)

Section CommitFacts.
Import Cfg Repo.

Variable alloc_fails : nat -> bool.
Variable Disk : Type.
Variable tsdbCommitToFile :
  STsdbCfg -> Z -> list (option SSkipListIterator) -> Disk ->
  Z * list (option SSkipListIterator) * Disk.

Local Abbreviation commitData := (tsdbCommitData alloc_fails Disk tsdbCommitToFile).

(** With no frozen cache generation the task returns at once: nothing is
    written, the commit flag included. *)
Lemma tsdbCommitData_no_frozen_generation repo disk pCache :
  tsdbCache repo = Some pCache -> Cache.imem pCache = None ->
  commitData repo disk = Some (repo, disk).
Proof. intros Hc Hi. unfold tsdbCommitData. by rewrite Hc, Hi. Qed.

(** When the iterators cannot be allocated the task returns with the commit
    flag as it was. *)
Lemma tsdbCommitData_no_iterators repo disk pCache im :
  tsdbCache repo = Some pCache -> Cache.imem pCache = Some im ->
  alloc_fails (tick repo) = true ->
  commitData repo disk = Some (set_tick (S (tick repo)) repo, disk).
Proof.
  intros Hc Hi Hf. unfold tsdbCommitData, tsdbCreateTableIters.
  by rewrite Hc, Hi, Hf, orb_true_r.
Qed.

Lemma publish_commit repo pCache im repo' :
  publish repo pCache im = Some repo' -> commit repo' = 0.
Proof.
  unfold publish. destruct (clear_imems _ _); [| done]. by intros [= <-].
Qed.

(** The task returns either after the publish phase, with the flag cleared,
    or from one of its early returns, with the flag as it was. *)
Lemma tsdbCommitData_commit_flag repo disk repo' disk' :
  commitData repo disk = Some (repo', disk') ->
  commit repo' = 0 \/ commit repo' = commit repo.
Proof.
  unfold tsdbCommitData.
  destruct (tsdbCache repo) as [pCache|]; [| done].
  destruct (Cache.imem pCache) as [im|]; [| intros [= <- <-]; by right].
  destruct (tsdbCreateTableIters _ _ _ _) as [[[iters|] k]|];
    [| intros [= <- <-]; by right | done].
  destruct (alloc_fails k); [intros [= <- <-]; by right |].
  destruct (commit_files _ _ _ _ _ _ _) as [iters' disk1].
  destruct (publish _ _ _) as [r|] eqn:Ep; [| done].
  intros [= <- <-]. left. by eapply publish_commit.
Qed.

End CommitFacts.

Section CommitExamples.
Import Cfg Repo Inputs.

(** C2 (the code at the failing input).  The commit is triggered on a
    repository with nothing inserted: the cache has no active generation, so
    none is frozen.  The commit task returns at its first test and leaves
    the commit flag at 1, and the next trigger is rejected. *)
Lemma C2_commit_flag_left_set :
  exists r1 r2 : STsdbRepo,
    tsdbTriggerCommit repo_idle = Some (0, r1) /\
    tsdbCommitData no_alloc_failure unit commit_to_file_nop r1 tt = Some (r1, tt) /\
    commit r1 = 1 /\
    tsdbTriggerCommit r1 = Some (-1, r2).
Proof. eexists _, _. repeat split; reflexivity. Qed.

(** The same after an allocation failure in the task. *)
Example commit_flag_left_set_on_alloc_failure :
  exists r1 r2 : STsdbRepo,
    tsdbTriggerCommit repo_loaded = Some (0, r1) /\
    tsdbCommitData (fun _ => true) unit commit_to_file_nop r1 tt = Some (r2, tt) /\
    commit r2 = 1.
Proof. eexists _, _. repeat split; reflexivity. Qed.

(** When the task reaches its publish phase the flag is cleared, the frozen
    memtable dropped and the blocks of the frozen generation are back in the
    pool. *)
Example commit_flag_cleared_on_publish :
  exists r1 r2 : STsdbRepo,
    tsdbTriggerCommit repo_loaded = Some (0, r1) /\
    tsdbCommitData no_alloc_failure unit commit_to_file_nop r1 tt = Some (r2, tt) /\
    commit r2 = 0 /\
    tsdbMeta r2 = Some meta_one_table /\
    tsdbCache r2
    = Some (Cache.mkCache
              (Cache.mkPool 1048576
                 [Cache.mkBlock 1 0 0; Cache.mkBlock 2 0 0; Cache.mkBlock 3 0 0;
                  Cache.mkBlock 0 0 0])
              None None None).
Proof. eexists _, _. repeat split; reflexivity. Qed.

End CommitExamples.

(** ** Insert and the repository state *)

Section InsertFacts.
Import Cfg Row Submit Repo.
Context `{ML : MsgLayout}.

Variable rand_node_info : nat -> Z * Z.
Variable alloc_fails : nat -> bool.

Lemma tdInsertRowToTable_state s pRepo row pTable :
  tdInsertRowToTable rand_node_info alloc_fails (set_state s pRepo) row pTable
  = with_state s (tdInsertRowToTable rand_node_info alloc_fails pRepo row pTable).
Proof.
  unfold tdInsertRowToTable, with_state, next_tick, set_cache, set_meta, set_state.
  cbn [tsdbMeta tsdbCache tick rootDir config commit state trace].
  destruct (tsdbMeta pRepo) as [pMeta|]; [| done].
  destruct (Meta.tables pMeta !! pTable) as [[t|]|]; [| done | done].
  destruct (Meta.mem t) as [m|].
  - destruct (rand_node_info (tick pRepo)) as [level headSize].
    destruct (tsdbCache pRepo) as [pCache|]; [| done].
    destruct (Cache.tsdbAllocFromCache _ _ _) as [[slot|] pCache']; done.
  - destruct (alloc_fails (tick pRepo)); [done |].
    destruct (alloc_fails (S (tick pRepo))); [done |].
    destruct (rand_node_info (tick pRepo)) as [level headSize].
    destruct (tsdbCache pRepo) as [pCache|]; [| done].
    destruct (Cache.tsdbAllocFromCache _ _ _) as [[slot|] pCache']; done.
Qed.

Lemma insert_rows_state s pTable totalLen rows : forall pRepo len_,
  insert_rows rand_node_info alloc_fails (set_state s pRepo) pTable totalLen len_ rows
  = with_state s
      (insert_rows rand_node_info alloc_fails pRepo pTable totalLen len_ rows).
Proof.
  induction rows as [|row rest IH]; intros pRepo len_; cbn [insert_rows]; [done |].
  destruct (dataRowLen row <=? 0); [done |].
  rewrite tdInsertRowToTable_state.
  destruct (tdInsertRowToTable _ _ pRepo row pTable) as [[code r]|]; [| done].
  cbn [with_state fmap option_fmap option_map prod_map id fst snd].
  destruct (code <? 0); [done |].
  destruct (_ >=? totalLen); [done |]. apply IH.
Qed.

Lemma tsdbInsertDataToTable_state s repo pBlock :
  tsdbInsertDataToTable rand_node_info alloc_fails (set_state s repo) pBlock
  = with_state s (tsdbInsertDataToTable rand_node_info alloc_fails repo pBlock).
Proof.
  unfold tsdbInsertDataToTable. cbn [set_state tsdbMeta].
  destruct (tsdbMeta repo) as [pMeta|]; [| done].
  destruct (Meta.tsdbIsValidTableToInsert _ _) as [pTable|]; [| done].
  destruct (tsdbInitSubmitBlkIter pBlock) as [blkIter|]; [| done].
  destruct (bi_row blkIter); [| done].
  apply insert_rows_state.
Qed.

Lemma insert_blocks_state s totalLen blks : forall repo len_,
  insert_blocks rand_node_info alloc_fails (set_state s repo) totalLen len_ blks
  = with_state s (insert_blocks rand_node_info alloc_fails repo totalLen len_ blks).
Proof.
  induction blks as [|b rest IH]; intros repo len_; cbn [insert_blocks]; [done |].
  rewrite tsdbInsertDataToTable_state.
  destruct (tsdbInsertDataToTable _ _ repo (convert_blk b)) as [[code r]|]; [| done].
  cbn [with_state fmap option_fmap option_map prod_map id fst snd].
  destruct (code <? 0); [done |].
  destruct (_ >=? totalLen); [done |].
  destruct (_ =? _); [apply IH | done].
Qed.

(** C4 (amended).  [tsdbInsertData] does not look at the repository state:
    in any state it returns the code and makes the insertions it makes in
    the ACTIVE state, and the state stays what it was. *)
Theorem C4_insert_ignores_state (repo : STsdbRepo) (pMsg : SSubmitMsg) (s : Z) :
  tsdbInsertData rand_node_info alloc_fails (set_state s repo) pMsg
  = with_state s (tsdbInsertData rand_node_info alloc_fails repo pMsg).
Proof.
  unfold tsdbInsertData.
  destruct (tsdbInitSubmitMsgIter pMsg) as [pMsg' msgIter].
  destruct (mi_pBlock msgIter); [apply insert_blocks_state | done].
Qed.

(** The loops of the insert path are the iterations of the two iterators. *)
Lemma insert_rows_iterates pRepo pTable totalLen len_ rows :
  insert_rows rand_node_info alloc_fails pRepo pTable totalLen len_ rows
  = match tsdbGetSubmitBlkNext (mkBlkIter totalLen len_ (Some rows)) with
    | None => None
    | Some (None, _) => Some (0, pRepo)
    | Some (Some row, blkIter) =>
        match tdInsertRowToTable rand_node_info alloc_fails pRepo row pTable with
        | None => None
        | Some (code, pRepo) =>
            if code <? 0 then Some (-1, pRepo)
            else
              match bi_row blkIter with
              | None => Some (0, pRepo)
              | Some rest =>
                  insert_rows rand_node_info alloc_fails pRepo pTable
                    (bi_totalLen blkIter) (bi_len blkIter) rest
              end
        end
    end.
Proof.
  unfold tsdbGetSubmitBlkNext. cbn [bi_row bi_len bi_totalLen].
  destruct rows as [|row rest]; [done |]. cbn [insert_rows].
  destruct (dataRowLen row <=? 0); [done |].
  destruct (len_ + dataRowLen row >=? totalLen) eqn:E;
    destruct (tdInsertRowToTable _ _ pRepo row pTable) as [[code r]|]; try done;
    cbn [bi_row bi_len bi_totalLen]; by rewrite ?E.
Qed.

End InsertFacts.

Section InsertExamples.
Import Cfg Row Submit Repo Inputs.

(** C4 (counterexample).  A repository whose state is CLOSED, with its table
    in place, takes the row of the message: [tsdbInsertData] returns 0 and
    row 1000 is in the active memtable of table 0.  After [tsdbCloseRepo]
    itself a message without blocks is answered with 0, not with an error. *)
Lemma C4_insert_into_closed_repo :
  state (set_state TSDB_REPO_STATE_CLOSED repo_idle) <> TSDB_REPO_STATE_ACTIVE /\
  (exists repo' : STsdbRepo,
     tsdbInsertData (ML := msg_layout_example) rand_const no_alloc_failure
       (set_state TSDB_REPO_STATE_CLOSED repo_idle) msg_one_row = Some (0, repo') /\
     active_memtable repo' 0 = Some memtable_1000 /\
     state repo' = TSDB_REPO_STATE_CLOSED) /\
  state (tsdbCloseRepo repo_idle).2 = TSDB_REPO_STATE_CLOSED /\
  tsdbInsertData (ML := msg_layout_example) rand_const no_alloc_failure
    (tsdbCloseRepo repo_idle).2 msg_empty
  = Some (0, (tsdbCloseRepo repo_idle).2).
Proof.
  split; [vm_compute; discriminate |].
  split; [eexists; repeat split; vm_compute; reflexivity |].
  split; vm_compute; reflexivity.
Qed.

(** After [tsdbCloseRepo] the meta object is freed: a message with a block
    makes [tsdbInsertData] read it all the same. *)
Example insert_after_close_reads_freed_meta :
  tsdbInsertData (ML := msg_layout_example) rand_const no_alloc_failure
    (tsdbCloseRepo repo_idle).2 msg_one_row = None.
Proof. vm_compute. reflexivity. Qed.

(** On the active repository the same message is taken in the same way. *)
Example insert_into_active_repo :
  exists repo' : STsdbRepo,
    tsdbInsertData (ML := msg_layout_example) rand_const no_alloc_failure
      repo_idle msg_one_row = Some (0, repo') /\
    active_memtable repo' 0 = Some memtable_1000 /\
    tsdbCache repo' = Some cache_loaded.
Proof. eexists. repeat split; vm_compute; reflexivity. Qed.

(** A block for a table that is not there is rejected, in any state. *)
Example insert_unknown_table :
  tsdbInsertData (ML := msg_layout_example) rand_const no_alloc_failure repo_idle
    (mkMsg (htonl 58) (htonl 1) 0
       [mkBlk (htonl 20) (htons 1) (htobe64 43) (htonl 0) 0 0 [row_at 1000]])
  = Some (-1, repo_idle).
Proof. vm_compute. reflexivity. Qed.

End InsertExamples.

(** ** The key range of a memtable *)

Section MemtableFacts.
Import Cfg Row Repo.

Variable rand_node_info : nat -> Z * Z.
Variable alloc_fails : nat -> bool.

Local Abbreviation insertRow := (tdInsertRowToTable rand_node_info alloc_fails).
Local Abbreviation insertEach := (insert_each rand_node_info alloc_fails).

(** One inserted row moves [keyFirst] down to its key and [keyLast] up to
    it; a memtable that is not there starts from [new_memtable]. *)
Lemma tdInsertRowToTable_keys pRepo row pTable pRepo' :
  insertRow pRepo row pTable = Some (0, pRepo') ->
  exists m',
    active_memtable pRepo' pTable = Some m' /\
    Meta.keyFirst m'
    = Z.min (dataRowKey row)
        (Meta.keyFirst (default new_memtable (active_memtable pRepo pTable))) /\
    Meta.keyLast m'
    = Z.max (dataRowKey row)
        (Meta.keyLast (default new_memtable (active_memtable pRepo pTable))).
Proof.
  unfold tdInsertRowToTable, active_memtable.
  destruct (tsdbMeta pRepo) as [pMeta|]; [| done].
  destruct (Meta.tables pMeta !! pTable) as [[t|]|] eqn:Ht; [| done | done].
  assert (Hlt : (pTable < length (Meta.tables pMeta))%nat)
    by by eapply lookup_lt_Some.
  assert (Hmin : forall k a : Z, (if k <? a then k else a) = Z.min k a)
    by (intros k a; destruct (Z.ltb_spec k a); lia).
  assert (Hmax : forall k a : Z, (if k >? a then k else a) = Z.max k a)
    by (intros k a; destruct (Z.gtb_spec k a); lia).
  destruct (Meta.mem t) as [m|].
  - destruct (rand_node_info (tick pRepo)) as [level headSize].
    destruct (tsdbCache _) as [pCache|]; [| done].
    destruct (Cache.tsdbAllocFromCache _ _ _) as [[slot|] pCache']; [| done].
    intros [= <-]. eexists. split.
    + cbn [set_cache set_meta tsdbMeta set_table Meta.tables].
      rewrite list_lookup_insert_eq by done. reflexivity.
    + cbn [Meta.keyFirst Meta.keyLast default]. by rewrite Hmin, Hmax.
  - destruct (alloc_fails (tick pRepo)); [done |].
    destruct (alloc_fails (S (tick pRepo))); [done |].
    destruct (rand_node_info (tick pRepo)) as [level headSize].
    destruct (tsdbCache _) as [pCache|]; [| done].
    destruct (Cache.tsdbAllocFromCache _ _ _) as [[slot|] pCache']; [| done].
    intros [= <-]. eexists. split.
    + cbn [set_cache set_meta tsdbMeta set_table Meta.tables].
      rewrite list_lookup_insert_eq by done. reflexivity.
    + cbn [Meta.keyFirst Meta.keyLast default]. by rewrite Hmin, Hmax.
Qed.

Lemma foldr_min_acc a b l : foldr Z.min (Z.min a b) l = Z.min a (foldr Z.min b l).
Proof. induction l as [|x l IH]; simpl; [done |]. rewrite IH. lia. Qed.

Lemma foldr_max_acc a b l : foldr Z.max (Z.max a b) l = Z.max a (foldr Z.max b l).
Proof. induction l as [|x l IH]; simpl; [done |]. rewrite IH. lia. Qed.

(** After a run of inserts, [keyFirst] and [keyLast] are the bounds the
    memtable started from, pushed out by the keys inserted. *)
Lemma insert_each_keys rows : forall pRepo pTable pRepo',
  rows <> [] ->
  insertEach pRepo pTable rows = Some pRepo' ->
  exists m',
    active_memtable pRepo' pTable = Some m' /\
    Meta.keyFirst m'
    = foldr Z.min (Meta.keyFirst (default new_memtable (active_memtable pRepo pTable)))
        (dataRowKey <$> rows) /\
    Meta.keyLast m'
    = foldr Z.max (Meta.keyLast (default new_memtable (active_memtable pRepo pTable)))
        (dataRowKey <$> rows).
Proof.
  induction rows as [|row rest IH]; intros pRepo pTable pRepo' Hne; [done |].
  cbn [insert_each].
  destruct (insertRow pRepo row pTable) as [[code r1]|] eqn:E1; [| done].
  destruct code; [| done | done]. intros Hrest.
  destruct (tdInsertRowToTable_keys _ _ _ _ E1) as (m1 & Hm1 & Hf1 & Hl1).
  destruct rest as [|row2 rest'].
  - inversion Hrest; subst. exists m1. simpl. done.
  - destruct (IH r1 pTable pRepo') as (m' & Hm' & Hf & Hl); [done | done |].
    exists m'. split; [done |]. rewrite Hm1 in Hf, Hl.
    cbn [default id] in Hf, Hl. rewrite Hf, Hl, Hf1, Hl1.
    change (dataRowKey <$> row :: row2 :: rest')
      with (dataRowKey row :: (dataRowKey <$> row2 :: rest')).
    cbn [foldr]. by rewrite foldr_min_acc, foldr_max_acc.
Qed.

Lemma foldr_min_least b l :
  foldr Z.min b l <= b /\ (forall k, k ∈ l -> foldr Z.min b l <= k) /\
  (foldr Z.min b l = b \/ foldr Z.min b l ∈ l).
Proof.
  induction l as [|x l (IH1 & IH2 & IH3)]; simpl.
  - split; [lia |]. split; [| by left]. intros k Hk. by apply elem_of_nil in Hk.
  - split; [lia |]. split.
    + intros k [->|Hk]%elem_of_cons; [lia |]. specialize (IH2 k Hk). lia.
    + destruct (Z.min_spec x (foldr Z.min b l)) as [[_ ->]|[_ ->]].
      * right. apply list_elem_of_here.
      * destruct IH3 as [|]; [by left | right; by apply list_elem_of_further].
Qed.

Lemma foldr_max_greatest b l :
  b <= foldr Z.max b l /\ (forall k, k ∈ l -> k <= foldr Z.max b l) /\
  (foldr Z.max b l = b \/ foldr Z.max b l ∈ l).
Proof.
  induction l as [|x l (IH1 & IH2 & IH3)]; simpl.
  - split; [lia |]. split; [| by left]. intros k Hk. by apply elem_of_nil in Hk.
  - split; [lia |]. split.
    + intros k [->|Hk]%elem_of_cons; [lia |]. specialize (IH2 k Hk). lia.
    + destruct (Z.max_spec x (foldr Z.max b l)) as [[_ ->]|[_ ->]].
      * destruct IH3 as [|]; [by left | right; by apply list_elem_of_further].
      * right. apply list_elem_of_here.
Qed.

(** What the memtable tracks, from its creation on: [keyFirst] is the least
    timestamp inserted; [keyLast] is the greatest one or 0, whichever is
    larger, because it starts from 0; and [keyFirst <= keyLast]. *)
Lemma memtable_key_range (pRepo : STsdbRepo) (pTable : nat) (rows : list SDataRow)
    (pRepo' : STsdbRepo) :
  rows <> [] ->
  Forall (fun row => int64 (dataRowKey row)) rows ->
  active_memtable pRepo pTable = None ->
  insertEach pRepo pTable rows = Some pRepo' ->
  exists m kmax,
    active_memtable pRepo' pTable = Some m /\
    Meta.keyFirst m ∈ (dataRowKey <$> rows) /\
    (forall k, k ∈ (dataRowKey <$> rows) -> Meta.keyFirst m <= k) /\
    kmax ∈ (dataRowKey <$> rows) /\
    (forall k, k ∈ (dataRowKey <$> rows) -> k <= kmax) /\
    Meta.keyLast m = Z.max 0 kmax /\
    Meta.keyFirst m <= Meta.keyLast m.
Proof.
  intros Hne Hall Hnone Hrun.
  destruct (insert_each_keys rows _ _ _ Hne Hrun) as (m & Hm & Hf & Hl).
  rewrite Hnone in Hf, Hl. cbn [default new_memtable Meta.keyFirst Meta.keyLast] in Hf, Hl.
  set (ks := dataRowKey <$> rows) in *.
  assert (Hks : forall k, k ∈ ks -> int64 k).
  { intros k Hk. apply list_elem_of_fmap in Hk as (row & -> & Hrow).
    rewrite Forall_forall in Hall. by apply Hall. }
  assert (Hex : exists k0, k0 ∈ ks).
  { destruct rows as [|row ?]; [done |]. exists (dataRowKey row). apply list_elem_of_here. }
  destruct Hex as [k0 Hk0].
  destruct (foldr_min_least INT64_MAX ks) as (Hmin1 & Hmin2 & Hmin3).
  destruct (foldr_max_greatest INT64_MIN ks) as (Hmax1 & Hmax2 & Hmax3).
  destruct (foldr_max_greatest 0 ks) as (Hz1 & Hz2 & Hz3).
  assert (Hminin : foldr Z.min INT64_MAX ks ∈ ks).
  { destruct Hmin3 as [E|]; [| done].
    assert (foldr Z.min INT64_MAX ks = k0); [| congruence].
    specialize (Hmin2 k0 Hk0). specialize (Hks k0 Hk0). unfold int64 in Hks. lia. }
  assert (Hmaxin : foldr Z.max INT64_MIN ks ∈ ks).
  { destruct Hmax3 as [E|]; [| done].
    assert (foldr Z.max INT64_MIN ks = k0); [| congruence].
    specialize (Hmax2 k0 Hk0). specialize (Hks k0 Hk0). unfold int64 in Hks. lia. }
  exists m, (foldr Z.max INT64_MIN ks).
  split; [done |]. rewrite Hf, Hl.
  split; [done |]. split; [done |]. split; [done |]. split; [done |].
  assert (Hzmax : foldr Z.max 0 ks = Z.max 0 (foldr Z.max INT64_MIN ks)).
  { apply Z.le_antisymm.
    - destruct Hz3 as [->|Hin]; [lia |]. specialize (Hmax2 _ Hin). lia.
    - specialize (Hz2 _ Hmaxin). lia. }
  split; [done |].
  specialize (Hmin2 k0 Hk0). specialize (Hz2 k0 Hk0). lia.
Qed.

End MemtableFacts.

Section MemtableExamples.
Import Cfg Row Repo Inputs.

(** C5 (the code at the failing input).  One row with timestamp -5 goes into
    a new memtable: [keyFirst] is -5, but [keyLast] keeps the 0 it starts
    from, which is not the greatest, and only, timestamp inserted. *)
Lemma C5_keyLast_of_negative_timestamp :
  exists repo' : STsdbRepo,
    insert_each rand_const no_alloc_failure repo_idle 0 [row_at (-5)] = Some repo' /\
    active_memtable repo' 0
    = Some (Meta.mkMemTable [row_at (-5)] (-5) 0 1) /\
    int64 (-5).
Proof. eexists. repeat split; vm_compute; try reflexivity; discriminate. Qed.

(** With a timestamp that is not negative among the rows both bounds are
    the extremes of what was inserted. *)
Example key_range_three_rows :
  exists repo' : STsdbRepo,
    insert_each rand_const no_alloc_failure repo_idle 0
      [row_at 30; row_at (-10); row_at 20] = Some repo' /\
    active_memtable repo' 0
    = Some (Meta.mkMemTable [row_at (-10); row_at 20; row_at 30] (-10) 30 3).
Proof. eexists. split; vm_compute; reflexivity. Qed.

End MemtableExamples.

(** * The file directory, files and descriptors *)

Section DirectoryFacts.
Import Posix File.

(** [bsearch] on a directory in order: the index of the group with the file
    id, and nothing else. *)
Lemma bsearch_fgroup_Some h fid j :
  fileH_wf h -> fid_small fid ->
  bsearch (compFGroupKey fid) (fGroup h) = Some j <->
  exists g, fGroup h !! j = Some g /\ fileId g = fid.
Proof.
  intros [Hs Hall] Hfid. split.
  - unfold bsearch. intros Hb.
    apply bsearch_loop_sound in Hb as (p & Hp & Hc). exists p. split; [done |].
    unfold compFGroupKey in Hc. rewrite fid_small_diff in Hc; [lia | done |].
    rewrite Forall_forall in Hall. eapply Hall, list_elem_of_lookup_2, Hp.
  - intros (g & Hj & Hg). unfold bsearch.
    pose proof (lookup_lt_Some _ _ _ Hj).
    eapply bsearch_loop_complete; eauto; lia.
Qed.

Lemma bsearch_fgroup_None h fid :
  fileH_wf h -> fid_small fid ->
  bsearch (compFGroupKey fid) (fGroup h) = None <-> ~ has_group h fid.
Proof.
  intros Hwf Hfid. split.
  - intros Hnone (g & Hin & Hg). apply list_elem_of_lookup in Hin as [j Hj].
    assert (bsearch (compFGroupKey fid) (fGroup h) = Some j) as Hs
      by (apply bsearch_fgroup_Some; eauto).
    congruence.
  - intros Hno. destruct (bsearch _ _) as [j|] eqn:E; [| done].
    apply bsearch_fgroup_Some in E as (g & Hj & Hg); [| done | done].
    exfalso. apply Hno. exists g. split; [| done]. eapply list_elem_of_lookup_2, Hj.
Qed.

(** The bounds test of [tsdbSearchFGroup] changes nothing on a directory in
    order. *)
Lemma tsdbSearchFGroup_bsearch h fid :
  fileH_wf h -> fid_small fid ->
  tsdbSearchFGroup h fid = bsearch (compFGroupKey fid) (fGroup h).
Proof.
  intros Hwf Hfid.
  destruct (bsearch _ _) as [j|] eqn:E.
  - apply bsearch_fgroup_Some in E as (g & Hj & Hg); [| done | done].
    by eapply tsdbSearchFGroup_complete.
  - apply tsdbSearchFGroup_None; [done | done |]. by apply bsearch_fgroup_None.
Qed.

End DirectoryFacts.

Section DescriptorFacts.
Import Posix.

Lemma opened_on_file os0 os n path flags pos c :
  opened os0 os n path flags pos c -> on_file os0 os n path flags pos c.
Proof. intros (Hn & Hd & Hf). split; [by rewrite Hd, lookup_insert_eq | done]. Qed.

Lemma open_creat_opened path flags os r os' :
  os_files os !! path = None ->
  Z.testbit flags 6 = true ->
  open path flags os = (r, os') ->
  (r = -1 /\ os_fdt os' = os_fdt os /\ os_files os' = os_files os) \/
  exists n, r = Z.of_nat n /\ opened os os' n path flags 0 [].
Proof.
  intros Hnone Hcreat. unfold open.
  destruct (next_fault os) as [fail os1] eqn:Ef.
  destruct (next_fault_inv _ _ _ Ef) as [Hfiles Hfdt].
  destruct fail; [intros [= <- <-]; by left |].
  rewrite Hfiles, Hnone, Hcreat. intros [= <- <-]. right.
  eexists. split; [reflexivity |]. split; [| split]; simpl.
  - rewrite Hfdt. apply not_elem_of_dom. rewrite <- Hfdt. apply is_fresh.
  - by rewrite Hfdt.
  - done.
Qed.

Lemma lseek_set_opened os0 os n path flags pos c off :
  opened os0 os n path flags pos c -> 0 <= off ->
  exists os', lseek_set (Z.of_nat n) off os = (off, os') /\
    opened os0 os' n path flags off c /\ os_faults os' = os_faults os.
Proof.
  intros (Hn & Hd & Hf) Hoff. unfold lseek_set.
  rewrite fd_lookup_of_nat, Hd, lookup_insert_eq. destruct (Z.ltb_spec off 0); [lia |].
  eexists. split; [reflexivity |]. split; [| done]. split; [done |]. split; simpl.
  - by rewrite Nat2Z.id, ?Hd, insert_insert_eq.
  - done.
Qed.

Lemma write_opened os0 os n path flags pos c buf r os' :
  opened os0 os n path flags pos c ->
  writable (mkOpenFile path pos flags) = true ->
  write (Z.of_nat n) buf os = (r, os') ->
  (r = -1 /\ opened os0 os' n path flags pos c) \/
  (r = Z.of_nat (length buf) /\
   opened os0 os' n path flags (pos + Z.of_nat (length buf))
     (pwrite c (Z.to_nat pos) buf)).
Proof.
  intros (Hn & Hd & Hf) Hw. unfold write.
  rewrite fd_lookup_of_nat, Hd, lookup_insert_eq, Hw.
  destruct (next_fault os) as [fail os1] eqn:Ef.
  destruct (next_fault_inv _ _ _ Ef) as [Hfiles1 Hfdt1].
  destruct fail.
  - intros [= <- <-]. left. split; [done |]. split; [done |]. split; congruence.
  - cbn [of_path of_pos of_flags]. rewrite Hfiles1, Hf, lookup_insert_eq.
    intros [= <- <-]. right. split; [done |]. split; [done |]. split; simpl.
    + by rewrite Nat2Z.id, ?Hfdt1, ?Hd, insert_insert_eq.
    + by rewrite insert_insert_eq.
Qed.

Lemma calloc_ok_opened os0 os n path flags pos c sz b os' :
  opened os0 os n path flags pos c ->
  calloc_ok sz os = (b, os') ->
  opened os0 os' n path flags pos c /\ (b = true -> 0 <= sz).
Proof.
  intros (Hn & Hd & Hf) Ec.
  destruct (calloc_ok_inv _ _ _ _ Ec) as (Hf1 & Hd1 & Hsz).
  split; [| done]. split; [done |]. split; congruence.
Qed.

Lemma close_opened os0 os n path flags pos c :
  opened os0 os n path flags pos c ->
  exists os', close (Z.of_nat n) os = (0, os') /\
    os_fdt os' = os_fdt os0 /\ os_files os' = <[path := c]> (os_files os0) /\
    os_faults os' = os_faults os.
Proof.
  intros (Hn & Hd & Hf). unfold close.
  rewrite fd_lookup_of_nat, Hd, lookup_insert_eq.
  eexists. split; [reflexivity |]. simpl. rewrite Nat2Z.id, ?Hd.
  split; [by apply delete_insert_id | done].
Qed.

End DescriptorFacts.

Section CreateFileFacts.
Import Posix File.
Context `{L : Layout}.

Lemma tsdbCloseFile_opened os0 os n path flags pos c f :
  opened os0 os n path flags pos c -> fd f = Z.of_nat n ->
  exists os', tsdbCloseFile f os = (0, mkSFile (-1) (fname f) (size f), os') /\
    os_fdt os' = os_fdt os0 /\ os_files os' = <[path := c]> (os_files os0) /\
    os_faults os' = os_faults os.
Proof.
  intros Hop Hfd. unfold tsdbCloseFile, TSDB_IS_FILE_OPENED. rewrite Hfd.
  destruct (Z.eqb_spec (Z.of_nat n) (-1)); [lia |]. simpl.
  destruct (close_opened _ _ _ _ _ _ _ Hop) as (os' & -> & Hd & Hf & Hq).
  by exists os'.
Qed.

Lemma tsdbWriteFileHead_opened os0 os n path pos c f r f' os' :
  opened os0 os n path wflags pos c ->
  tsdbWriteFileHead f os = (r, f', os') -> fd f = Z.of_nat n ->
  fd f' = fd f /\ fname f' = fname f /\
  ((r = -1 /\ opened os0 os' n path wflags 0 c) \/
   (r = 0 /\ size f' = size f + TSDB_FILE_HEAD_SIZE /\
    opened os0 os' n path wflags TSDB_FILE_HEAD_SIZE
      (pwrite c 0 (zeros TSDB_FILE_HEAD_SIZE)))).
Proof.
  intros Hop E Hfd. revert E. unfold tsdbWriteFileHead. cbn [fd]. rewrite Hfd.
  destruct (lseek_set_opened _ _ _ _ _ _ _ 0 Hop) as (os1 & -> & Hop1 & _); [lia |].
  destruct (write _ _ os1) as [w os2] eqn:Ew.
  destruct (write_opened _ _ _ _ _ _ _ _ _ _ Hop1 (wflags_writable _ _) Ew)
    as [[-> Hop2] | [-> Hop2]].
  - intros [= <- <- <-]. split; [done |]. split; [done |]. by left.
  - rewrite length_replicate in *. pose proof head_size_pos.
    rewrite Z2Nat.id in * by lia.
    destruct (Z.ltb_spec TSDB_FILE_HEAD_SIZE 0); [lia |].
    intros [= <- <- <-]. split; [done |]. split; [done |].
    right. split; [done |]. split; [done |].
    by rewrite Z.add_0_l in Hop2.
Qed.

Lemma tsdbWriteHeadFileIdx_opened os0 os n path pos c f maxTables r f' os' :
  opened os0 os n path wflags pos c ->
  tsdbWriteHeadFileIdx f maxTables os = (r, f', os') -> fd f = Z.of_nat n ->
  fd f' = fd f /\ fname f' = fname f /\
  ((r = -1 /\ exists pos', opened os0 os' n path wflags pos' c) \/
   (r = 0 /\ 0 <= idx_region_size 1 maxTables /\
    size f' = size f + idx_region_size 1 maxTables /\
    opened os0 os' n path wflags (TSDB_FILE_HEAD_SIZE + idx_region_size 1 maxTables)
      (pwrite c (Z.to_nat TSDB_FILE_HEAD_SIZE) (zeros (idx_region_size 1 maxTables))))).
Proof.
  intros Hop E Hfd. revert E.
  unfold tsdbWriteHeadFileIdx, idx_region_size. simpl (1 =? 0).
  cbv iota. set (sz := wrap32 (sizeof_SCompIdx * maxTables)).
  destruct (calloc_ok sz os) as [ok os1] eqn:Ec.
  destruct (calloc_ok_opened _ _ _ _ _ _ _ _ _ _ Hop Ec) as (Hop1 & Hsz).
  destruct ok; simpl.
  2:{ intros [= <- <- <-]. split; [done |]. split; [done |]. left. split; [done |].
      by exists pos. }
  specialize (Hsz eq_refl).
  rewrite Hfd. pose proof head_size_pos.
  destruct (lseek_set_opened _ _ _ _ _ _ _ TSDB_FILE_HEAD_SIZE Hop1)
    as (os2 & -> & Hop2 & _); [lia |].
  destruct (Z.ltb_spec TSDB_FILE_HEAD_SIZE 0); [lia |].
  destruct (write _ _ os2) as [w os3] eqn:Ew.
  destruct (write_opened _ _ _ _ _ _ _ _ _ _ Hop2 (wflags_writable _ _) Ew)
    as [[-> Hop3] | [-> Hop3]].
  - intros [= <- <- <-]. split; [done |]. split; [done |]. left. split; [done |].
    by eexists.
  - rewrite length_replicate in *. rewrite Z2Nat.id in * by lia.
    destruct (Z.ltb_spec sz 0); [lia |].
    intros [= <- <- <-]. split; [done |]. split; [done |]. right. done.
Qed.

(** A file that is on the disk is not created again. *)
Lemma tsdbCreateFile_exists dataDir fid suffix maxTables wh tc os c :
  os_files os !! tsdbGetFileName dataDir fid suffix = Some c ->
  tsdbCreateFile dataDir fid suffix maxTables wh tc os
  = (-1, mkSFile (-1) (tsdbGetFileName dataDir fid suffix) 0, os).
Proof. intros Hex. unfold tsdbCreateFile, access. cbn [fname]. by rewrite Hex. Qed.

Local Opaque tsdbWriteFileHead tsdbWriteHeadFileIdx tsdbCloseFile open.

(** Every way [tsdbCreateFile] can end.  A failure leaves no descriptor
    open and the file, when it was created, on the disk; a success leaves the
    file holding the header and the index region, all zeros, and either
    closed or open with its position just after the header. *)
Lemma tsdbCreateFile_inv dataDir fid suffix maxTables wh tc os r f os' :
  tsdbCreateFile dataDir fid suffix maxTables wh tc os = (r, f, os') ->
  fname f = tsdbGetFileName dataDir fid suffix /\
  ((r = -1 /\ fd f = -1 /\ os_fdt os' = os_fdt os /\
    (os_files os' = os_files os \/
     exists c, os_files os !! tsdbGetFileName dataDir fid suffix = None /\
       os_files os' = <[tsdbGetFileName dataDir fid suffix := c]> (os_files os))) \/
   (r = 0 /\
    os_files os !! tsdbGetFileName dataDir fid suffix = None /\
    0 <= idx_region_size wh maxTables /\
    size f = idx_region_size wh maxTables + TSDB_FILE_HEAD_SIZE /\
    os_files os'
    = <[tsdbGetFileName dataDir fid suffix :=
          zeros (TSDB_FILE_HEAD_SIZE + idx_region_size wh maxTables)]> (os_files os) /\
    ((tc <> 0 /\ fd f = -1 /\ os_fdt os' = os_fdt os) \/
     (tc = 0 /\ exists n, fd f = Z.of_nat n /\ os_fdt os !! n = None /\
        os_fdt os'
        = <[n := mkOpenFile (tsdbGetFileName dataDir fid suffix)
                   TSDB_FILE_HEAD_SIZE wflags]> (os_fdt os))))).
Proof.
  unfold tsdbCreateFile, access, tsdbOpenFile.
  change (Z.lor O_WRONLY O_CREAT) with wflags. cbn [fname size].
  set (name := tsdbGetFileName dataDir fid suffix).
  destruct (os_files os !! name) eqn:Hnone; simpl.
  { intros [= <- <- <-]. split; [done |]. left. repeat split; auto. }
  destruct (open name wflags os) as [newfd os1] eqn:Eo.
  destruct (open_creat_opened name wflags _ _ _ Hnone eq_refl Eo)
    as [(-> & Hd & Hf) | (n & -> & Hop)].
  { simpl. intros [= <- <- <-]. split; [done |]. left. repeat split; auto. }
  rewrite of_nat_ltb_0. simpl.
  pose proof head_size_pos as Hhead.
  (* what a failure after the open leaves *)
  assert (Hfail : forall f1 os2 pos c,
    opened os os2 n name wflags pos c -> fd f1 = Z.of_nat n -> fname f1 = name ->
    forall r0 f0 os0,
      (let '(_, pFile, os) := tsdbCloseFile f1 os2 in (-1, pFile, os)) = (r0, f0, os0) ->
      fname f0 = name /\
      (r0 = -1 /\ fd f0 = -1 /\ os_fdt os0 = os_fdt os /\
       (os_files os0 = os_files os \/
        exists c, os_files os !! name = None /\ os_files os0 = <[name := c]> (os_files os)))).
  { intros f1 os2 pos c Hop2 Hfd1 Hn1 r0 f0 os0.
    destruct (tsdbCloseFile_opened _ _ _ _ _ _ _ f1 Hop2 Hfd1) as (os3 & -> & Hd3 & Hf3 & _).
    intros [= <- <- <-]. split; [done |]. split; [done |]. split; [done |].
    split; [done |]. right. by exists c. }
  unfold idx_region_size. destruct (wh =? 0) eqn:Ewh; simpl.
  - (* no index region *)
    match goal with |- context [tsdbWriteFileHead ?f0 ?o] =>
      destruct (tsdbWriteFileHead f0 o) as [[r1 f1] os2] eqn:Eh end.
    destruct (tsdbWriteFileHead_opened _ _ _ _ _ _ _ _ _ _ Hop Eh eq_refl)
      as (Hfd1 & Hn1 & [[-> Hop2] | (-> & Hsz1 & Hop2)]); simpl.
    + intros E. edestruct Hfail as (Hnm & Hrest); [exact Hop2 | exact Hfd1 | exact Hn1 | exact E |].
      split; [exact Hnm | left; rewrite Hnone in Hrest; exact Hrest].
    + cbn [fd fname size] in *.
      assert (Hc : pwrite [] 0 (zeros TSDB_FILE_HEAD_SIZE) = zeros (TSDB_FILE_HEAD_SIZE + 0)).
      { unfold zeros. rewrite Z.add_0_r.
        unfold pwrite. by rewrite take_0, drop_nil, app_nil_r. }
      rewrite Hc in Hop2.
      destruct (tc =? 0) eqn:Etc.
      * intros [= <- <- <-]. split; [done |]. right.
        split; [done |]. split; [done |]. split; [lia |]. split; [lia |].
        destruct Hop2 as (Hn & Hd & Hf). split; [done |]. right.
        split; [lia |]. exists n. done.
      * destruct (tsdbCloseFile_opened _ _ _ _ _ _ _ f1 Hop2 Hfd1)
          as (os3 & -> & Hd3 & Hf3 & _).
        intros [= <- <- <-]. split; [done |]. right.
        split; [done |]. split; [done |]. split; [lia |]. split; [cbn [size]; lia |].
        split; [done |]. left. split; [lia | done].
  - (* the head file: index region, then header *)
    match goal with |- context [tsdbWriteHeadFileIdx ?f0 ?m ?o] =>
      destruct (tsdbWriteHeadFileIdx f0 m o) as [[r1 f1] os2] eqn:Ei end.
    destruct (tsdbWriteHeadFileIdx_opened _ _ _ _ _ _ _ _ _ _ _ Hop Ei eq_refl)
      as (Hfd1 & Hn1 & [[-> [pos' Hop2]] | (-> & Hsz & Hsz1 & Hop2)]); simpl.
    + intros E. edestruct Hfail as (Hnm & Hrest); [exact Hop2 | exact Hfd1 | exact Hn1 | exact E |].
      split; [exact Hnm | left; rewrite Hnone in Hrest; exact Hrest].
    + cbn [fd fname size] in *.
      unfold idx_region_size in *. simpl (1 =? 0) in *. cbv iota in Hsz, Hsz1, Hop2 |- *.
      set (sz := wrap32 (sizeof_SCompIdx * maxTables)) in *.
      match goal with |- context [tsdbWriteFileHead ?f0 ?o] =>
        destruct (tsdbWriteFileHead f0 o) as [[r2 f2] os3] eqn:Eh end.
      destruct (tsdbWriteFileHead_opened _ _ _ _ _ _ _ _ _ _ Hop2 Eh Hfd1)
        as (Hfd2 & Hn2 & [[-> Hop3] | (-> & Hsz2 & Hop3)]); simpl.
      * intros E.
        edestruct Hfail as (Hnm & Hrest); [exact Hop3 | by rewrite Hfd2 | by rewrite Hn2 | exact E |].
        split; [exact Hnm | left; rewrite Hnone in Hrest; exact Hrest].
      * assert (Hc : pwrite (pwrite [] (Z.to_nat TSDB_FILE_HEAD_SIZE) (zeros sz)) 0
                       (zeros TSDB_FILE_HEAD_SIZE)
                     = zeros (TSDB_FILE_HEAD_SIZE + sz)).
        { unfold zeros. rewrite pwrite_gap, pwrite_zero_prefix. f_equal. lia. }
        rewrite Hc in Hop3.
        destruct (tc =? 0) eqn:Etc.
        -- intros [= <- <- <-]. split; [congruence |]. right.
           split; [done |]. split; [done |]. split; [lia |]. split; [lia |].
           destruct Hop3 as (Hn & Hd & Hf). split; [done |]. right.
           split; [lia |]. exists n. split; [congruence | done].
        -- destruct (tsdbCloseFile_opened _ _ _ _ _ _ _ f2 Hop3 ltac:(congruence))
             as (os4 & -> & Hd4 & Hf4 & _).
           intros [= <- <- <-]. split; [cbn [fname]; congruence |]. right.
           split; [done |]. split; [done |]. split; [lia |].
           split; [cbn [size]; lia |].
           split; [done |]. left. split; [lia | done].
Qed.

Local Transparent tsdbWriteFileHead tsdbWriteHeadFileIdx tsdbCloseFile open.

End CreateFileFacts.

Section QuietFacts.
Import Posix File.
Context `{L : Layout}.

Lemma quiet_faults os os' : os_faults os' = os_faults os -> quiet os -> quiet os'.
Proof. unfold quiet. by intros ->. Qed.

Lemma open_creat_quiet path flags os :
  os_files os !! path = None -> Z.testbit flags 6 = true -> quiet os ->
  exists n os', open path flags os = (Z.of_nat n, os') /\
    opened os os' n path flags 0 [] /\ quiet os'.
Proof.
  intros Hnone Hcreat Hq. unfold open.
  destruct (next_fault_quiet _ Hq) as (os1 & -> & Hq1 & Hf1 & Hd1).
  rewrite Hf1, Hnone, Hcreat. eexists _, _. split; [reflexivity |].
  split; [| done]. split; [| split]; simpl.
  - rewrite <- Hd1. apply not_elem_of_dom. apply is_fresh.
  - by rewrite Hd1.
  - done.
Qed.

Lemma write_opened_quiet os0 os n path flags pos c buf :
  opened os0 os n path flags pos c ->
  writable (mkOpenFile path pos flags) = true -> quiet os ->
  exists os', write (Z.of_nat n) buf os = (Z.of_nat (length buf), os') /\
    opened os0 os' n path flags (pos + Z.of_nat (length buf))
      (pwrite c (Z.to_nat pos) buf) /\ quiet os'.
Proof.
  intros (Hn & Hd & Hf) Hw Hq. unfold write.
  rewrite fd_lookup_of_nat, Hd, lookup_insert_eq, Hw.
  destruct (next_fault_quiet _ Hq) as (os1 & -> & Hq1 & Hf1 & Hd1).
  cbn [of_path of_pos of_flags]. rewrite Hf1, Hf, lookup_insert_eq.
  eexists. split; [reflexivity |]. split; [| done].
  split; [done |]. split; simpl.
  - by rewrite Nat2Z.id, ?Hd1, ?Hd, insert_insert_eq.
  - by rewrite insert_insert_eq.
Qed.

Lemma calloc_ok_quiet sz os :
  0 <= sz -> quiet os ->
  exists os', calloc_ok sz os = (true, os') /\
    os_files os' = os_files os /\ os_fdt os' = os_fdt os /\ quiet os'.
Proof.
  intros Hsz Hq. unfold calloc_ok. destruct (Z.ltb_spec sz 0); [lia |].
  destruct (next_fault_quiet _ Hq) as (os1 & -> & Hq1 & Hf1 & Hd1).
  by exists os1.
Qed.

Lemma opened_transport os0 os os1 n path flags pos c :
  opened os0 os n path flags pos c ->
  os_files os1 = os_files os -> os_fdt os1 = os_fdt os ->
  opened os0 os1 n path flags pos c.
Proof. intros (? & ? & ?) Hf Hd. split; [done |]. split; congruence. Qed.

(** With no failure injected, a file that is not there and an index size
    that is not negative, [tsdbCreateFile] succeeds. *)
Lemma tsdbCreateFile_quiet dataDir fid suffix maxTables wh tc os :
  quiet os -> os_files os !! tsdbGetFileName dataDir fid suffix = None ->
  0 <= idx_region_size wh maxTables ->
  exists f os',
    tsdbCreateFile dataDir fid suffix maxTables wh tc os = (0, f, os') /\ quiet os'.
Proof.
  intros Hq Hnone Hsz. unfold tsdbCreateFile, access, tsdbOpenFile.
  change (Z.lor O_WRONLY O_CREAT) with wflags. cbn [fname size fd].
  set (name := tsdbGetFileName dataDir fid suffix) in *.
  rewrite Hnone. simpl.
  destruct (open_creat_quiet name wflags os Hnone eq_refl Hq) as (n & os1 & -> & Hop & Hq1).
  rewrite of_nat_ltb_0. simpl. pose proof head_size_pos as Hhead.
  assert (Hhd : forall f1 os2 pos c,
    opened os os2 n name wflags pos c -> quiet os2 -> fd f1 = Z.of_nat n ->
    exists f os',
      (let '(r, pFile, os0) := tsdbWriteFileHead f1 os2 in
       if r <? 0
       then let '(_, pFile0, os3) := tsdbCloseFile pFile os0 in (-1, pFile0, os3)
       else if tc =? 0 then (0, pFile, os0)
            else let '(_, pFile0, os3) := tsdbCloseFile pFile os0 in (0, pFile0, os3))
      = (0, f, os') /\ quiet os').
  { intros f1 os2 pos c Hop2 Hq2 Hfd1. unfold tsdbWriteFileHead. cbn [fd]. rewrite Hfd1.
    destruct (lseek_set_opened _ _ _ _ _ _ _ 0 Hop2) as (os3 & -> & Hop3 & Hfa3); [lia |].
    destruct (write_opened_quiet _ _ _ _ _ _ _ (replicate (Z.to_nat TSDB_FILE_HEAD_SIZE) x00)
                Hop3 (wflags_writable _ _) (quiet_faults _ _ Hfa3 Hq2))
      as (os4 & -> & Hop4 & Hq4).
    rewrite of_nat_ltb_0. destruct (tc =? 0); [by eexists _, _ |].
    match goal with |- context [tsdbCloseFile ?f0 _] =>
      destruct (tsdbCloseFile_opened _ _ _ _ _ _ _ f0 Hop4 eq_refl)
        as (os5 & -> & _ & _ & Hfa5) end.
    eexists _, _. split; [reflexivity |]. by eapply quiet_faults. }
  destruct (wh =? 0) eqn:Ewh.
  - by eapply Hhd.
  - unfold tsdbWriteHeadFileIdx. cbn [fd fname size].
    unfold idx_region_size in Hsz. rewrite Ewh in Hsz.
    set (sz := wrap32 (sizeof_SCompIdx * maxTables)) in *.
    destruct (calloc_ok_quiet sz os1 Hsz Hq1) as (os2 & -> & Hf2 & Hd2 & Hq2).
    simpl negb. cbv iota.
    assert (Hop2 := opened_transport _ _ _ _ _ _ _ _ Hop Hf2 Hd2).
    destruct (lseek_set_opened _ _ _ _ _ _ _ TSDB_FILE_HEAD_SIZE Hop2)
      as (os3 & -> & Hop3 & Hfa3); [lia |].
    destruct (Z.ltb_spec TSDB_FILE_HEAD_SIZE 0); [lia |].
    destruct (write_opened_quiet _ _ _ _ _ _ _ (replicate (Z.to_nat sz) x00)
                Hop3 (wflags_writable _ _) (quiet_faults _ _ Hfa3 Hq2))
      as (os4 & -> & Hop4 & Hq4).
    rewrite of_nat_ltb_0. simpl (0 <? 0). cbv iota.
    by eapply Hhd.
Qed.

End QuietFacts.

Section RemoveFacts.
Import Posix File.






Lemma tsdbRemoveFileGroup_absent h fid os :
  fileH_wf h -> fid_small fid -> ~ has_group h fid ->
  tsdbRemoveFileGroup h fid os = (-1, h, os).
Proof.
  intros Hwf Hfid Hno. unfold tsdbRemoveFileGroup.
  by rewrite (proj2 (bsearch_fgroup_None h fid Hwf Hfid) Hno).
Qed.








End RemoveFacts.

Section DirectoryTheorems.
Import Posix File.
Context `{L : Layout}.


Lemma has_group_perm h h' fid :
  fGroup h ≡ₚ fGroup h' -> has_group h fid -> has_group h' fid.
Proof. intros Hp (g & Hin & Hg). exists g. split; [by rewrite <- Hp | done]. Qed.


End DirectoryTheorems.

Section DirectoryExamples.
Import Posix File.

Lemma fid_small_lit fid : (-1000 <=? fid) && (fid <=? 1000) = true -> fid_small fid.
Proof.
  intros [H1%Z.leb_le H2%Z.leb_le]%andb_true_iff.
  unfold fid_small. change (2 ^ 30) with 1073741824. lia.
Qed.

Lemma fileH_three_wf : fileH_wf fileH_three.
Proof.
  split.
  - repeat (constructor; [| repeat (constructor; [unfold fid_lt; simpl; lia |]); try constructor]).
    constructor.
  - repeat (constructor; [by apply fid_small_lit |]). constructor.
Qed.



End DirectoryExamples.

Section GroupFacts.
Import Posix File.
Context `{L : Layout}.

Local Opaque tsdbCreateFile.

(** The files of a group are created closed: whatever happens, the
    descriptor table is as before, and files are only added. *)
Lemma create_group_files_fdt types dataDir fid maxTables : forall created os res os',
  create_group_files types dataDir fid maxTables created os = (res, os') ->
  os_fdt os' = os_fdt os /\ os_files os ⊆ os_files os'.
Proof.
  induction types as [|t rest IH]; intros created os res os'; cbn [create_group_files].
  - by intros [= <- <-].
  - destruct (tsdbCreateFile _ _ _ _ _ _ os) as [[r f] os1] eqn:E.
    apply tsdbCreateFile_inv in E as (_ & [(-> & _ & Hd & Hf) | (-> & Hnone & _ & _ & Hf & Hc)]).
    + simpl. intros [= <- <-]. split; [done |].
      destruct Hf as [-> | (c & Hnone & ->)]; [done | by apply insert_subseteq].
    + simpl (0 <? 0). cbv iota. intros E2. apply IH in E2 as [Hd2 Hf2].
      destruct Hc as [(_ & _ & Hd) | (? & _)]; [| done].
      split; [congruence |]. etrans; [| exact Hf2]. rewrite Hf. by apply insert_subseteq.
Qed.

Lemma create_group_files_quiet dataDir fid maxTables os :
  quiet os -> 0 <= idx_region_size 1 maxTables ->
  os_files os !! tsdbGetFileName dataDir fid ".head" = None ->
  os_files os !! tsdbGetFileName dataDir fid ".data" = None ->
  os_files os !! tsdbGetFileName dataDir fid ".last" = None ->
  exists fs os',
    create_group_files file_types dataDir fid maxTables [] os = (Some fs, os') /\
    quiet os'.
Proof.
  intros Hq Hsz Hh Hd Hl.
  assert (Hhd : tsdbGetFileName dataDir fid ".head" <> tsdbGetFileName dataDir fid ".data")
    by (intros H%tsdbGetFileName_inj; discriminate).
  assert (Hhl : tsdbGetFileName dataDir fid ".head" <> tsdbGetFileName dataDir fid ".last")
    by (intros H%tsdbGetFileName_inj; discriminate).
  assert (Hdl : tsdbGetFileName dataDir fid ".data" <> tsdbGetFileName dataDir fid ".last")
    by (intros H%tsdbGetFileName_inj; discriminate).
  assert (H0 : 0 <= idx_region_size 0 maxTables) by (unfold idx_region_size; simpl; lia).
  unfold file_types. cbn [create_group_files].
  change (tsdbFileSuffix !!! Z.to_nat TSDB_FILE_TYPE_HEAD) with ".head"%string.
  change (tsdbFileSuffix !!! Z.to_nat TSDB_FILE_TYPE_DATA) with ".data"%string.
  change (tsdbFileSuffix !!! Z.to_nat TSDB_FILE_TYPE_LAST) with ".last"%string.
  change (TSDB_FILE_TYPE_HEAD =? TSDB_FILE_TYPE_HEAD) with true.
  change (TSDB_FILE_TYPE_DATA =? TSDB_FILE_TYPE_HEAD) with false.
  change (TSDB_FILE_TYPE_LAST =? TSDB_FILE_TYPE_HEAD) with false. cbv iota.
  destruct (tsdbCreateFile_quiet dataDir fid ".head" maxTables 1 1 os Hq Hh Hsz)
    as (f1 & os1 & E1 & Hq1).
  rewrite E1. simpl (0 <? 0). cbv iota.
  apply tsdbCreateFile_inv in E1 as (_ & [(? & _) | (_ & _ & _ & _ & Hf1 & _)]); [lia |].
  destruct (tsdbCreateFile_quiet dataDir fid ".data" maxTables 0 1 os1 Hq1) as (f2 & os2 & E2 & Hq2);
    [by rewrite Hf1, lookup_insert_ne | done |].
  rewrite E2. simpl (0 <? 0). cbv iota.
  apply tsdbCreateFile_inv in E2 as (_ & [(? & _) | (_ & _ & _ & _ & Hf2 & _)]); [lia |].
  destruct (tsdbCreateFile_quiet dataDir fid ".last" maxTables 0 1 os2 Hq2) as (f3 & os3 & E3 & Hq3);
    [by rewrite Hf2, Hf1, !lookup_insert_ne | done |].
  rewrite E3. simpl (0 <? 0). cbv iota. by eexists _, _.
Qed.

Local Transparent tsdbCreateFile.




End GroupFacts.

Section GroupTheorems.
Import Posix File.
Context `{L : Layout}.

(** X3.  [tsdbRemoveFileGroup] for a file id that no group of the directory
    has returns -1 and changes neither the directory nor the disk. *)
Theorem X3_remove_absent (h : STsdbFileH) (fid : Z) (os : OS) :
  fileH_wf h -> fid_small fid -> ~ has_group h fid ->
  tsdbRemoveFileGroup h fid os = (-1, h, os).
Proof. intros Hwf Hfid Hno. by apply tsdbRemoveFileGroup_absent. Qed.



(** X6.  A creation that fails half-way is not undone.  With the data file
    of the partition left on the disk and no head file, [tsdbCreateFGroup]
    creates the head file, fails on the data file and returns -1: the
    directory is unchanged, but the head file stays on the disk, and from
    then on every [tsdbCreateFGroup] for this file id fails at its first
    file and changes nothing. *)
Theorem X6_failed_create_leaves_head (h : STsdbFileH) (dataDir : string)
    (fid maxTables : Z) (os : OS) (c : list byte) :
  fileH_wf h -> fid_small fid -> ~ has_group h fid ->
  numOfFGroups h < maxFGroups h ->
  quiet os -> 0 <= idx_region_size 1 maxTables ->
  os_files os !! tsdbGetFileName dataDir fid ".head" = None ->
  os_files os !! tsdbGetFileName dataDir fid ".data" = Some c ->
  exists os' : OS,
    tsdbCreateFGroup h dataDir fid maxTables os = (-1, h, os') /\
    os_files os'
    = <[tsdbGetFileName dataDir fid ".head" :=
          zeros (TSDB_FILE_HEAD_SIZE + idx_region_size 1 maxTables)]> (os_files os) /\
    os_fdt os' = os_fdt os /\
    forall maxTables' : Z,
      tsdbCreateFGroup h dataDir fid maxTables' os' = (-1, h, os').
Proof.
  intros Hwf Hfid Hno Hroom Hq Hsz Hh Hd.
  assert (Hhd : tsdbGetFileName dataDir fid ".head" <> tsdbGetFileName dataDir fid ".data")
    by (intros H%tsdbGetFileName_inj; discriminate).
  destruct (tsdbCreateFile_quiet dataDir fid ".head" maxTables 1 1 os Hq Hh Hsz)
    as (f1 & os1 & E1 & Hq1).
  pose proof E1 as E1'.
  apply tsdbCreateFile_inv in E1' as (_ & [(? & _) | (_ & _ & _ & _ & Hf1 & Hc1)]); [lia |].
  destruct Hc1 as [(_ & _ & Hd1) | (? & _)]; [| done].
  assert (Hd' : os_files os1 !! tsdbGetFileName dataDir fid ".data" = Some c)
    by by rewrite Hf1, lookup_insert_ne.
  assert (Hh' : os_files os1 !! tsdbGetFileName dataDir fid ".head"
                = Some (zeros (TSDB_FILE_HEAD_SIZE + idx_region_size 1 maxTables)))
    by by rewrite Hf1, lookup_insert_eq.
  exists os1.
  assert (Hfull : (numOfFGroups h >=? maxFGroups h) = false)
    by (rewrite Z.geb_leb; apply Z.leb_gt; lia).
  assert (Hsearch : tsdbSearchFGroup h fid = None) by by apply tsdbSearchFGroup_None.
  split; [| split; [done | split; [done |]]].
  - unfold tsdbCreateFGroup. rewrite Hfull, Hsearch.
    unfold file_types. cbn [create_group_files].
    change (tsdbFileSuffix !!! Z.to_nat TSDB_FILE_TYPE_HEAD) with ".head"%string.
    change (tsdbFileSuffix !!! Z.to_nat TSDB_FILE_TYPE_DATA) with ".data"%string.
    change (TSDB_FILE_TYPE_HEAD =? TSDB_FILE_TYPE_HEAD) with true.
    change (TSDB_FILE_TYPE_DATA =? TSDB_FILE_TYPE_HEAD) with false. cbv iota.
    rewrite E1. simpl (0 <? 0). cbv iota.
    by rewrite (tsdbCreateFile_exists _ _ _ _ _ _ _ _ Hd').
  - intros maxTables'. unfold tsdbCreateFGroup. rewrite Hfull, Hsearch.
    unfold file_types. cbn [create_group_files].
    change (tsdbFileSuffix !!! Z.to_nat TSDB_FILE_TYPE_HEAD) with ".head"%string.
    by rewrite (tsdbCreateFile_exists _ _ _ _ _ _ _ _ Hh').
Qed.

(** X9.  [tsdbCreateFGroup] succeeds whenever nothing stands in its way:
    the directory has room and no group of the file id, none of the three
    files is on the disk, the size of the index region fits an [int], and no
    operating-system call fails.  It then returns 0 and leaves no descriptor
    open. *)
Theorem X9_create_succeeds (h : STsdbFileH) (dataDir : string) (fid maxTables : Z)
    (os : OS) :
  fileH_wf h -> fid_small fid -> ~ has_group h fid ->
  numOfFGroups h < maxFGroups h ->
  quiet os -> 0 <= idx_region_size 1 maxTables ->
  os_files os !! tsdbGetFileName dataDir fid ".head" = None ->
  os_files os !! tsdbGetFileName dataDir fid ".data" = None ->
  os_files os !! tsdbGetFileName dataDir fid ".last" = None ->
  exists (h' : STsdbFileH) (os' : OS),
    tsdbCreateFGroup h dataDir fid maxTables os = (0, h', os') /\
    has_group h' fid /\ os_fdt os' = os_fdt os /\ quiet os'.
Proof.
  intros Hwf Hfid Hno Hroom Hq Hsz Hh Hd Hl.
  destruct (create_group_files_quiet dataDir fid maxTables os Hq Hsz Hh Hd Hl)
    as (fs & os' & Hc & Hq').
  destruct (create_group_files_fdt _ _ _ _ _ _ _ _ Hc) as [Hfdt _].
  unfold tsdbCreateFGroup.
  assert ((numOfFGroups h >=? maxFGroups h) = false) as ->
    by (rewrite Z.geb_leb; apply Z.leb_gt; lia).
  rewrite (proj2 (tsdbSearchFGroup_None h fid Hwf Hfid) Hno), Hc.
  eexists _, _. split; [reflexivity |]. split; [| done].
  exists (mkSFileGroup fid fs). split; [| done]. cbn [fGroup].
  rewrite qsort_perm. apply elem_of_app. right. apply list_elem_of_here.
Qed.

End GroupTheorems.

Section OpenCloseFacts.
Import Posix File.
Context `{L : Layout}.

(** Every way [open] can end: failure with the descriptors and files as
    they were, or a descriptor that was free. *)
Lemma open_inv path flags os r os' :
  open path flags os = (r, os') ->
  (r = -1 /\ os_fdt os' = os_fdt os /\ os_files os' = os_files os) \/
  (exists n, r = Z.of_nat n /\ os_fdt os !! n = None /\
     os_fdt os' = <[n := mkOpenFile path 0 flags]> (os_fdt os) /\
     (os_files os' = os_files os \/
      (Z.testbit flags 6 = true /\ os_files os !! path = None /\
       os_files os' = <[path := []]> (os_files os)))).
Proof.
  unfold open.
  destruct (next_fault os) as [fail os1] eqn:Ef.
  destruct (next_fault_inv _ _ _ Ef) as [Hfiles Hfdt].
  destruct fail; [intros [= <- <-]; by left |].
  assert (Hfresh : os_fdt os !! fresh (dom (os_fdt os1)) = None).
  { rewrite <- Hfdt. apply not_elem_of_dom, is_fresh. }
  rewrite Hfiles.
  destruct (os_files os !! path) eqn:Hp.
  - intros [= <- <-]. right. eexists. split; [reflexivity |]. simpl.
    split; [exact Hfresh |]. split; [by rewrite Hfdt |]. by left.
  - destruct (Z.testbit flags 6) eqn:Hc; intros [= <- <-].
    + right. eexists. split; [reflexivity |]. simpl.
      split; [exact Hfresh |]. split; [by rewrite Hfdt |]. right.
      split; [done |]. split; done.
    + by left.
Qed.

Lemma tsdbOpenFile_opened_file f oflag os :
  fd f <> -1 -> tsdbOpenFile f oflag os = (-1, f, os).
Proof.
  intros Hfd. unfold tsdbOpenFile, TSDB_IS_FILE_OPENED.
  by destruct (Z.eqb_spec (fd f) (-1)).
Qed.

Lemma tsdbOpenFile_inv f oflag os r f1 os1 :
  tsdbOpenFile f oflag os = (r, f1, os1) ->
  fname f1 = fname f /\ size f1 = size f /\
  ((r = -1 /\ fd f <> -1 /\ f1 = f /\ os1 = os) \/
   (r = -1 /\ fd f = -1 /\ fd f1 = -1 /\
    os_fdt os1 = os_fdt os /\ os_files os1 = os_files os) \/
   (r = 0 /\ fd f = -1 /\ exists n, fd f1 = Z.of_nat n /\ os_fdt os !! n = None /\
      os_fdt os1 = <[n := mkOpenFile (fname f) 0 oflag]> (os_fdt os) /\
      (os_files os1 = os_files os \/
       (Z.testbit oflag 6 = true /\ os_files os !! fname f = None /\
        os_files os1 = <[fname f := []]> (os_files os))))).
Proof.
  unfold tsdbOpenFile, TSDB_IS_FILE_OPENED.
  destruct (Z.eqb_spec (fd f) (-1)) as [Hfd|Hfd]; simpl.
  2:{ intros [= <- <- <-]. split; [done |]. split; [done |]. left. done. }
  destruct (open (fname f) oflag os) as [newfd os'] eqn:Eo.
  destruct (open_inv _ _ _ _ _ Eo) as [(-> & Hd & Hf) | (n & -> & Hn & Hd & Hf)].
  - simpl. intros [= <- <- <-]. split; [done |]. split; [done |]. right. left. done.
  - rewrite of_nat_ltb_0. intros [= <- <- <-]. split; [done |]. split; [done |].
    right. right. split; [done |]. split; [done |]. by exists n.
Qed.



End OpenCloseFacts.

Section OpenCloseTheorems.
Import Posix File.
Context `{L : Layout}.

(** X7.  [tsdbCreateFile] returns 0 or -1 and touches no file but the one
    it is to create.  When it fails, and when it is asked to close the file,
    it leaves no descriptor behind (the descriptor table is the one before
    the call) and marks the file closed ([fd = -1]). *)
Theorem X7_create_file_no_leak (dataDir : string) (fid : Z) (suffix : string)
    (maxTables wh tc : Z) (os : OS) (r : Z) (f : SFile) (os' : OS) :
  tsdbCreateFile dataDir fid suffix maxTables wh tc os = (r, f, os') ->
  (r = 0 \/ r = -1) /\
  fname f = tsdbGetFileName dataDir fid suffix /\
  (r = -1 \/ tc <> 0 -> fd f = -1 /\ os_fdt os' = os_fdt os) /\
  (forall p, p <> tsdbGetFileName dataDir fid suffix ->
     os_files os' !! p = os_files os !! p).
Proof.
  intros E. apply tsdbCreateFile_inv in E as (Hn & [(-> & Hfd & Hd & Hf) | (-> & Hnone & Hsz & Hs & Hf & Hc)]).
  - split; [by right |]. split; [done |]. split; [done |].
    intros p Hp. destruct Hf as [-> | (c & _ & ->)]; [done | by rewrite lookup_insert_ne].
  - split; [by left |]. split; [done |]. split.
    + intros [? | Htc]; [lia |]. destruct Hc as [(_ & ? & ?) | (? & _)]; [done | lia].
    + intros p Hp. by rewrite Hf, lookup_insert_ne.
Qed.

(** X8.  A successful [tsdbCreateFile] that is asked to leave the file open
    has taken one descriptor that was free; the file holds the header and
    the index region, all zeros, the [size] field is its length, and the
    file position is [TSDB_FILE_HEAD_SIZE]: just after the header, which for
    a head file is the start of the index region, not the end of the file. *)
Theorem X8_create_file_left_open (dataDir : string) (fid : Z) (suffix : string)
    (maxTables wh : Z) (os : OS) (f : SFile) (os' : OS) :
  tsdbCreateFile dataDir fid suffix maxTables wh 0 os = (0, f, os') ->
  exists (n : nat) (c : list byte),
    fd f = Z.of_nat n /\ os_fdt os !! n = None /\
    os_fdt os'
    = <[n := mkOpenFile (tsdbGetFileName dataDir fid suffix)
               TSDB_FILE_HEAD_SIZE wflags]> (os_fdt os) /\
    os_files os' !! tsdbGetFileName dataDir fid suffix = Some c /\
    c = zeros (TSDB_FILE_HEAD_SIZE + idx_region_size wh maxTables) /\
    size f = Z.of_nat (length c).
Proof.
  intros E. apply tsdbCreateFile_inv in E as (Hn & [(? & _) | (_ & Hnone & Hsz & Hs & Hf & Hc)]);
    [lia |].
  destruct Hc as [(? & _) | (_ & n & Hfd & Hfree & Hd)]; [done |].
  exists n, (zeros (TSDB_FILE_HEAD_SIZE + idx_region_size wh maxTables)).
  split; [done |]. split; [done |]. split; [done |].
  split; [by rewrite Hf, lookup_insert_eq |]. split; [done |].
  pose proof head_size_pos. unfold zeros. rewrite length_replicate. lia.
Qed.

(** X10.  [tsdbOpenFile] opens only a file that is marked closed.  After a
    successful open a second open fails and changes nothing, and
    [tsdbCloseFile] gives the file structure and the descriptor table back
    as they were before the open; closing once more fails. *)
Theorem X10_open_then_close (f : SFile) (oflag : Z) (os : OS) (f1 : SFile) (os1 : OS) :
  tsdbOpenFile f oflag os = (0, f1, os1) ->
  fd f = -1 /\ 0 <= fd f1 /\
  (forall oflag', tsdbOpenFile f1 oflag' os1 = (-1, f1, os1)) /\
  exists os2 : OS,
    tsdbCloseFile f1 os1 = (0, f, os2) /\
    os_fdt os2 = os_fdt os /\ os_files os2 = os_files os1 /\
    tsdbCloseFile f os2 = (-1, f, os2).
Proof.
  intros E. destruct (tsdbOpenFile_inv _ _ _ _ _ _ E)
    as (Hn & Hs & [(? & _) | [(? & _) | (_ & Hfd & n & Hfd1 & Hfree & Hd & _)]]); [lia | lia |].
  split; [done |]. split; [lia |]. split.
  { intros oflag'. apply tsdbOpenFile_opened_file. lia. }
  unfold tsdbCloseFile, TSDB_IS_FILE_OPENED. rewrite Hfd1.
  destruct (Z.eqb_spec (Z.of_nat n) (-1)); [lia |]. simpl.
  unfold close. rewrite fd_lookup_of_nat, Hd, lookup_insert_eq.
  eexists. split; [| split; [| split]].
  - f_equal. f_equal. destruct f; simpl in *. congruence.
  - simpl. rewrite Nat2Z.id. by apply delete_insert_id.
  - done.
  - rewrite Hfd. reflexivity.
Qed.


End OpenCloseTheorems.

Section LoadFacts.
Import Posix File.
Context `{L : Layout}.

Lemma read_quiet_gen os n e count c :
  os_fdt os !! n = Some e -> readable e = true ->
  os_files os !! of_path e = Some c -> quiet os ->
  exists os',
    read (Z.of_nat n) count os
    = (Z.of_nat (length (take (Z.to_nat count) (drop (Z.to_nat (of_pos e)) c))),
       take (Z.to_nat count) (drop (Z.to_nat (of_pos e)) c), os') /\
    os_files os' = os_files os /\ quiet os'.
Proof.
  intros He Hr Hc Hq. unfold read. rewrite fd_lookup_of_nat, He, Hr.
  destruct (next_fault_quiet _ Hq) as (os1 & -> & Hq1 & Hf1 & _).
  rewrite Hf1, Hc. eexists. split; [reflexivity |]. done.
Qed.

Lemma lseek_set_negative fd off os : off < 0 -> lseek_set fd off os = (-1, os).
Proof.
  intros Hoff. unfold lseek_set. destruct (fd_lookup os fd); [| done].
  by destruct (Z.ltb_spec off 0); [| lia].
Qed.

Lemma lseek_set_closed off os : lseek_set (-1) off os = (-1, os).
Proof. reflexivity. Qed.

(** X12.  Through a head file that is open for reading, and with no read
    failing, [tsdbLoadCompIdx] returns 0 and puts at the start of the buffer
    the bytes of the file from [TSDB_FILE_HEAD_SIZE] on, at most
    [sizeof(SCompIdx) * maxTables] of them; the buffer behind them and the
    files are as before.  The number of bytes read is not compared with the
    number asked for: on a head file that ends inside or before its index
    region the call returns 0 all the same, and when the file is no longer
    than the header the buffer is returned as it was. *)
Theorem X12_load_comp_idx (g : SFileGroup) (f : SFile) (rest : list SFile) (n : nat)
    (e : OpenFile) (c : list byte) (os : OS) (buf : list byte) (maxTables : Z) :
  files g = f :: rest -> fd f = Z.of_nat n ->
  os_fdt os !! n = Some e -> readable e = true ->
  os_files os !! of_path e = Some c -> quiet os -> 0 <= maxTables ->
  exists os' : OS,
    tsdbLoadCompIdx g buf maxTables os
    = (0,
       take (Z.to_nat (sizeof_SCompIdx * maxTables)) (drop (Z.to_nat TSDB_FILE_HEAD_SIZE) c)
       ++ drop (length (take (Z.to_nat (sizeof_SCompIdx * maxTables))
                          (drop (Z.to_nat TSDB_FILE_HEAD_SIZE) c))) buf,
       os') /\
    os_files os' = os_files os /\
    (Z.of_nat (length c) <= TSDB_FILE_HEAD_SIZE ->
     (tsdbLoadCompIdx g buf maxTables os).1 = (0, buf)).
Proof.
  intros Hfs Hfd He Hr Hc Hq Hmt. unfold tsdbLoadCompIdx.
  pose proof head_size_pos as Hh.
  rewrite Hfs. change (Z.to_nat TSDB_FILE_TYPE_HEAD) with 0%nat.
  change ((f :: rest) !!! 0%nat) with f. rewrite Hfd.
  rewrite (lseek_set_open _ _ _ TSDB_FILE_HEAD_SIZE He) by lia.
  destruct (Z.ltb_spec TSDB_FILE_HEAD_SIZE 0); [lia |].
  match goal with |- context [read _ _ ?o] => set (os1 := o) end.
  destruct (read_quiet_gen os1 n (mkOpenFile (of_path e) TSDB_FILE_HEAD_SIZE (of_flags e))
              (sizeof_SCompIdx * maxTables) c) as (os2 & -> & Hf2 & _);
    [subst os1; simpl; by rewrite lookup_insert_eq | done | done | done |].
  rewrite of_nat_ltb_0. cbn [of_pos]. exists os2.
  split; [done |]. split; [done |].
  intros Hshort. cbn [fst]. f_equal.
  rewrite drop_ge by lia. by rewrite take_nil.
Qed.

(** X13.  Through a head file that is open for reading, and with no read
    failing, [tsdbLoadCompBlocks] returns 0 and puts at the start of the
    buffer the bytes of the file from [pIdx->offset] on, at most [pIdx->len]
    of them, fewer when the file ends before; a negative offset makes it
    return -1 with nothing read. *)
Theorem X13_load_comp_blocks (g : SFileGroup) (f : SFile) (rest : list SFile) (n : nat)
    (e : OpenFile) (c : list byte) (os : OS) (buf : list byte) (pIdx : SCompIdx) :
  files g = f :: rest -> fd f = Z.of_nat n ->
  os_fdt os !! n = Some e -> readable e = true ->
  os_files os !! of_path e = Some c -> quiet os -> 0 <= len pIdx < 2 ^ 64 ->
  (0 <= offset pIdx ->
   exists os' : OS,
     tsdbLoadCompBlocks g pIdx buf os
     = (0,
        take (Z.to_nat (len pIdx)) (drop (Z.to_nat (offset pIdx)) c)
        ++ drop (length (take (Z.to_nat (len pIdx)) (drop (Z.to_nat (offset pIdx)) c))) buf,
        os') /\
     os_files os' = os_files os) /\
  (offset pIdx < 0 -> tsdbLoadCompBlocks g pIdx buf os = (-1, buf, os)).
Proof.
  intros Hfs Hfd He Hr Hc Hq Hlen. unfold tsdbLoadCompBlocks.
  rewrite Hfs. change (Z.to_nat TSDB_FILE_TYPE_HEAD) with 0%nat.
  change ((f :: rest) !!! 0%nat) with f. rewrite Hfd. split.
  - intros Hoff. rewrite (lseek_set_open _ _ _ (offset pIdx) He) by lia.
    destruct (Z.ltb_spec (offset pIdx) 0); [lia |].
    match goal with |- context [read _ _ ?o] => set (os1 := o) end.
    destruct (read_quiet_gen os1 n (mkOpenFile (of_path e) (offset pIdx) (of_flags e))
                (to_size_t (len pIdx)) c) as (os2 & -> & Hf2 & _);
      [subst os1; simpl; by rewrite lookup_insert_eq | done | done | done |].
    rewrite of_nat_ltb_0. cbn [of_pos]. exists os2.
    unfold to_size_t. rewrite Z.mod_small by lia. done.
  - intros Hoff. by rewrite lseek_set_negative.
Qed.

(** X14.  [tsdbCreateFGroup] leaves the files of the group it creates
    closed: loading the index of the new group before its files are opened
    returns -1, and neither the buffer nor the disk changes. *)
Theorem X14_load_before_open (h : STsdbFileH) (dataDir : string) (fid maxTables : Z)
    (os : OS) (h1 : STsdbFileH) (os1 : OS) :
  fileH_wf h -> fid_small fid -> ~ has_group h fid ->
  tsdbCreateFGroup h dataDir fid maxTables os = (0, h1, os1) ->
  forall (g : SFileGroup) (buf : list byte) (n : Z),
    g ∈ fGroup h1 -> fileId g = fid ->
    Forall (fun f => fd f = -1) (files g) /\
    tsdbLoadCompIdx g buf n os1 = (-1, buf, os1).
Proof.
  intros Hwf Hfid Hno Hcreate g buf n Hin Hg.
  destruct (tsdbCreateFGroup_new_inv _ _ _ _ _ _ _ Hwf Hfid Hno Hcreate)
    as (fs & Hfs & -> & Hperm & Hwf').
  apply create_group_files_inv in Hfs as (_ & _ & _ & _ & -> & _).
  rewrite Hperm in Hin. apply elem_of_cons in Hin as [-> | Hin].
  - split; [by repeat constructor |]. reflexivity.
  - exfalso. apply Hno. by exists g.
Qed.

End LoadFacts.

Section KeyRangeAdjacency.
Import File.

Lemma tsdbGetKeyRangeOfFileId_exact (daysPerFile precision fileId perDay : Z) :
  0 <= precision ->
  tsMsPerDay !! Z.to_nat precision = Some perDay ->
  int32 (fileId * daysPerFile) ->
  int64 (fileId * (daysPerFile * perDay)) ->
  int64 (fileId * (daysPerFile * perDay) + daysPerFile * perDay - 1) ->
  tsdbGetKeyRangeOfFileId daysPerFile precision fileId
  = Some (fileId * (daysPerFile * perDay),
          fileId * (daysPerFile * perDay) + daysPerFile * perDay - 1).
Proof.
  intros Hp Hu H32 Hmin Hmax. unfold tsdbGetKeyRangeOfFileId.
  destruct (Z.ltb_spec precision 0); [lia |]. rewrite Hu.
  rewrite maxKey_wrap, (wrap32_id _ H32).
  replace (fileId * daysPerFile * perDay) with (fileId * (daysPerFile * perDay)) by ring.
  by rewrite (wrap64_id _ Hmin), (wrap64_id _ Hmax).
Qed.

(** X15.  The key ranges of consecutive file ids tile the time axis: where
    the keys of [fid] and [fid + 1] are computed without overflow, neither
    range is empty and the range of [fid + 1] starts at the key that follows
    the last key of [fid], so no timestamp lies in both or between them. *)
Theorem X15_key_ranges_adjacent (daysPerFile precision fid perDay : Z) :
  0 <= precision ->
  tsMsPerDay !! Z.to_nat precision = Some perDay ->
  0 < daysPerFile ->
  int32 (fid * daysPerFile) -> int32 ((fid + 1) * daysPerFile) ->
  int64 (fid * (daysPerFile * perDay)) ->
  int64 ((fid + 1) * (daysPerFile * perDay) + daysPerFile * perDay - 1) ->
  exists minKey maxKey minKey' maxKey' : Z,
    tsdbGetKeyRangeOfFileId daysPerFile precision fid = Some (minKey, maxKey) /\
    tsdbGetKeyRangeOfFileId daysPerFile precision (fid + 1) = Some (minKey', maxKey') /\
    minKey <= maxKey /\ minKey' = maxKey + 1 /\ minKey' <= maxKey'.
Proof.
  intros Hp Hu Hd H32 H32' Hmin Hmax.
  assert (Hper : 0 < perDay).
  { unfold tsMsPerDay in Hu.
    destruct (Z.to_nat precision) as [|[|[|n]]]; simpl in Hu; inversion Hu; lia. }
  assert (Hspan : 0 < daysPerFile * perDay) by nia.
  unfold int64 in *.
  eexists _, _, _, _. split; [| split].
  - apply (tsdbGetKeyRangeOfFileId_exact _ _ _ perDay); try done; unfold int64; nia.
  - apply (tsdbGetKeyRangeOfFileId_exact _ _ _ perDay); try done; unfold int64; nia.
  - nia.
Qed.

End KeyRangeAdjacency.

Section DirectoryWitnesses.
Import Posix File.

Lemma fileH_three_no_7 : ~ has_group fileH_three 7.
Proof.
  intros (g & Hin & Hg). unfold fileH_three in Hin. cbn [fGroup] in Hin.
  repeat (apply elem_of_cons in Hin as [-> | Hin]; [discriminate |]).
  by apply elem_of_nil in Hin.
Qed.

Lemma quiet_nil files fdt : quiet (mkOS files fdt []).
Proof. constructor. Qed.

Lemma X3_remove_absent_witness :
  fileH_wf fileH_three /\ fid_small 7 /\ ~ has_group fileH_three 7 /\
  tsdbRemoveFileGroup fileH_three 7 os_three = (-1, fileH_three, os_three).
Proof.
  split; [exact fileH_three_wf |]. split; [by apply fid_small_lit |].
  split; [exact fileH_three_no_7 |].
  apply (X3_remove_absent fileH_three 7 os_three);
    [exact fileH_three_wf | by apply fid_small_lit | exact fileH_three_no_7].
Defined.



Lemma X6_failed_create_leaves_head_witness :
  fileH_wf fileH_empty /\ fid_small 5 /\ ~ has_group fileH_empty 5 /\
  numOfFGroups fileH_empty < maxFGroups fileH_empty /\
  quiet os_data_leftover /\
  0 <= idx_region_size (L := layout_example) 1 100 /\
  os_files os_data_leftover !! tsdbGetFileName "data" 5 ".head" = None /\
  os_files os_data_leftover !! tsdbGetFileName "data" 5 ".data" = Some [x01; x02] /\
  exists os' : OS,
    tsdbCreateFGroup (L := layout_example) fileH_empty "data" 5 100 os_data_leftover
      = (-1, fileH_empty, os') /\
    os_files os'
    = <[tsdbGetFileName "data" 5 ".head" :=
          zeros (TSDB_FILE_HEAD_SIZE (Layout := layout_example)
                 + idx_region_size (L := layout_example) 1 100)]>
        (os_files os_data_leftover) /\
    os_fdt os' = os_fdt os_data_leftover /\
    forall maxTables' : Z,
      tsdbCreateFGroup (L := layout_example) fileH_empty "data" 5 maxTables' os'
      = (-1, fileH_empty, os').
Proof.
  split; [exact fileH_empty_wf |]. split; [exact fid_small_5 |].
  split; [apply fileH_empty_no_group |]. split; [reflexivity |].
  split; [apply quiet_nil |]. split; [vm_compute; discriminate |].
  split; [reflexivity |]. split; [reflexivity |].
  apply (X6_failed_create_leaves_head (L := layout_example) fileH_empty "data" 5 100
           os_data_leftover [x01; x02]);
    [ exact fileH_empty_wf | exact fid_small_5 | apply fileH_empty_no_group
    | reflexivity | apply quiet_nil | vm_compute; discriminate
    | reflexivity | reflexivity ].
Defined.

Lemma X9_create_succeeds_witness :
  fileH_wf fileH_empty /\ fid_small 5 /\ ~ has_group fileH_empty 5 /\
  numOfFGroups fileH_empty < maxFGroups fileH_empty /\
  quiet os_empty /\
  0 <= idx_region_size (L := layout_example) 1 100 /\
  os_files os_empty !! tsdbGetFileName "data" 5 ".head" = None /\
  os_files os_empty !! tsdbGetFileName "data" 5 ".data" = None /\
  os_files os_empty !! tsdbGetFileName "data" 5 ".last" = None /\
  exists (h' : STsdbFileH) (os' : OS),
    tsdbCreateFGroup (L := layout_example) fileH_empty "data" 5 100 os_empty
      = (0, h', os') /\
    has_group h' 5 /\ os_fdt os' = os_fdt os_empty /\ quiet os'.
Proof.
  split; [exact fileH_empty_wf |]. split; [exact fid_small_5 |].
  split; [apply fileH_empty_no_group |]. split; [reflexivity |].
  split; [apply quiet_nil |]. split; [vm_compute; discriminate |].
  split; [reflexivity |]. split; [reflexivity |]. split; [reflexivity |].
  apply (X9_create_succeeds (L := layout_example) fileH_empty "data" 5 100 os_empty);
    [ exact fileH_empty_wf | exact fid_small_5 | apply fileH_empty_no_group
    | reflexivity | apply quiet_nil | vm_compute; discriminate
    | reflexivity | reflexivity | reflexivity ].
Defined.

Lemma X7_create_file_no_leak_witness :
  tsdbCreateFile (L := layout_example) "data" 5 ".head" 100 1 1 os_second_fails
    = (-1, mkSFile (-1) "data/f5.head" 0,
       mkOS {[ "data/f5.head"%string := [] ]} ∅ []) /\
  (-1 = 0 \/ -1 = -1) /\
  fname (mkSFile (-1) "data/f5.head" 0) = tsdbGetFileName "data" 5 ".head" /\
  (-1 = -1 \/ 1 <> 0 ->
   fd (mkSFile (-1) "data/f5.head" 0) = -1 /\
   os_fdt (mkOS {[ "data/f5.head"%string := [] ]} ∅ []) = os_fdt os_second_fails) /\
  (forall p, p <> tsdbGetFileName "data" 5 ".head" ->
     os_files (mkOS {[ "data/f5.head"%string := [] ]} ∅ []) !! p
     = os_files os_second_fails !! p).
Proof.
  split; [vm_compute; reflexivity |].
  apply (X7_create_file_no_leak (L := layout_example) "data" 5 ".head" 100 1 1
           os_second_fails).
  vm_compute; reflexivity.
Defined.

Lemma X8_create_file_left_open_witness :
  tsdbCreateFile (L := layout_example) "data" 5 ".h" 100 1 0 os_empty
    = (0, mkSFile 0 "data/f5.h" 2912,
       mkOS {[ "data/f5.h"%string := replicate 2912 x00 ]}
            {[ 0%nat := mkOpenFile "data/f5.h" 512 wflags ]} []) /\
  exists (n : nat) (c : list byte),
    fd (mkSFile 0 "data/f5.h" 2912) = Z.of_nat n /\ os_fdt os_empty !! n = None /\
    os_fdt (mkOS {[ "data/f5.h"%string := replicate 2912 x00 ]}
                 {[ 0%nat := mkOpenFile "data/f5.h" 512 wflags ]} [])
    = <[n := mkOpenFile (tsdbGetFileName "data" 5 ".h")
               (TSDB_FILE_HEAD_SIZE (Layout := layout_example)) wflags]>
        (os_fdt os_empty) /\
    os_files (mkOS {[ "data/f5.h"%string := replicate 2912 x00 ]}
                   {[ 0%nat := mkOpenFile "data/f5.h" 512 wflags ]} [])
      !! tsdbGetFileName "data" 5 ".h" = Some c /\
    c = zeros (TSDB_FILE_HEAD_SIZE (Layout := layout_example)
               + idx_region_size (L := layout_example) 1 100) /\
    size (mkSFile 0 "data/f5.h" 2912) = Z.of_nat (length c).
Proof.
  split; [vm_compute; reflexivity |].
  apply (X8_create_file_left_open (L := layout_example) "data" 5 ".h" 100 1 os_empty).
  vm_compute; reflexivity.
Defined.

Lemma X10_open_then_close_witness :
  tsdbOpenFile (mkSFile (-1) "data/f5.head" 2912) O_RDWR os_fgroup5
    = (0, mkSFile 0 "data/f5.head" 2912,
       mkOS (os_files os_fgroup5)
            {[ 0%nat := mkOpenFile "data/f5.head" 0 O_RDWR ]} []) /\
  fd (mkSFile (-1) "data/f5.head" 2912) = -1 /\
  0 <= fd (mkSFile 0 "data/f5.head" 2912) /\
  (forall oflag',
     tsdbOpenFile (mkSFile 0 "data/f5.head" 2912) oflag'
       (mkOS (os_files os_fgroup5) {[ 0%nat := mkOpenFile "data/f5.head" 0 O_RDWR ]} [])
     = (-1, mkSFile 0 "data/f5.head" 2912,
        mkOS (os_files os_fgroup5)
             {[ 0%nat := mkOpenFile "data/f5.head" 0 O_RDWR ]} [])) /\
  exists os2 : OS,
    tsdbCloseFile (mkSFile 0 "data/f5.head" 2912)
      (mkOS (os_files os_fgroup5) {[ 0%nat := mkOpenFile "data/f5.head" 0 O_RDWR ]} [])
    = (0, mkSFile (-1) "data/f5.head" 2912, os2) /\
    os_fdt os2 = os_fdt os_fgroup5 /\
    os_files os2 = os_files os_fgroup5 /\
    tsdbCloseFile (mkSFile (-1) "data/f5.head" 2912) os2
    = (-1, mkSFile (-1) "data/f5.head" 2912, os2).
Proof.
  split; [vm_compute; reflexivity |].
  apply (X10_open_then_close (mkSFile (-1) "data/f5.head" 2912) O_RDWR os_fgroup5
           (mkSFile 0 "data/f5.head" 2912)
           (mkOS (os_files os_fgroup5)
                 {[ 0%nat := mkOpenFile "data/f5.head" 0 O_RDWR ]} [])).
  vm_compute; reflexivity.
Defined.


Lemma X12_load_comp_idx_witness :
  files fgroup5_open = mkSFile 0 "data/f5.head" 2912 :: drop 1 (files fgroup5_open) /\
  os_fdt os_short_head !! 0%nat = Some (mkOpenFile "data/f5.head" 0 O_RDWR) /\
  os_files os_short_head !! "data/f5.head"%string = Some [x01; x02] /\
  quiet os_short_head /\
  exists os' : OS,
    tsdbLoadCompIdx (L := layout_example) fgroup5_open (replicate 2400 xff) 100
      os_short_head
    = (0,
       take (Z.to_nat (sizeof_SCompIdx (Layout := layout_example) * 100))
         (drop (Z.to_nat (TSDB_FILE_HEAD_SIZE (Layout := layout_example))) [x01; x02])
       ++ drop (length (take (Z.to_nat (sizeof_SCompIdx (Layout := layout_example) * 100))
                          (drop (Z.to_nat (TSDB_FILE_HEAD_SIZE (Layout := layout_example)))
                             [x01; x02])))
            (replicate 2400 xff),
       os') /\
    os_files os' = os_files os_short_head /\
    (Z.of_nat (length [x01; x02]) <= TSDB_FILE_HEAD_SIZE (Layout := layout_example) ->
     (tsdbLoadCompIdx (L := layout_example) fgroup5_open (replicate 2400 xff) 100
        os_short_head).1
     = (0, replicate 2400 xff)).
Proof.
  split; [reflexivity |]. split; [reflexivity |]. split; [reflexivity |].
  split; [apply quiet_nil |].
  apply (X12_load_comp_idx (L := layout_example) fgroup5_open
           (mkSFile 0 "data/f5.head" 2912) (drop 1 (files fgroup5_open)) 0
           (mkOpenFile "data/f5.head" 0 O_RDWR) [x01; x02] os_short_head
           (replicate 2400 xff) 100);
    [ reflexivity | reflexivity | reflexivity | reflexivity | reflexivity
    | apply quiet_nil | lia ].
Defined.

Lemma X13_load_comp_blocks_witness :
  quiet os_fgroup5_open /\ 0 <= len (mkSCompIdx 2900 40) < 2 ^ 64 /\
  (0 <= offset (mkSCompIdx 2900 40) ->
   exists os' : OS,
     tsdbLoadCompBlocks fgroup5_open (mkSCompIdx 2900 40) (replicate 40 xff) os_fgroup5_open
     = (0,
        take (Z.to_nat (len (mkSCompIdx 2900 40)))
          (drop (Z.to_nat (offset (mkSCompIdx 2900 40))) (replicate 2912 x00))
        ++ drop (length (take (Z.to_nat (len (mkSCompIdx 2900 40)))
                           (drop (Z.to_nat (offset (mkSCompIdx 2900 40)))
                              (replicate 2912 x00))))
             (replicate 40 xff),
        os') /\
     os_files os' = os_files os_fgroup5_open) /\
  (offset (mkSCompIdx 2900 40) < 0 ->
   tsdbLoadCompBlocks fgroup5_open (mkSCompIdx 2900 40) (replicate 40 xff) os_fgroup5_open
   = (-1, replicate 40 xff, os_fgroup5_open)).
Proof.
  split; [apply quiet_nil |]. split; [vm_compute; split; [discriminate | reflexivity] |].
  apply (X13_load_comp_blocks fgroup5_open
           (mkSFile 0 "data/f5.head" 2912) (drop 1 (files fgroup5_open)) 0
           (mkOpenFile "data/f5.head" 0 O_RDWR) (replicate 2912 x00) os_fgroup5_open
           (replicate 40 xff) (mkSCompIdx 2900 40));
    [ reflexivity | reflexivity | reflexivity | reflexivity | reflexivity
    | apply quiet_nil | vm_compute; split; [discriminate | reflexivity] ].
Defined.

Lemma X14_load_before_open_witness :
  fileH_wf fileH_empty /\ fid_small 5 /\ ~ has_group fileH_empty 5 /\
  tsdbCreateFGroup (L := layout_example) fileH_empty "data" 5 100 os_empty
    = (0, mkFileH 10 [fgroup5], os_fgroup5) /\
  forall (g : SFileGroup) (buf : list byte) (n : Z),
    g ∈ fGroup (mkFileH 10 [fgroup5]) -> fileId g = 5 ->
    Forall (fun f => fd f = -1) (files g) /\
    tsdbLoadCompIdx (L := layout_example) g buf n os_fgroup5 = (-1, buf, os_fgroup5).
Proof.
  split; [exact fileH_empty_wf |]. split; [exact fid_small_5 |].
  split; [apply fileH_empty_no_group |]. split; [vm_compute; reflexivity |].
  apply (X14_load_before_open (L := layout_example) fileH_empty "data" 5 100 os_empty
           (mkFileH 10 [fgroup5]) os_fgroup5);
    [ exact fileH_empty_wf | exact fid_small_5 | apply fileH_empty_no_group
    | vm_compute; reflexivity ].
Defined.

Lemma X15_key_ranges_adjacent_witness :
  exists minKey maxKey minKey' maxKey' : Z,
    tsdbGetKeyRangeOfFileId 10 0 1843 = Some (minKey, maxKey) /\
    tsdbGetKeyRangeOfFileId 10 0 (1843 + 1) = Some (minKey', maxKey') /\
    minKey <= maxKey /\ minKey' = maxKey + 1 /\ minKey' <= maxKey'.
Proof.
  apply (X15_key_ranges_adjacent 10 0 1843 86400000);
    [ lia | reflexivity | lia
    | unfold int32, INT_MIN, INT_MAX; lia
    | unfold int32, INT_MIN, INT_MAX; lia
    | unfold int64, INT64_MIN, INT64_MAX; lia
    | unfold int64, INT64_MIN, INT64_MAX; lia ].
Defined.

End DirectoryWitnesses.

(** * What the validation of a configuration changes *)

Section CfgMoreFacts.
Import Cfg.

Lemma kept_or_default_refl v d : kept_or_default v v d.
Proof. by left. Qed.

Lemma kept_or_default_trans v1 v2 v3 d :
  kept_or_default v1 v2 d -> kept_or_default v2 v3 d -> kept_or_default v1 v3 d.
Proof. unfold kept_or_default. intros [-> | [-> ->]] [-> | [? ->]]; auto. Qed.

Lemma defaults_only_refl c : defaults_only c c.
Proof. unfold defaults_only. repeat split; apply kept_or_default_refl. Qed.

Lemma defaults_only_trans c1 c2 c3 :
  defaults_only c1 c2 -> defaults_only c2 c3 -> defaults_only c1 c3.
Proof.
  unfold defaults_only.
  intros (A1 & A2 & A3 & A4 & A5 & A6 & A7 & A8) (B1 & B2 & B3 & B4 & B5 & B6 & B7 & B8).
  split; [by eapply kept_or_default_trans |]. split; [congruence |].
  repeat (split; [by eapply kept_or_default_trans |]). by eapply kept_or_default_trans.
Qed.

Lemma seq_step_defaults_only c s k :
  defaults_only c (step_cfg s) ->
  (forall c1, defaults_only c1 (step_cfg (k c1))) ->
  defaults_only c (step_cfg (s >> k)).
Proof.
  intros Hs Hk. destruct s as [c1 | code c1]; simpl in *; [| done].
  eapply defaults_only_trans; [exact Hs | apply Hk].
Qed.

Lemma check_precision_defaults_only c : defaults_only c (step_cfg (check_precision c)).
Proof.
  unfold check_precision.
  destruct (Z.eqb_spec (precision c) (-1)) as [E|E]; simpl.
  - unfold defaults_only, kept_or_default. simpl. repeat split; auto.
  - destruct (negb _); apply defaults_only_refl.
Qed.

Lemma check_tsdbId_defaults_only c : defaults_only c (step_cfg (check_tsdbId c)).
Proof. unfold check_tsdbId. destruct (_ <? _); apply defaults_only_refl. Qed.

Lemma check_rows_defaults_only c : defaults_only c (step_cfg (check_rows c)).
Proof. unfold check_rows. destruct (_ >? _); apply defaults_only_refl. Qed.

Lemma default_or_check_defaults_only get set d lo hi c :
  (get c = -1 -> defaults_only c (set d c)) ->
  defaults_only c (step_cfg (default_or_check get set d lo hi c)).
Proof.
  intros Hset. unfold default_or_check.
  destruct (Z.eqb_spec (get c) (-1)); [by apply Hset |].
  destruct (_ || _); apply defaults_only_refl.
Qed.

Ltac defaults_only_set :=
  intros c1; apply default_or_check_defaults_only; intros E;
  unfold defaults_only, kept_or_default; simpl; rewrite ?E; tauto.

Lemma tsdbCheckAndSetDefaultCfg_defaults_only c :
  defaults_only c (snd (tsdbCheckAndSetDefaultCfg c)).
Proof.
  unfold tsdbCheckAndSetDefaultCfg.
  replace (snd _) with (step_cfg (tsdbCheckAndSetDefaultCfg_steps c))
    by by destruct (tsdbCheckAndSetDefaultCfg_steps c).
  unfold tsdbCheckAndSetDefaultCfg_steps.
  apply seq_step_defaults_only; [| defaults_only_set].
  apply seq_step_defaults_only; [| defaults_only_set].
  apply seq_step_defaults_only; [| apply check_rows_defaults_only].
  apply seq_step_defaults_only; [| defaults_only_set].
  apply seq_step_defaults_only; [| defaults_only_set].
  apply seq_step_defaults_only; [| defaults_only_set].
  apply seq_step_defaults_only; [| defaults_only_set].
  apply seq_step_defaults_only; [| apply check_tsdbId_defaults_only].
  apply check_precision_defaults_only.
Qed.

Lemma seq_step_code s k :
  returns_minus_one s -> (forall c1, returns_minus_one (k c1)) ->
  returns_minus_one (s >> k).
Proof. intros Hs Hk. destruct s as [c0 | code c0]; simpl; auto. Qed.

Lemma default_or_check_code get set d lo hi c :
  returns_minus_one (default_or_check get set d lo hi c).
Proof.
  unfold default_or_check. destruct (_ =? _); [done |]. by destruct (_ || _).
Qed.

(** The only code the function returns early with is -1. *)
Lemma tsdbCheckAndSetDefaultCfg_steps_code c :
  returns_minus_one (tsdbCheckAndSetDefaultCfg_steps c).
Proof.
  unfold tsdbCheckAndSetDefaultCfg_steps.
  apply seq_step_code; [| intros; apply default_or_check_code].
  apply seq_step_code; [| intros; apply default_or_check_code].
  apply seq_step_code; [| intros c1; unfold check_rows; by destruct (_ >? _)].
  apply seq_step_code; [| intros; apply default_or_check_code].
  apply seq_step_code; [| intros; apply default_or_check_code].
  apply seq_step_code; [| intros; apply default_or_check_code].
  apply seq_step_code; [| intros; apply default_or_check_code].
  apply seq_step_code; [| intros c1; unfold check_tsdbId; by destruct (_ <? _)].
  unfold check_precision. destruct (_ =? _); [done |]. by destruct (negb _).
Qed.

(** X16.  [tsdbCheckAndSetDefaultCfg] writes to an option only to replace
    the sentinel -1 by the option's default.  Whatever it returns, every
    option of the configuration it leaves behind is the one passed in, or
    was -1 and is now the default; [tsdbId] is never written. *)
Theorem X16_check_cfg_writes_defaults_only (c : STsdbCfg) :
  defaults_only c (snd (tsdbCheckAndSetDefaultCfg c)) /\
  (fst (tsdbCheckAndSetDefaultCfg c) = 0 \/ fst (tsdbCheckAndSetDefaultCfg c) = -1).
Proof.
  split; [apply tsdbCheckAndSetDefaultCfg_defaults_only |].
  unfold tsdbCheckAndSetDefaultCfg.
  pose proof (tsdbCheckAndSetDefaultCfg_steps_code c) as H.
  destruct (tsdbCheckAndSetDefaultCfg_steps c) as [c0 | code c0]; simpl in *; auto.
Qed.

Lemma dflt_valid v d lo hi :
  unset_or_within v lo hi -> lo <= d <= hi -> d <> -1 ->
  lo <= dflt v d <= hi.
Proof.
  unfold unset_or_within, dflt. intros Hv Hd Hne.
  destruct (Z.eqb_spec v (-1)); [done | by apply Hv].
Qed.

Lemma with_defaults_valid c :
  cfg_in_range c -> accepts c -> cfg_valid (with_defaults c).
Proof.
  unfold cfg_in_range, accepts, options_within, rows_ordered, cfg_valid.
  intros Hr ((H1 & H3 & H4 & H5 & H6 & H7 & H8) & H2 & H9).
  cbn [with_defaults precision tsdbId maxTables daysPerFile minRowsPerFileBlock
       maxRowsPerFileBlock keep maxCacheSize] in *.
  split; [apply dflt_valid; [done | done | done] |].
  split; [done |].
  split; [apply dflt_valid; [done | done | done] |].
  split; [apply dflt_valid; [done | done | done] |].
  split; [apply dflt_valid; [done | done | done] |].
  split; [apply dflt_valid; [done | done | done] |].
  split; [done |].
  split.
  - unfold dflt, TSDB_MIN_KEEP, TSDB_MAX_KEEP, TSDB_DEFAULT_KEEP, INT_MAX in *.
    destruct (Z.eqb_spec (keep c) (-1)); [lia |]. specialize (H7 n). lia.
  - apply dflt_valid; [done | done | done].
Qed.

Lemma cfg_valid_accepts c :
  cfg_valid c -> cfg_in_range c /\ accepts c /\ with_defaults c = c.
Proof.
  unfold cfg_valid, cfg_in_range, accepts, options_within, rows_ordered, unset_or_within.
  intros (H1 & H2 & H3 & H4 & H5 & H6 & H7 & H8 & H9).
  assert (Hd : forall v d lo, lo <= v -> 0 <= lo -> dflt v d = v).
  { intros v d lo Hv Hlo. unfold dflt. destruct (Z.eqb_spec v (-1)); [lia | done]. }
  assert (Hw : with_defaults c = c).
  { destruct c. unfold with_defaults. simpl in *.
    rewrite (Hd precision0 _ _ (proj1 H1)) by done.
    rewrite (Hd maxTables0 _ _ (proj1 H3)) by done.
    rewrite (Hd daysPerFile0 _ _ (proj1 H4)) by done.
    rewrite (Hd minRowsPerFileBlock0 _ _ (proj1 H5)) by done.
    rewrite (Hd maxRowsPerFileBlock0 _ _ (proj1 H6)) by done.
    rewrite (Hd keep0 _ _ (proj1 H8)) by done.
    rewrite (Hd maxCacheSize0 _ _ (proj1 H9)) by done. done. }
  split; [unfold TSDB_MAX_KEEP in H8; lia |]. split; [| done].
  rewrite Hw. unfold TSDB_MIN_ID, TSDB_MIN_KEEP in *.
  repeat split; intros; lia || tauto.
Qed.

(** X17.  A configuration that [tsdbCheckAndSetDefaultCfg] has accepted
    holds no sentinel: every option lies within the bounds of the validation
    and [minRowsPerFileBlock <= maxRowsPerFileBlock].  Validating it again
    accepts it and changes nothing. *)
Theorem X17_check_cfg_idempotent (c c' : STsdbCfg) :
  cfg_in_range c ->
  tsdbCheckAndSetDefaultCfg c = (0, c') ->
  cfg_valid c' /\ tsdbCheckAndSetDefaultCfg c' = (0, c').
Proof.
  intros Hr E.
  destruct (tsdbCheckAndSetDefaultCfg_spec c Hr) as [[Ha E1] | [_ E1]];
    [| rewrite E in E1; simpl in E1; lia].
  rewrite E in E1. inversion E1; subst c'.
  pose proof (with_defaults_valid c Hr Ha) as Hv.
  split; [done |].
  destruct (cfg_valid_accepts _ Hv) as (Hr' & Ha' & Hw).
  destruct (tsdbCheckAndSetDefaultCfg_spec _ Hr') as [[_ E2] | [Hna _]]; [| done].
  by rewrite E2, Hw.
Qed.

(** The converse: a configuration within the bounds is accepted as it is. *)
Lemma cfg_valid_accepted c : cfg_valid c -> tsdbCheckAndSetDefaultCfg c = (0, c).
Proof.
  intros Hv. destruct (cfg_valid_accepts _ Hv) as (Hr & Ha & Hw).
  destruct (tsdbCheckAndSetDefaultCfg_spec _ Hr) as [[_ E] | [Hna _]]; [| done].
  by rewrite E, Hw.
Qed.

End CfgMoreFacts.

Section CfgMoreExamples.
Import Cfg.

Lemma X17_check_cfg_idempotent_witness :
  cfg_in_range tsdbSetDefaultCfg /\
  tsdbCheckAndSetDefaultCfg tsdbSetDefaultCfg
    = (0, mkCfg 0 0 1000 10 100 4096 3650 16777216) /\
  cfg_valid (mkCfg 0 0 1000 10 100 4096 3650 16777216) /\
  tsdbCheckAndSetDefaultCfg (mkCfg 0 0 1000 10 100 4096 3650 16777216)
    = (0, mkCfg 0 0 1000 10 100 4096 3650 16777216).
Proof.
  split; [unfold cfg_in_range; simpl; unfold INT_MAX; lia |].
  split; [reflexivity |].
  apply (X17_check_cfg_idempotent tsdbSetDefaultCfg
           (mkCfg 0 0 1000 10 100 4096 3650 16777216));
    [unfold cfg_in_range; simpl; unfold INT_MAX; lia | reflexivity].
Defined.

End CfgMoreExamples.

(** * Reconfiguration, closing, the commit cycle and the submit path *)

Section ConfigRepoFacts.
Import Cfg Repo.

(** The loop of [tsdbTriggerCommit] reads [tables[i]] for every
    [i < maxTables]: past the end of the array when it is shorter. *)
Lemma freeze_loop_past n : forall i (ts : list (option Meta.STable)),
  (0 < n)%nat -> (length ts < i + n)%nat -> freeze_loop n i ts = None.
Proof.
  induction n as [|n IH]; intros i ts Hn Hlen; [lia |].
  cbn [freeze_loop].
  destruct (ts !! i) as [x|] eqn:Hx; [| done].
  apply lookup_lt_Some in Hx.
  destruct n as [|n]; [lia |].
  apply IH; [lia |]. rewrite length_insert. lia.
Qed.

(** X18.  [tsdbConfigRepo] stores the configuration it is given and returns
    0; it validates nothing and leaves the table array as it is.  So it
    takes a [maxTables] larger than the table array, and the next
    [tsdbTriggerCommit] then runs its loop over the tables past the end of
    the array. *)
Theorem X18_config_repo_unchecked (repo : STsdbRepo) (pCfg : STsdbCfg)
    (pMeta : Meta.STsdbMeta) :
  commit repo = 0 -> tsdbMeta repo = Some pMeta ->
  Z.of_nat (length (Meta.tables pMeta)) < maxTables pCfg ->
  exists repo' : STsdbRepo,
    tsdbConfigRepo repo pCfg = (0, repo') /\
    config repo' = pCfg /\ tsdbMeta repo' = tsdbMeta repo /\
    tsdbCache repo' = tsdbCache repo /\ state repo' = state repo /\
    commit repo' = commit repo /\
    tsdbTriggerCommit repo' = None.
Proof.
  intros Hc Hm Hlen. eexists. split; [reflexivity |].
  cbn [set_config config tsdbMeta tsdbCache state commit].
  do 5 (split; [done |]).
  unfold tsdbTriggerCommit, tsdbLockRepo, set_config, log, set_commit.
  cbn [commit config tsdbMeta]. rewrite Hc, Hm. simpl negb. cbv iota.
  unfold freeze_tables.
  destruct (Z.to_nat (maxTables pCfg)) as [|n] eqn:En; [lia |].
  rewrite freeze_loop_past by lia. done.
Qed.

(** X19.  [tsdbCloseRepo] returns 0, marks the repository CLOSED and frees
    the meta and cache objects, whether or not a commit is in flight: the
    commit flag is left as it is.  A commit task that runs afterwards works
    on the freed cache; so does a [tsdbTriggerCommit] that finds the flag
    clear, while one that finds it set still returns -1. *)
Theorem X19_close_repo_then_commit (repo : STsdbRepo) :
  exists repo' : STsdbRepo,
    tsdbCloseRepo repo = (0, repo') /\
    state repo' = TSDB_REPO_STATE_CLOSED /\
    tsdbMeta repo' = None /\ tsdbCache repo' = None /\
    commit repo' = commit repo /\ config repo' = config repo /\
    trace repo' = trace repo /\
    (forall alloc_fails Disk tsdbCommitToFile (disk : Disk),
       tsdbCommitData alloc_fails Disk tsdbCommitToFile repo' disk = None) /\
    (commit repo = 0 -> tsdbTriggerCommit repo' = None) /\
    (commit repo <> 0 ->
     tsdbTriggerCommit repo' = Some (-1, tsdbUnLockRepo (tsdbLockRepo repo'))).
Proof.
  eexists. split; [reflexivity |].
  cbn [set_cache set_meta set_state state tsdbMeta tsdbCache commit config trace].
  do 6 (split; [done |]). split; [done |]. split.
  - intros Hc. unfold tsdbTriggerCommit, tsdbLockRepo, log, set_commit.
    cbn [set_cache set_meta set_state state tsdbMeta tsdbCache commit config trace].
    rewrite Hc. simpl negb. cbv iota. unfold freeze_tables.
    by destruct (Z.to_nat _).
  - intros Hc. by apply tsdbTriggerCommit_rejected_nonzero.
Qed.

End ConfigRepoFacts.

Section ConfigRepoExamples.
Import Cfg Repo Inputs.

Lemma X18_config_repo_unchecked_witness :
  commit repo_idle = 0 /\ tsdbMeta repo_idle = Some meta_one_table /\
  Z.of_nat (length (Meta.tables meta_one_table))
    < maxTables (mkCfg 0 0 1000 10 100 4096 3650 16777216) /\
  exists repo' : STsdbRepo,
    tsdbConfigRepo repo_idle (mkCfg 0 0 1000 10 100 4096 3650 16777216) = (0, repo') /\
    config repo' = mkCfg 0 0 1000 10 100 4096 3650 16777216 /\
    tsdbMeta repo' = tsdbMeta repo_idle /\
    tsdbCache repo' = tsdbCache repo_idle /\ state repo' = state repo_idle /\
    commit repo' = commit repo_idle /\
    tsdbTriggerCommit repo' = None.
Proof.
  split; [reflexivity |]. split; [reflexivity |]. split; [reflexivity |].
  apply (X18_config_repo_unchecked repo_idle (mkCfg 0 0 1000 10 100 4096 3650 16777216)
           meta_one_table); reflexivity.
Defined.

End ConfigRepoExamples.

Section CommitCycleFacts.
Import Cfg Repo.

Variable alloc_fails : nat -> bool.
Variable Disk : Type.
Variable tsdbCommitToFile :
  STsdbCfg -> Z -> list (option SSkipListIterator) -> Disk ->
  Z * list (option SSkipListIterator) * Disk.

Hypothesis no_failure : forall k, alloc_fails k = false.






End CommitCycleFacts.

Section CommitCycleExamples.
Import Cfg Repo Inputs.



End CommitCycleExamples.

Section IteratorFacts.
Import Cfg Row Submit Repo.
Context `{ML : MsgLayout}.

Lemma rows_size_pos rows :
  rows <> [] -> Forall (fun row => 0 < dataRowLen row) rows -> 0 < rows_size rows.
Proof.
  intros Hne Hall. destruct rows as [|row rest]; [done |].
  inversion Hall as [|? ? Hrow Hrest]; subst. simpl.
  assert (0 <= rows_size rest).
  { clear -Hrest. induction Hrest as [|r l Hr _ IH]; simpl; lia. }
  lia.
Qed.

(** The block iterator started at [len_] bytes, with exactly the rows that
    remain to reach [totalLen]. *)
Lemma blk_iter_rows_exact rows : forall fuel len_ totalLen,
  (length rows < fuel)%nat ->
  rows <> [] -> Forall (fun row => 0 < dataRowLen row) rows ->
  len_ + rows_size rows = totalLen ->
  blk_iter_rows fuel (mkBlkIter totalLen len_ (Some rows)) = Some rows.
Proof.
  induction rows as [|row rest IH]; intros fuel len_ totalLen Hfuel Hne Hall Hlen; [done |].
  inversion Hall as [|? ? Hrow Hrest]; subst.
  destruct fuel as [|fuel]; [simpl in Hfuel; lia |].
  cbn [blk_iter_rows]. unfold tsdbGetSubmitBlkNext. cbn [bi_row bi_len bi_totalLen].
  destruct (Z.leb_spec (dataRowLen row) 0); [lia |].
  cbn [rows_size foldr]. fold (rows_size rest).
  destruct rest as [|row2 rest'].
  - simpl rows_size.
    destruct (Z.geb_spec (len_ + dataRowLen row) (len_ + (dataRowLen row + 0))); [| lia].
    destruct fuel as [|fuel]; [simpl in Hfuel; lia |]. reflexivity.
  - assert (0 < rows_size (row2 :: rest')) by by apply rows_size_pos.
    destruct (Z.geb_spec (len_ + dataRowLen row)
                (len_ + (dataRowLen row + rows_size (row2 :: rest')))); [lia |].
    rewrite (IH fuel (len_ + dataRowLen row)); [done | | done | done | lia].
    simpl in Hfuel |- *. lia.
Qed.

(** X21.  The block iterator visits every row of a well-formed block once,
    in order: [tsdbInitSubmitBlkIter] returns 0, the calls of
    [tsdbGetSubmitBlkNext] return the rows of the block one after the other,
    and the call after the last row returns NULL, as does every call after
    it. *)
Theorem X21_block_iterator (pBlock : SSubmitBlk) :
  blk_wf pBlock ->
  exists pIter : SSubmitBlkIter,
    tsdbInitSubmitBlkIter pBlock = Some pIter /\
    blk_iter_rows (S (length (data pBlock))) pIter = Some (data pBlock) /\
    forall pEnd : SSubmitBlkIter,
      bi_row pEnd = None -> tsdbGetSubmitBlkNext pEnd = Some (None, pEnd).
Proof.
  intros (Hne & Hall & Hlen). unfold tsdbInitSubmitBlkIter.
  pose proof (rows_size_pos _ Hne Hall).
  destruct (Z.leb_spec (len pBlock) 0); [lia |].
  eexists. split; [reflexivity |]. split.
  - apply blk_iter_rows_exact; [lia | done | done | lia].
  - intros pEnd Hend. unfold tsdbGetSubmitBlkNext. by rewrite Hend.
Qed.




End IteratorFacts.

Section InsertPathFacts.
Import Cfg Row Submit Repo.
Context `{ML : MsgLayout}.

Variable rand_node_info : nat -> Z * Z.
Variable alloc_fails : nat -> bool.

Local Abbreviation insertRows := (insert_rows rand_node_info alloc_fails).
Local Abbreviation insertEachRow := (insert_each rand_node_info alloc_fails).



(** X23.  [tdInsertRowToTable] has no error path for a full cache: when
    [tsdbAllocFromCache] returns NULL for the row, the function goes on to
    write through the NULL node and does not return -1. *)
Theorem X23_insert_row_cache_full (pRepo : STsdbRepo) (row : SDataRow) (pTable : nat)
    (pMeta : Meta.STsdbMeta) (t : Meta.STable) (pCache : Cache.STsdbCache) :
  tsdbMeta pRepo = Some pMeta -> Meta.tables pMeta !! pTable = Some (Some t) ->
  tsdbCache pRepo = Some pCache ->
  (Meta.mem t = None -> alloc_fails (tick pRepo) = false) ->
  (Cache.tsdbAllocFromCache pCache
     (wrap32 ((rand_node_info (tick pRepo)).2 + dataRowLen row)) (dataRowKey row)).1 = None ->
  tdInsertRowToTable rand_node_info alloc_fails pRepo row pTable = None.
Proof.
  intros Hm Ht Hc Hcalloc Hfull. unfold tdInsertRowToTable. rewrite Hm, Ht.
  cbn [next_tick tsdbCache]. rewrite Hc.
  destruct (rand_node_info (tick pRepo)) as [level headSize]. cbn [snd] in Hfull.
  destruct (Cache.tsdbAllocFromCache pCache _ _) as [pNode pCache'].
  cbn [fst] in Hfull. subst pNode.
  destruct (Meta.mem t) as [m|]; [done |].
  rewrite Hcalloc by done. by destruct (alloc_fails (S (tick pRepo))).
Qed.


End InsertPathFacts.

Section InsertPathExamples.
Import Cfg Row Submit Repo Inputs.

Lemma X21_block_iterator_witness :
  blk_wf blk_two_rows /\
  exists pIter : SSubmitBlkIter,
    tsdbInitSubmitBlkIter blk_two_rows = Some pIter /\
    blk_iter_rows (S (length (data blk_two_rows))) pIter = Some (data blk_two_rows) /\
    forall pEnd : SSubmitBlkIter,
      bi_row pEnd = None -> tsdbGetSubmitBlkNext pEnd = Some (None, pEnd).
Proof.
  assert (Hwf : blk_wf blk_two_rows).
  { split; [discriminate |]. split; [| reflexivity].
    repeat (constructor; [reflexivity |]). constructor. }
  split; [exact Hwf |]. apply (X21_block_iterator blk_two_rows). exact Hwf.
Defined.



Lemma X23_insert_row_cache_full_witness :
  tsdbMeta repo_exhausted = Some meta_one_table /\
  Meta.tables meta_one_table !! 0%nat = Some (Some table0) /\
  tsdbCache repo_exhausted = Some cache_exhausted /\
  (Meta.mem table0 = None -> no_alloc_failure (tick repo_exhausted) = false) /\
  (Cache.tsdbAllocFromCache cache_exhausted
     (wrap32 ((rand_const (tick repo_exhausted)).2 + dataRowLen (row_at 1000)))
     (dataRowKey (row_at 1000))).1 = None /\
  tdInsertRowToTable rand_const no_alloc_failure repo_exhausted (row_at 1000) 0 = None.
Proof.
  split; [reflexivity |]. split; [reflexivity |]. split; [reflexivity |].
  split; [reflexivity |]. split; [reflexivity |].
  apply (X23_insert_row_cache_full rand_const no_alloc_failure repo_exhausted (row_at 1000) 0
           meta_one_table table0 cache_exhausted); reflexivity.
Defined.


End InsertPathExamples.

(** * The configuration file *)

Section ConfigFileFacts.
Import Cfg Posix Repo Env.
Context `{CL : CfgLayout}.

(** Every way [open] can end on a file that exists or is to be created:
    failure with nothing changed, or a descriptor that was free, at the
    start of the file as it was (empty when new). *)
Lemma open_opened path flags os r os' :
  is_Some (os_files os !! path) \/ Z.testbit flags 6 = true ->
  open path flags os = (r, os') ->
  (r = -1 /\ os_fdt os' = os_fdt os /\ os_files os' = os_files os) \/
  exists n, r = Z.of_nat n /\
    opened os os' n path flags 0 (default [] (os_files os !! path)) /\
    os_faults os' = tail (os_faults os).
Proof.
  intros Hok. unfold open, next_fault.
  destruct (os_faults os) as [|b rest] eqn:Efl; [| destruct b]; cbn [tail];
    try (intros [= <- <-]; by left).
  - destruct (os_files os !! path) as [c|] eqn:Hc.
    + intros [= <- <-]. right. eexists. split; [reflexivity |].
      split; [| done]. split; [apply not_elem_of_dom, is_fresh |].
      split; [done |]. simpl. by rewrite insert_id.
    + destruct Hok as [[? [=]] | ->].
      intros [= <- <-]. right. eexists. split; [reflexivity |].
      split; [| done]. split; [apply not_elem_of_dom, is_fresh |]. done.
  - cbn [os_files os_fdt os_faults].
    destruct (os_files os !! path) as [c|] eqn:Hc.
    + intros [= <- <-]. right. eexists. split; [reflexivity |].
      split; [| done]. split; [apply not_elem_of_dom, is_fresh |].
      split; [done |]. simpl. by rewrite insert_id.
    + destruct Hok as [[? [=]] | ->].
      intros [= <- <-]. right. eexists. split; [reflexivity |].
      split; [| done]. split; [apply not_elem_of_dom, is_fresh |]. done.
Qed.

Lemma quiet_tail os os' : quiet os -> os_faults os' = tail (os_faults os) -> quiet os'.
Proof.
  unfold quiet. intros Hq ->. destruct (os_faults os); [done |]. by inversion Hq.
Qed.

Lemma open_opened_quiet path flags os :
  is_Some (os_files os !! path) \/ Z.testbit flags 6 = true -> quiet os ->
  exists n os', open path flags os = (Z.of_nat n, os') /\
    opened os os' n path flags 0 (default [] (os_files os !! path)) /\ quiet os'.
Proof.
  intros Hok Hq. unfold open.
  destruct (next_fault_quiet _ Hq) as (os1 & -> & Hq1 & Hf1 & Hd1).
  assert (Hfresh : os_fdt os !! fresh (dom (os_fdt os1)) = None).
  { rewrite <- Hd1. apply not_elem_of_dom, is_fresh. }
  rewrite Hf1. destruct (os_files os !! path) as [c|] eqn:Hc.
  - eexists _, _. split; [reflexivity |]. split; [| done].
    split; [done |]. simpl. rewrite ?Hd1, ?Hf1. split; [done |]. by rewrite insert_id.
  - destruct Hok as [[? [=]] | ->].
    eexists _, _. split; [reflexivity |]. split; [| done].
    split; [done |]. simpl. by rewrite ?Hd1, ?Hf1.
Qed.

(** Every way [read] can end on an open, readable descriptor. *)
Lemma read_opened os0 os n path flags pos c count r data os' :
  opened os0 os n path flags pos c ->
  readable (mkOpenFile path pos flags) = true ->
  read (Z.of_nat n) count os = (r, data, os') ->
  (r = -1 /\ data = [] /\ opened os0 os' n path flags pos c /\
   exists rest, os_faults os = true :: rest) \/
  (data = take (Z.to_nat count) (drop (Z.to_nat pos) c) /\
   r = Z.of_nat (length data) /\
   opened os0 os' n path flags (pos + r) c /\
   os_faults os' = tail (os_faults os) /\ hd false (os_faults os) = false).
Proof.
  intros (Hn & Hd & Hf) Hr. unfold read.
  rewrite fd_lookup_of_nat, Hd, lookup_insert_eq, Hr. unfold next_fault.
  destruct (os_faults os) as [|b rest] eqn:Efl; [| destruct b];
    cbn [os_files os_fdt os_faults of_path of_pos of_flags tail hd].
  - rewrite Hf, lookup_insert_eq. intros [= <- <- <-]. right.
    do 2 (split; [done |]). split; [| done]. split; [done |]. split; simpl.
    + by rewrite Nat2Z.id, Hd, insert_insert_eq.
    + done.
  - intros [= <- <- <-]. left. do 2 (split; [done |]). split; [| by eexists].
    split; [done |]. split; done.
  - rewrite Hf, lookup_insert_eq. intros [= <- <- <-]. right.
    do 2 (split; [done |]). split; [| done]. split; [done |]. split; simpl.
    + by rewrite Nat2Z.id, Hd, insert_insert_eq.
    + done.
Qed.

Lemma rdonly_readable path pos : readable (mkOpenFile path pos O_RDONLY) = true.
Proof. reflexivity. Qed.

Lemma wflags_bit : Z.testbit (Z.lor O_WRONLY O_CREAT) 6 = true.
Proof. reflexivity. Qed.

Lemma wcreat_writable path pos :
  writable (mkOpenFile path pos (Z.lor O_WRONLY O_CREAT)) = true.
Proof. reflexivity. Qed.

Lemma sizeof_STsdbCfg_nonneg : 0 <= sizeof_STsdbCfg.
Proof. rewrite <- (cfg_bytes_length tsdbSetDefaultCfg). lia. Qed.

Lemma cfg_bytes_nat_length c : length (cfg_bytes c) = Z.to_nat sizeof_STsdbCfg.
Proof. rewrite <- (cfg_bytes_length c). lia. Qed.

Lemma pwrite_start c buf : pwrite c 0 buf = buf ++ drop (length buf) c.
Proof. unfold pwrite. by rewrite take_0. Qed.

(** What [tsdbRestoreCfg] does once the file is open at its start. *)
Lemma restore_after_open repo pCfg os0 os n c r cfg os' :
  sizeof_STsdbCfg < 2 ^ 64 ->
  opened os0 os n (tsdbGetCfgFname repo) O_RDONLY 0 c ->
  (let '(k, data, os) := read (Z.of_nat n) sizeof_STsdbCfg os in
   let pCfg :=
     if k <? 0 then pCfg
     else cfg_of_bytes (data ++ drop (length data) (cfg_bytes pCfg)) in
   if to_size_t k <? sizeof_STsdbCfg
   then let '(_, os) := close (Z.of_nat n) os in (-1, pCfg, os)
   else let '(_, os) := close (Z.of_nat n) os in (0, pCfg, os)) = (r, cfg, os') ->
  os_fdt os' = os_fdt os0 /\ os_files os' = <[tsdbGetCfgFname repo := c]> (os_files os0) /\
  ((r = 0 /\ cfg = pCfg /\ exists rest, os_faults os = true :: rest) \/
   (hd false (os_faults os) = false /\
    cfg = cfg_of_bytes (take (Z.to_nat sizeof_STsdbCfg) c
                        ++ drop (length (take (Z.to_nat sizeof_STsdbCfg) c)) (cfg_bytes pCfg)) /\
    r = (if Z.of_nat (length c) <? sizeof_STsdbCfg then -1 else 0) /\
    os_faults os' = tail (os_faults os))).
Proof.
  intros Hsz Hop.
  pose proof sizeof_STsdbCfg_nonneg as Hnn.
  destruct (read (Z.of_nat n) sizeof_STsdbCfg os) as [[k data] os1] eqn:Er.
  destruct (read_opened _ _ _ _ _ _ _ _ _ _ _ Hop (rdonly_readable _ _) Er)
    as [(-> & -> & Hop1 & Hfl) | (Hdata & -> & Hop1 & Hfl & Hhd)].
  - destruct (close_opened _ _ _ _ _ _ _ Hop1) as (os2 & Ec & Hfd2 & Hfi2 & _).
    rewrite Ec. change (-1 <? 0) with true. cbv iota.
    replace (to_size_t (-1) <? sizeof_STsdbCfg) with false.
    + intros [= <- <- <-]. do 2 (split; [done |]). by left.
    + symmetry. apply Z.ltb_ge. unfold to_size_t.
      change ((-1) mod 2 ^ 64) with (2 ^ 64 - 1). lia.
  - destruct (close_opened _ _ _ _ _ _ _ Hop1) as (os2 & Ec & Hfd2 & Hfi2 & Hfl2).
    rewrite Ec. destruct (Z.ltb_spec (Z.of_nat (length data)) 0); [lia |].
    rewrite drop_0 in Hdata.
    assert (Hlen : Z.of_nat (length data)
                   = Z.min sizeof_STsdbCfg (Z.of_nat (length c))).
    { rewrite Hdata, length_take. lia. }
    assert (Hto : to_size_t (Z.of_nat (length data)) = Z.of_nat (length data)).
    { unfold to_size_t. apply Z.mod_small. lia. }
    rewrite Hto.
    assert (Hcmp : (Z.of_nat (length data) <? sizeof_STsdbCfg)
                   = (Z.of_nat (length c) <? sizeof_STsdbCfg)).
    { destruct (Z.ltb_spec (Z.of_nat (length data)) sizeof_STsdbCfg),
        (Z.ltb_spec (Z.of_nat (length c)) sizeof_STsdbCfg); try done; lia. }
    rewrite Hcmp.
    destruct (Z.of_nat (length c) <? sizeof_STsdbCfg); intros [= <- <- <-];
      (do 2 (split; [done |])); right; rewrite <- Hdata;
      (do 3 (split; [done |])); congruence.
Qed.

(** X25. Saving the configuration and restoring it gives the repository's
    configuration back, whatever the CONFIG file held before and whatever
    [*pCfg] held: both calls return 0, no descriptor is left open, and only
    the first [sizeof(STsdbCfg)] bytes of the CONFIG file are replaced. *)
Theorem X25_save_then_restore repo pCfg os :
  quiet os -> sizeof_STsdbCfg < 2 ^ 64 ->
  cfg_of_bytes (cfg_bytes (config repo)) = config repo ->
  exists os1 os2,
    tsdbSaveConfig repo os = (0, os1) /\
    os_fdt os1 = os_fdt os /\
    os_files os1
    = <[tsdbGetCfgFname repo :=
          cfg_bytes (config repo)
          ++ drop (Z.to_nat sizeof_STsdbCfg)
                  (default [] (os_files os !! tsdbGetCfgFname repo))]> (os_files os) /\
    tsdbRestoreCfg repo pCfg os1 = (0, config repo, os2) /\
    os_fdt os2 = os_fdt os /\ os_files os2 = os_files os1.
Proof.
  intros Hq Hsz Hrt. pose proof sizeof_STsdbCfg_nonneg as Hnn.
  unfold tsdbSaveConfig.
  destruct (open_opened_quiet (tsdbGetCfgFname repo) (Z.lor O_WRONLY O_CREAT) os
              (or_intror wflags_bit) Hq) as (n & osa & -> & Hop & Hqa).
  destruct (Z.ltb_spec (Z.of_nat n) 0); [lia |].
  destruct (write_opened_quiet _ _ _ _ _ _ _ (cfg_bytes (config repo)) Hop
              (wcreat_writable _ _) Hqa) as (osb & -> & Hopb & Hqb).
  destruct (Z.ltb_spec (Z.of_nat (length (cfg_bytes (config repo)))) 0); [lia |].
  destruct (close_opened _ _ _ _ _ _ _ Hopb) as (os1 & -> & Hfd1 & Hfi1 & Hfl1).
  change (Z.to_nat 0) with 0%nat in Hfi1. rewrite pwrite_start, cfg_bytes_nat_length in Hfi1.
  assert (Hq1 : quiet os1) by (unfold quiet; by rewrite Hfl1).
  set (c1 := cfg_bytes (config repo)
             ++ drop (Z.to_nat sizeof_STsdbCfg)
                     (default [] (os_files os !! tsdbGetCfgFname repo))) in *.
  assert (Hc1 : os_files os1 !! tsdbGetCfgFname repo = Some c1).
  { by rewrite Hfi1, lookup_insert_eq. }
  assert (Hres : exists os2, tsdbRestoreCfg repo pCfg os1 = (0, config repo, os2) /\
                    os_fdt os2 = os_fdt os1 /\ os_files os2 = os_files os1).
  { unfold tsdbRestoreCfg.
    destruct (open_opened_quiet (tsdbGetCfgFname repo) O_RDONLY os1
                (or_introl (ex_intro _ _ Hc1)) Hq1) as (m & osc & Eo & Hopc & Hqc).
    rewrite Eo. rewrite Hc1 in Hopc. change (default [] (Some c1)) with c1 in Hopc.
    destruct (Z.ltb_spec (Z.of_nat m) 0); [lia |].
    match goal with
    | |- exists _, ?t = _ /\ _ => destruct t as [[r cfg] os2] eqn:Er
    end.
    destruct (restore_after_open _ _ _ _ _ _ _ _ _ Hsz Hopc Er)
      as (Hfd2 & Hfi2 & [(_ & _ & rest & Hfl) | (_ & -> & -> & _)]).
    { exfalso. unfold quiet in Hqc. rewrite Hfl in Hqc. by inversion Hqc. }
    exists os2.
    assert (Htake : take (Z.to_nat sizeof_STsdbCfg) c1 = cfg_bytes (config repo)).
    { unfold c1. rewrite take_app_length'; [done | symmetry; apply cfg_bytes_nat_length]. }
    rewrite Htake.
    assert (Hlc : sizeof_STsdbCfg <= Z.of_nat (length c1)).
    { unfold c1. rewrite length_app, cfg_bytes_nat_length. lia. }
    destruct (Z.ltb_spec (Z.of_nat (length c1)) sizeof_STsdbCfg); [lia |].
    rewrite drop_ge by (rewrite !cfg_bytes_nat_length; lia).
    rewrite app_nil_r, Hrt. split; [done |]. split; [done |].
    by rewrite Hfi2, insert_id. }
  destruct Hres as (os2 & Hr & Hfd2 & Hfi2).
  exists os1, os2. do 4 (split; [done |]). split; [congruence | done].
Qed.

(** X26. When the CONFIG file opens and the [read] fails, [tsdbRestoreCfg]
    returns 0 with [*pCfg] as it was: the -1 of [read] is compared with a
    [size_t] and passes for a full read. *)
Theorem X26_restore_read_failure repo pCfg os rest :
  is_Some (os_files os !! tsdbGetCfgFname repo) ->
  os_faults os = false :: true :: rest ->
  sizeof_STsdbCfg < 2 ^ 64 ->
  exists os',
    tsdbRestoreCfg repo pCfg os = (0, pCfg, os') /\
    os_fdt os' = os_fdt os /\ os_files os' = os_files os.
Proof.
  intros Hex Hfl Hsz. unfold tsdbRestoreCfg.
  destruct (open (tsdbGetCfgFname repo) O_RDONLY os) as [fd osa] eqn:Eo.
  destruct (open_opened _ _ _ _ _ (or_introl Hex) Eo)
    as [(-> & _ & _) | (n & -> & Hop & Hfla)].
  { exfalso. revert Eo. unfold open, next_fault. rewrite Hfl.
    cbn [os_files os_fdt os_faults]. destruct Hex as [c ->]. intros [= ? ?]. lia. }
  rewrite Hfl in Hfla. cbn [tail] in Hfla.
  destruct (Z.ltb_spec (Z.of_nat n) 0); [lia |].
  match goal with
  | |- exists _, ?t = _ /\ _ => destruct t as [[r cfg] os'] eqn:Er
  end.
  destruct (restore_after_open _ _ _ _ _ _ _ _ _ Hsz Hop Er)
    as (Hfd2 & Hfi2 & [(-> & -> & _) | (Hhd & _)]).
  - exists os'. split; [done |]. split; [done |].
    destruct Hex as [c Hc]. rewrite Hfi2, Hc. cbn [default]. by rewrite insert_id.
  - rewrite Hfla in Hhd. discriminate.
Qed.

(** X27. However [tsdbRestoreCfg] ends, the descriptors and the files are as
    before and the result is 0 or -1.  A missing CONFIG file gives -1 with
    [*pCfg] untouched; a CONFIG file shorter than the structure, read
    without failure, gives -1 after its bytes have been copied over the
    start of [*pCfg]. *)
Theorem X27_restore_outcomes repo pCfg os r cfg os' :
  sizeof_STsdbCfg < 2 ^ 64 ->
  tsdbRestoreCfg repo pCfg os = (r, cfg, os') ->
  os_fdt os' = os_fdt os /\ os_files os' = os_files os /\ (r = 0 \/ r = -1) /\
  (os_files os !! tsdbGetCfgFname repo = None -> r = -1 /\ cfg = pCfg) /\
  (forall c, os_files os !! tsdbGetCfgFname repo = Some c ->
     Z.of_nat (length c) < sizeof_STsdbCfg -> quiet os ->
     r = -1 /\ cfg = cfg_of_bytes (c ++ drop (length c) (cfg_bytes pCfg))).
Proof.
  intros Hsz. unfold tsdbRestoreCfg.
  destruct (open (tsdbGetCfgFname repo) O_RDONLY os) as [fd osa] eqn:Eo.
  destruct (os_files os !! tsdbGetCfgFname repo) as [c|] eqn:Hc.
  - destruct (open_opened _ _ _ _ _ (or_introl (ex_intro _ c Hc)) Eo)
      as [(-> & Hfda & Hfia) | (n & -> & Hop & Hfla)].
    + change (-1 <? 0) with true. cbv iota. intros [= <- <- <-].
      do 2 (split; [done |]). split; [by right |]. split; [done |].
      intros c' [= <-] _ Hq. exfalso. revert Eo. unfold open.
      destruct (next_fault_quiet _ Hq) as (os1 & -> & _ & Hf1 & _).
      rewrite Hf1, Hc. intros [= ? ?]. lia.
    + rewrite Hc in Hop. change (default [] (Some c)) with c in Hop.
      destruct (Z.ltb_spec (Z.of_nat n) 0); [lia |]. intros Er.
      destruct (restore_after_open _ _ _ _ _ _ _ _ _ Hsz Hop Er)
        as (Hfd2 & Hfi2 & Hcase).
      split; [done |]. split; [by rewrite Hfi2, insert_id |].
      destruct Hcase as [(-> & -> & rest & Hfl) | (_ & -> & -> & _)].
      * split; [by left |]. split; [done |]. intros c' _ _ Hq. exfalso.
        assert (Hqa : quiet osa) by (by eapply quiet_tail).
        unfold quiet in Hqa. rewrite Hfl in Hqa. by inversion Hqa.
      * split; [destruct (_ <? _); [by right | by left] |]. split; [done |].
        intros c' [= <-] Hshort _.
        destruct (Z.ltb_spec (Z.of_nat (length c)) sizeof_STsdbCfg); [| lia].
        split; [done |]. by rewrite take_ge by lia.
  - assert (Hfail : fd = -1 /\ os_fdt osa = os_fdt os /\ os_files osa = os_files os).
    { revert Eo. unfold open. destruct (next_fault os) as [fail os1] eqn:Ef.
      destruct (next_fault_inv _ _ _ Ef) as [Hf1 Hd1].
      destruct fail; [by intros [= <- <-] |]. rewrite Hf1, Hc.
      change (Z.testbit O_RDONLY 6) with false. cbv iota. intros [= <- <-]. by rewrite Hf1, Hd1. }
    destruct Hfail as (-> & Hfda & Hfia).
    change (-1 <? 0) with true. cbv iota. intros [= <- <- <-].
    do 2 (split; [done |]). split; [by right |]. split; [done |]. by intros c [=].
Qed.

(** X28. When the CONFIG file opens and the [write] fails, [tsdbSaveConfig]
    returns -1 and leaves the descriptor it opened open; the CONFIG file
    exists afterwards, empty if it was not there before. *)
Theorem X28_save_write_failure repo os rest :
  os_faults os = false :: true :: rest ->
  exists n os',
    tsdbSaveConfig repo os = (-1, os') /\
    opened os os' n (tsdbGetCfgFname repo) (Z.lor O_WRONLY O_CREAT) 0
           (default [] (os_files os !! tsdbGetCfgFname repo)).
Proof.
  intros Hfl. unfold tsdbSaveConfig.
  destruct (open (tsdbGetCfgFname repo) (Z.lor O_WRONLY O_CREAT) os) as [fd osa] eqn:Eo.
  destruct (open_opened _ _ _ _ _ (or_intror wflags_bit) Eo)
    as [(-> & _ & _) | (n & -> & Hop & Hfla)].
  { exfalso. revert Eo. unfold open, next_fault. rewrite Hfl.
    cbn [os_files os_fdt os_faults]. rewrite wflags_bit.
    destruct (os_files os !! tsdbGetCfgFname repo); intros [= ? ?]; lia. }
  rewrite Hfl in Hfla. cbn [tail] in Hfla.
  destruct (Z.ltb_spec (Z.of_nat n) 0); [lia |].
  destruct (write (Z.of_nat n) (cfg_bytes (config repo)) osa) as [k osb] eqn:Ew.
  destruct (write_opened _ _ _ _ _ _ _ _ _ _ Hop (wcreat_writable _ _) Ew)
    as [(-> & Hopb) | (-> & _)].
  - change (-1 <? 0) with true. cbv iota. by exists n, osb.
  - exfalso. revert Ew. destruct Hop as (_ & Hd & _). unfold write.
    rewrite fd_lookup_of_nat, Hd, lookup_insert_eq, wcreat_writable.
    unfold next_fault. rewrite Hfla. intros [= ? ?]. lia.
Qed.

End ConfigFileFacts.

Section ConfigFileExamples.
Import Cfg Posix Repo Env Inputs.

Lemma X25_save_then_restore_witness :
  exists os1 os2,
    tsdbSaveConfig (CL := cfg_layout_example) repo_idle os_old_config = (0, os1) /\
    os_fdt os1 = os_fdt os_old_config /\
    os_files os1
    = <[tsdbGetCfgFname repo_idle :=
          cfg_bytes (CfgLayout := cfg_layout_example) (config repo_idle)
          ++ drop (Z.to_nat 40)
                  (default [] (os_files os_old_config !! tsdbGetCfgFname repo_idle))]>
        (os_files os_old_config) /\
    tsdbRestoreCfg (CL := cfg_layout_example) repo_idle tsdbSetDefaultCfg os1
    = (0, cfg_small, os2) /\
    os_fdt os2 = os_fdt os_old_config /\ os_files os2 = os_files os1.
Proof.
  apply (X25_save_then_restore (CL := cfg_layout_example) repo_idle tsdbSetDefaultCfg
           os_old_config).
  - constructor.
  - done.
  - vm_compute. reflexivity.
Defined.

Lemma X26_restore_read_failure_witness :
  exists os',
    tsdbRestoreCfg (CL := cfg_layout_example) repo_idle tsdbSetDefaultCfg
      os_old_config_second_fails = (0, tsdbSetDefaultCfg, os') /\
    os_fdt os' = os_fdt os_old_config_second_fails /\
    os_files os' = os_files os_old_config_second_fails.
Proof.
  apply (X26_restore_read_failure (CL := cfg_layout_example) repo_idle tsdbSetDefaultCfg
           os_old_config_second_fails []).
  - by eexists.
  - reflexivity.
  - done.
Defined.

Lemma X27_restore_outcomes_witness :
  exists r cfg os',
    tsdbRestoreCfg (CL := cfg_layout_example) repo_idle tsdbSetDefaultCfg os_short_config
    = (r, cfg, os') /\
    os_fdt os' = os_fdt os_short_config /\ os_files os' = os_files os_short_config /\
    r = -1 /\ precision cfg = 2 /\ maxTables cfg = -1.
Proof.
  destruct (tsdbRestoreCfg (CL := cfg_layout_example) repo_idle tsdbSetDefaultCfg
              os_short_config) as [[r cfg] os'] eqn:Er.
  destruct (X27_restore_outcomes (CL := cfg_layout_example) repo_idle tsdbSetDefaultCfg
              os_short_config r cfg os' ltac:(done) Er)
    as (Hfd & Hfi & _ & _ & Hshort).
  destruct (Hshort [x02; x00; x00; x00; x07; x00] eq_refl ltac:(done) ltac:(constructor))
    as [-> ->].
  eexists _, _, _. split; [reflexivity |]. do 2 (split; [done |]). by vm_compute.
Defined.

Lemma X28_save_write_failure_witness :
  exists n os',
    tsdbSaveConfig (CL := cfg_layout_example) repo_idle os_old_config_second_fails
    = (-1, os') /\
    opened os_old_config_second_fails os' n (tsdbGetCfgFname repo_idle)
           (Z.lor O_WRONLY O_CREAT) 0
           (default [] (os_files os_old_config_second_fails !! tsdbGetCfgFname repo_idle)).
Proof.
  apply (X28_save_write_failure (CL := cfg_layout_example) repo_idle
           os_old_config_second_fails []).
  reflexivity.
Defined.

End ConfigFileExamples.

(** * Reading rows from a frozen memtable *)

Section ReadRowsFacts.
Import Cfg Row Repo.

Lemma wrap32_succ k : 0 <= k < 2 ^ 31 - 1 -> wrap32 (k + 1) = k + 1.
Proof. intros Hk. apply wrap32_id. unfold int32, INT_MIN, INT_MAX. lia. Qed.

(** A run of the loop that stops on the row count: the cursor is on the
    last row appended. *)
Lemma read_rows_limit maxKey m pIter : forall k acc,
  0 <= k -> k + Z.of_nat (length pIter) < 2 ^ 31 ->
  let j := Z.to_nat (Z.max 1 (m - k)) in
  (j <= length pIter)%nat ->
  Forall (fun r => dataRowKey r <= maxKey) (take j pIter) ->
  read_rows pIter maxKey m k acc = (k + Z.of_nat j, drop (j - 1) pIter, acc ++ take j pIter).
Proof.
  induction pIter as [|row rest IH]; intros k acc Hk Hlen j Hj Hall.
  { simpl in Hj. lia. }
  cbn [length] in Hlen, Hj.
  assert (Hj1 : (1 <= j)%nat) by lia.
  destruct j as [|j'] eqn:Ej; [lia |].
  rewrite firstn_cons in Hall. apply Forall_cons in Hall as [Hrow Hall].
  cbn [read_rows]. destruct (Z.gtb_spec (dataRowKey row) maxKey); [lia |].
  rewrite wrap32_succ by lia.
  destruct (Z.geb_spec (k + 1) m) as [Hge | Hlt].
  - assert (j' = 0)%nat as -> by lia. reflexivity.
  - specialize (IH (k + 1) (acc ++ [row]) ltac:(lia) ltac:(lia)).
    assert (Ej' : Z.to_nat (Z.max 1 (m - (k + 1))) = j') by lia.
    cbv zeta in IH. rewrite Ej' in IH.
    rewrite IH; [| lia | done].
    assert (1 <= j')%nat by lia.
    replace (S j' - 1)%nat with (S (j' - 1)) by lia. rewrite firstn_cons. cbn [drop].
    rewrite <- app_assoc. f_equal. f_equal. lia.
Qed.

(** Every run of the loop: the rows appended are those the cursor passed,
    none above [maxKey]; it stops with nothing to read at the cursor, or on
    the row count with the cursor on the last row appended. *)
Lemma read_rows_inv maxKey m pIter : forall k acc,
  0 <= k -> k + Z.of_nat (length pIter) < 2 ^ 31 ->
  exists j : nat,
    (j <= length pIter)%nat /\
    Forall (fun r => dataRowKey r <= maxKey) (take j pIter) /\
    ((read_rows pIter maxKey m k acc = (k + Z.of_nat j, drop j pIter, acc ++ take j pIter) /\
      nothing_to_read (drop j pIter) maxKey /\ (j = 0%nat \/ k + Z.of_nat j < m)) \/
     (read_rows pIter maxKey m k acc
      = (k + Z.of_nat j, drop (j - 1) pIter, acc ++ take j pIter) /\
      j = Z.to_nat (Z.max 1 (m - k)))).
Proof.
  induction pIter as [|row rest IH]; intros k acc Hk Hlen.
  { exists 0%nat. split; [done |]. split; [done |]. left. simpl.
    rewrite Z.add_0_r, app_nil_r. by repeat split; try left. }
  cbn [length] in Hlen. cbn [read_rows].
  destruct (Z.gtb_spec (dataRowKey row) maxKey) as [Hgt | Hle].
  { exists 0%nat. split; [lia |]. split; [done |]. left. simpl.
    rewrite Z.add_0_r, app_nil_r. split; [done |]. split; [lia | by left]. }
  rewrite wrap32_succ by lia.
  destruct (Z.geb_spec (k + 1) m) as [Hge | Hlt].
  { exists 1%nat. cbn [length]. split; [lia |]. split; [by repeat constructor |].
    right. split; [reflexivity | lia]. }
  destruct (IH (k + 1) (acc ++ [row]) ltac:(lia) ltac:(lia))
    as (j & Hj & Hall & [(E & Hnone & Hcnt) | (E & Ej)]).
  - exists (S j). cbn [length]. split; [lia |]. rewrite firstn_cons.
    split; [by constructor |]. left. rewrite E, <- app_assoc. cbn [drop].
    split; [f_equal; f_equal; lia |]. split; [done |]. right. lia.
  - exists (S j). cbn [length]. split; [lia |]. rewrite firstn_cons.
    split; [by constructor |]. right. rewrite E, <- app_assoc.
    assert (1 <= j)%nat by lia.
    replace (S j - 1)%nat with (S (j - 1)) by lia. cbn [drop].
    split; [f_equal; f_equal; lia | lia].
Qed.

(** X29. A read that stops on the row count leaves the cursor on the last
    row it appended: with enough rows up to [maxKey], a read returns
    [max 1 maxRowsToRead] rows (one even for a count of zero or less), and
    the next read from the cursor it left starts with the last of them
    again. *)
Theorem X29_read_rows_repeats_last pIter maxKey maxRowsToRead :
  let m := Z.to_nat (Z.max 1 maxRowsToRead) in
  Z.of_nat (length pIter) < 2 ^ 31 ->
  (2 * m - 1 <= length pIter)%nat ->
  Forall (fun r => dataRowKey r <= maxKey) (take (2 * m - 1) pIter) ->
  tsdbReadRowsFromCache pIter maxKey maxRowsToRead
  = (Z.of_nat m, drop (m - 1) pIter, take m pIter) /\
  tsdbReadRowsFromCache (drop (m - 1) pIter) maxKey maxRowsToRead
  = (Z.of_nat m, drop (2 * m - 2) pIter, take m (drop (m - 1) pIter)) /\
  last (take m pIter) = head (take m (drop (m - 1) pIter)) /\
  is_Some (last (take m pIter)).
Proof.
  intros m Hlen Hm Hall.
  assert (Hm1 : (1 <= m)%nat) by lia.
  assert (Em : Z.to_nat (Z.max 1 (maxRowsToRead - 0)) = m) by (rewrite Z.sub_0_r; done).
  unfold tsdbReadRowsFromCache. split; [| split; [| split]].
  - pose proof (read_rows_limit maxKey maxRowsToRead pIter 0 [] ltac:(lia) ltac:(lia)) as H.
    cbv zeta in H. rewrite Em in H. rewrite H; [done | lia |].
    replace m with (m `min` (2 * m - 1))%nat by lia. rewrite <- take_take.
    by apply Forall_take.
  - pose proof (read_rows_limit maxKey maxRowsToRead (drop (m - 1) pIter) 0 []
                  ltac:(lia) ltac:(rewrite length_drop; lia)) as H.
    cbv zeta in H. rewrite Em in H. rewrite H.
    + rewrite drop_drop. do 2 f_equal. f_equal. lia.
    + rewrite length_drop. lia.
    + rewrite take_drop_commute. apply Forall_drop.
      by replace (m - 1 + m)%nat with (2 * m - 1)%nat by lia.
  - rewrite last_lookup, length_take, lookup_take_lt by lia.
    rewrite head_lookup, lookup_take_lt, lookup_drop by lia.
    f_equal. lia.
  - rewrite last_lookup, length_take, lookup_take_lt by lia.
    apply lookup_lt_is_Some. lia.
Qed.

(** X30. Whatever the arguments, [tsdbReadRowsFromCache] returns the number
    of rows it appended; these are the rows from the cursor on, in order,
    none with a key above [maxKey].  It stops with nothing left to read at
    the cursor, or on the row count with the cursor still on the last row
    appended. *)
Theorem X30_read_rows_outcomes pIter maxKey maxRowsToRead :
  Z.of_nat (length pIter) < 2 ^ 31 ->
  exists j : nat,
    (j <= length pIter)%nat /\
    Forall (fun r => dataRowKey r <= maxKey) (take j pIter) /\
    ((tsdbReadRowsFromCache pIter maxKey maxRowsToRead
      = (Z.of_nat j, drop j pIter, take j pIter) /\
      nothing_to_read (drop j pIter) maxKey /\
      (j = 0%nat \/ Z.of_nat j < maxRowsToRead)) \/
     (tsdbReadRowsFromCache pIter maxKey maxRowsToRead
      = (Z.of_nat j, drop (j - 1) pIter, take j pIter) /\
      j = Z.to_nat (Z.max 1 maxRowsToRead))).
Proof.
  intros Hlen. unfold tsdbReadRowsFromCache.
  destruct (read_rows_inv maxKey maxRowsToRead pIter 0 [] ltac:(lia) ltac:(lia))
    as (j & Hj & Hall & Hcase).
  exists j. split; [done |]. split; [done |].
  rewrite Z.sub_0_r, !Z.add_0_l, !app_nil_l in Hcase. exact Hcase.
Qed.

End ReadRowsFacts.

Section ReadRowsExamples.
Import Cfg Row Repo Inputs.

Lemma X29_read_rows_repeats_last_witness :
  tsdbReadRowsFromCache rows_six 2000 3
  = (3, drop 2 rows_six, take 3 rows_six) /\
  tsdbReadRowsFromCache (drop 2 rows_six) 2000 3
  = (3, drop 4 rows_six, take 3 (drop 2 rows_six)) /\
  last (take 3 rows_six) = head (take 3 (drop 2 rows_six)) /\
  is_Some (last (take 3 rows_six)).
Proof.
  apply (X29_read_rows_repeats_last rows_six 2000 3).
  - vm_compute. reflexivity.
  - vm_compute. lia.
  - vm_compute. repeat constructor; discriminate.
Defined.

Lemma X30_read_rows_outcomes_witness :
  exists j : nat,
    (j <= length rows_six)%nat /\
    Forall (fun r => dataRowKey r <= 1003) (take j rows_six) /\
    ((tsdbReadRowsFromCache rows_six 1003 100
      = (Z.of_nat j, drop j rows_six, take j rows_six) /\
      nothing_to_read (drop j rows_six) 1003 /\
      (j = 0%nat \/ Z.of_nat j < 100)) \/
     (tsdbReadRowsFromCache rows_six 1003 100
      = (Z.of_nat j, drop (j - 1) rows_six, take j rows_six) /\
      j = Z.to_nat (Z.max 1 100))).
Proof.
  apply (X30_read_rows_outcomes rows_six 1003 100).
  vm_compute. reflexivity.
Defined.

End ReadRowsExamples.
